(** * A shallow embedding of the MiniLlama2 tutorial notebooks

    The notebooks of lessons 4 and 5 define, on top of PyTorch, a
    multi-head attention layer, a transformer block, a sinusoidal positional
    encoding and a small language model.  This file embeds those classes in
    Rocq and proves properties of them.

    Modelling choices.
    - A tensor is what PyTorch stores for a contiguous tensor: a shape and
      the elements in row-major order.  [view] keeps the elements and
      replaces the shape, [transpose] moves the elements; [contiguous] is
      therefore the identity on this representation.
    - Floating-point numbers are idealised as real numbers ([R]): rounding,
      overflow, infinities and NaN are not modelled.  Where that reading
      hides a failure, module [F32] reads the code again on numbers that
      have the range of binary32.
    - Python exceptions are values of [exn]; a computation that can raise
      returns a [result].
    - The default random generator and the train/eval mode are an explicit
      state ([World]), threaded through constructors (which draw initial
      parameters) and through forward passes (dropout draws a mask). *)

From Stdlib Require Import List Arith PeanoNat ZArith Bool Lia.
From Stdlib Require Import Reals Lra.
Import ListNotations.

Set Implicit Arguments.

(* ================================================================== *)
(** * Exceptions and the two monads *)

Inductive exn : Type :=
| ZeroDivisionError
| AssertionError
| ValueError
| IndexError
| RuntimeError.

Inductive result (A : Type) : Type :=
| Ok (a : A)
| Raise (e : exn).

Arguments Ok {A} a.
Arguments Raise {A} e.

Definition rbind {A B} (m : result A) (k : A -> result B) : result B :=
  match m with
  | Ok a => k a
  | Raise e => Raise e
  end.

Declare Scope result_scope.
Delimit Scope result_scope with res.
Notation "x <- m ;; k" := (rbind m (fun x => k))
  (at level 61, m at next level, right associativity) : result_scope.
Notation "' pat <- m ;; k" := (rbind m (fun x => match x with pat => k end))
  (at level 61, pat pattern, m at next level, right associativity) : result_scope.

(** The ambient state of a PyTorch program: the mode set by
    [model.train()] / [model.eval()] and the stream of numbers the default
    generator will produce next.  Distributions are not modelled: an initial
    parameter is whatever number the stream yields. *)
Record World : Type := mkWorld {
  training : bool;
  gen : nat -> R
}.

Definition M (A : Type) : Type := World -> result (A * World).

Definition ret {A} (a : A) : M A := fun w => Ok (a, w).

Definition bind {A B} (m : M A) (k : A -> M B) : M B :=
  fun w => match m w with
           | Ok (a, w') => k a w'
           | Raise e => Raise e
           end.

Definition lift {A} (r : result A) : M A :=
  fun w => match r with
           | Ok a => Ok (a, w)
           | Raise e => Raise e
           end.

Definition raise {A} (e : exn) : M A := fun _ => Raise e.

Declare Scope m_scope.
Delimit Scope m_scope with M.
Notation "x <- m ;; k" := (bind m (fun x => k))
  (at level 61, m at next level, right associativity) : m_scope.
Notation "' pat <- m ;; k" := (bind m (fun x => match x with pat => k end))
  (at level 61, pat pattern, m at next level, right associativity) : m_scope.

(* ================================================================== *)
(** * Row-major index arithmetic *)

Definition numel (shape : list nat) : nat := fold_right Nat.mul 1 shape.

(** Offset of the multi-index [idx] in a contiguous tensor of shape
    [shape]. *)
Fixpoint ravel (shape idx : list nat) : nat :=
  match shape, idx with
  | _ :: ss, i :: rest => i * numel ss + ravel ss rest
  | _, _ => 0
  end.

(** Multi-index of offset [k]. *)
Fixpoint unravel (shape : list nat) (k : nat) : list nat :=
  match shape with
  | [] => []
  | _ :: ss => (k / numel ss) :: unravel ss (k mod numel ss)
  end.

(** [tab n f] is the list [f 0; ...; f (n-1)]. *)
Definition tab {A} (n : nat) (f : nat -> A) : list A := map f (seq 0 n).

(** [sumR n f] is [f 0 + ... + f (n-1)]. *)
Definition sumR (n : nat) (f : nat -> R) : R :=
  fold_right Rplus 0%R (tab n f).

(* ================================================================== *)
(** * Tensors *)

Record tensor : Type := mkT {
  shape : list nat;
  data : list R
}.

(** Integer tensors (token ids). *)
Record itensor : Type := mkIT {
  ishape : list nat;
  idata : list Z
}.

(** A tensor holds as many elements as its shape says. *)
Definition wf (t : tensor) : Prop := length (data t) = numel (shape t).

(** Element at a flat offset, and at a multi-index. *)
Definition at_ (t : tensor) (k : nat) : R := nth k (data t) 0%R.
Definition get (t : tensor) (idx : list nat) : R := at_ t (ravel (shape t) idx).

(** [idx] is a valid multi-index for [shape]. *)
Definition in_bounds (shape idx : list nat) : Prop := Forall2 lt idx shape.

(** Python's normalisation of a possibly negative dimension number. *)
Definition norm_dim (ndim : nat) (d : Z) : result nat :=
  let n := Z.of_nat ndim in
  if ((- n <=? d) && (d <? n))%Z
  then Ok (Z.to_nat (if (d <? 0)%Z then d + n else d)%Z)
  else Raise IndexError.

(** [x.size(d)]. *)
Definition size_at (t : tensor) (d : Z) : result nat :=
  (i <- norm_dim (length (shape t)) d ;;
   Ok (nth i (shape t) 0))%res.

(** [a, b, c = x.size()]. *)
Definition size3 (t : tensor) : result (nat * nat * nat) :=
  match shape t with
  | [a; b; c] => Ok (a, b, c)
  | _ => Raise ValueError
  end.

(** Equality of shapes. *)
Fixpoint shape_eqb (s1 s2 : list nat) : bool :=
  match s1, s2 with
  | [], [] => true
  | a :: s1', b :: s2' => (a =? b) && shape_eqb s1' s2'
  | _, _ => false
  end.

(** [torch.zeros(shape)]. *)
Definition zeros (s : list nat) : tensor := mkT s (repeat 0%R (numel s)).

(** [x.view(new_shape)] of a contiguous tensor. *)
Definition view (t : tensor) (s : list nat) : result tensor :=
  if numel s =? numel (shape t) then Ok (mkT s (data t)) else Raise RuntimeError.

(** [x.contiguous()]. *)
Definition contiguous (t : tensor) : tensor := t.

(** Exchange of the entries at positions [a] and [b] of a list. *)
Definition swap (a b : nat) (l : list nat) : list nat :=
  tab (length l)
      (fun i => nth (if i =? a then b else if i =? b then a else i) l 0).

(** [x.transpose(d0, d1)], materialised. *)
Definition transpose (t : tensor) (d0 d1 : Z) : result tensor :=
  (a <- norm_dim (length (shape t)) d0 ;;
   b <- norm_dim (length (shape t)) d1 ;;
   let s' := swap a b (shape t) in
   Ok (mkT s' (tab (numel s')
                   (fun k => get t (swap a b (unravel s' k))))))%res.

(** Elementwise map, and [x * c] for a Python number [c]. *)
Definition tmap (f : R -> R) (t : tensor) : tensor :=
  mkT (shape t) (map f (data t)).

Definition mul_scalar (t : tensor) (c : R) : tensor :=
  tmap (fun v => (v * c)%R) t.

(** [torch.matmul(a, b)] for operands of equal rank at least 2 and equal
    batch dimensions (the only way the notebooks call it; PyTorch would
    also broadcast unequal batch dimensions). *)
Definition matmul (a b : tensor) : result tensor :=
  match rev (shape a), rev (shape b) with
  | k :: n :: ra, m :: k' :: rb =>
      if (k =? k') && shape_eqb ra rb
      then
        let batch := rev ra in
        Ok (mkT (batch ++ [n; m])
                (tab (numel batch * n * m)
                     (fun idx =>
                        let bi := idx / (n * m) in
                        let r := (idx / m) mod n in
                        let c := idx mod m in
                        sumR k (fun t =>
                          (at_ a ((bi * n + r) * k + t) *
                           at_ b ((bi * k + t) * m + c))%R))))
      else Raise RuntimeError
  | _, _ => Raise RuntimeError
  end.

(** [torch.softmax(x, dim=-1)]: every row of the last dimension is
    exponentiated and divided by its sum (a tensor without dimensions is
    one row of one element). *)
Definition softmax (t : tensor) : tensor :=
  let n := match rev (shape t) with n :: _ => n | [] => 1 end in
  mkT (shape t)
      (tab (numel (shape t))
           (fun idx =>
              (exp (at_ t idx) /
               sumR n (fun j => exp (at_ t ((idx / n) * n + j))))%R)).

(** Broadcasting of two shapes, on the reversed shapes (trailing dimension
    first): sizes must be equal, or one of them 1, or one of them absent. *)
Fixpoint broadcast_rev (r1 r2 : list nat) : option (list nat) :=
  match r1, r2 with
  | [], r => Some r
  | r, [] => Some r
  | a :: r1', b :: r2' =>
      match broadcast_rev r1' r2' with
      | Some r =>
          if a =? b then Some (a :: r)
          else if a =? 1 then Some (b :: r)
          else if b =? 1 then Some (a :: r)
          else None
      | None => None
      end
  end.

Definition broadcast_shapes (s1 s2 : list nat) : option (list nat) :=
  option_map (@rev nat) (broadcast_rev (rev s1) (rev s2)).

(** Index into an operand of shape [s] for the index [idx] of the broadcast
    result: the trailing components, with 0 along dimensions of size 1. *)
Definition bidx (s idx : list nat) : list nat :=
  map (fun p => if fst p =? 1 then 0 else snd p)
      (combine s (skipn (length idx - length s) idx)).

(** [a + b] with broadcasting. *)
Definition add (a b : tensor) : result tensor :=
  match broadcast_shapes (shape a) (shape b) with
  | Some s =>
      Ok (mkT s (tab (numel s)
                     (fun k =>
                        let idx := unravel s k in
                        (get a (bidx (shape a) idx) +
                         get b (bidx (shape b) idx))%R)))
  | None => Raise RuntimeError
  end.

(** [a * b] with broadcasting. *)
Definition mul (a b : tensor) : result tensor :=
  match broadcast_shapes (shape a) (shape b) with
  | Some s =>
      Ok (mkT s (tab (numel s)
                     (fun k =>
                        let idx := unravel s k in
                        (get a (bidx (shape a) idx) *
                         get b (bidx (shape b) idx))%R)))
  | None => Raise RuntimeError
  end.

(** [torch.arange(0, n)] and [torch.arange(0, n, 2)]. *)
Definition arange (n : nat) : tensor := mkT [n] (tab n INR).

Definition arange2 (n : nat) : tensor :=
  mkT [(n + 1) / 2] (tab ((n + 1) / 2) (fun i => INR (2 * i))).

(** [x.unsqueeze(1)] of a one-dimensional tensor. *)
Definition unsqueeze1 (t : tensor) : result tensor :=
  match shape t with
  | [n] => Ok (mkT [n; 1] (data t))
  | _ => Raise IndexError
  end.

(** Number of columns selected by the slice [start::2] out of [e]. *)
Definition ncols2 (e start : nat) : nat := (e - start + 1) / 2.

(** [dst[:, start::2] = src] for a two-dimensional [dst]: [src] must expand
    to the shape of the selected columns. *)
Definition setitem_cols2 (dst : tensor) (start : nat) (src : tensor)
  : result tensor :=
  match shape dst with
  | [m; e] =>
      let sel := [m; ncols2 e start] in
      match broadcast_shapes (shape src) sel with
      | Some s =>
          if shape_eqb s sel
          then Ok (mkT [m; e]
                       (tab (m * e)
                            (fun k =>
                               let r := k / e in
                               let c := k mod e in
                               if (start <=? c) && ((c - start) mod 2 =? 0)
                               then get src (bidx (shape src)
                                                  [r; (c - start) / 2])
                               else at_ dst k)))
          else Raise RuntimeError
      | None => Raise RuntimeError
      end
  | _ => Raise IndexError
  end.

(** [x[:n, :]] for a two-dimensional [x]. *)
Definition slice_rows (t : tensor) (n : nat) : result tensor :=
  match shape t with
  | [m; e] => Ok (mkT [Nat.min n m; e] (firstn (Nat.min n m * e) (data t)))
  | _ => Raise IndexError
  end.

(** [x[..., start : start + len]]: one chunk of the last dimension. *)
Definition narrow_last (t : tensor) (start len : nat) : result tensor :=
  match rev (shape t) with
  | n :: rpre =>
      if start + len <=? n
      then Ok (mkT (rev rpre ++ [len])
                   (tab (numel (rev rpre) * len)
                        (fun k => at_ t ((k / len) * n + start + k mod len))))
      else Raise IndexError
  | [] => Raise IndexError
  end.

(** [x.mean(dim=1)] of a four-dimensional tensor. *)
Definition mean_dim1 (t : tensor) : result tensor :=
  match shape t with
  | [n; h; l; s] =>
      Ok (mkT [n; l; s]
              (tab (n * l * s)
                   (fun k =>
                      let b := k / (l * s) in
                      let r := k mod (l * s) in
                      (sumR h (fun j => at_ t ((b * h + j) * (l * s) + r))
                       / INR h)%R)))
  | _ => Raise IndexError
  end.

(** Python's [base ** e] for a non-negative integer base and a float
    exponent. *)
Definition py_pow (base : nat) (e : R) : result R :=
  if base =? 0
  then if Rlt_dec e 0 then Raise ZeroDivisionError
       else if Req_dec_T e 0 then Ok 1%R else Ok 0%R
  else Ok (Rpower (INR base) e).

(** Python's [a // b] on non-negative integers. *)
Definition floordiv (a b : nat) : result nat :=
  if b =? 0 then Raise ZeroDivisionError else Ok (a / b).

(** Python's [a % b] on non-negative integers. *)
Definition pymod (a b : nat) : result nat :=
  if b =? 0 then Raise ZeroDivisionError else Ok (a mod b).

(** [assert c]. *)
Definition assert (c : bool) : result unit :=
  if c then Ok tt else Raise AssertionError.

(* ================================================================== *)
(** * The layers of [torch.nn] that the notebooks use *)

(** A callable module with one tensor in and one tensor out. *)
Definition nnModule : Type := tensor -> M tensor.

(** Next [numel s] numbers of the generator, as a tensor of shape [s]. *)
Definition draw (s : list nat) : M tensor :=
  fun w => Ok (mkT s (tab (numel s) (gen w)),
               mkWorld (training w) (fun k => gen w (numel s + k))).

(** ** [nn.Linear] *)
Record Linear : Type := mkLinear {
  weight : tensor;   (* [out_features; in_features] *)
  bias : tensor      (* [out_features] *)
}.

Definition Linear_init (in_features out_features : nat) : M Linear :=
  (w <- draw [out_features; in_features] ;;
   b <- draw [out_features] ;;
   ret (mkLinear w b))%M.

(** [F.linear(x, W, b)]: [y[..., o] = sum_i x[..., i] * W[o, i] + b[o]]. *)
Definition linear (x W b : tensor) : result tensor :=
  match shape W, rev (shape x) with
  | [o; i], k :: rpre =>
      if k =? i
      then Ok (mkT (rev rpre ++ [o])
                   (tab (numel (rev rpre) * o)
                        (fun idx =>
                           (sumR i (fun t =>
                              at_ x ((idx / o) * i + t) *
                              at_ W ((idx mod o) * i + t))
                            + at_ b (idx mod o))%R)))
      else Raise RuntimeError
  | _, _ => Raise RuntimeError
  end.

Definition Linear_forward (self : Linear) (x : tensor) : result tensor :=
  linear x (weight self) (bias self).

(** ** [nn.ReLU] *)
Definition ReLU_forward (x : tensor) : tensor := tmap (Rmax 0) x.

(** ** [nn.Sequential] *)
Fixpoint Sequential (layers : list nnModule) : nnModule :=
  fun x =>
    match layers with
    | [] => ret x
    | l :: ls => (y <- l x ;; Sequential ls y)%M
    end.

(** ** [nn.LayerNorm(normalized_shape=E)], with the default [eps]. *)
Record LayerNorm : Type := mkLayerNorm {
  ln_weight : tensor;
  ln_bias : tensor;
  ln_eps : R
}.

Definition LayerNorm_init (e : nat) : LayerNorm :=
  mkLayerNorm (mkT [e] (repeat 1%R e)) (mkT [e] (repeat 0%R e)) (1 / 100000)%R.

Definition row_mean (x : tensor) (n r : nat) : R :=
  (sumR n (fun j => at_ x (r * n + j)) / INR n)%R.

Definition row_var (x : tensor) (n r : nat) : R :=
  (sumR n (fun j => (at_ x (r * n + j) - row_mean x n r) *
                    (at_ x (r * n + j) - row_mean x n r)) / INR n)%R.

Definition LayerNorm_forward (self : LayerNorm) (x : tensor) : result tensor :=
  match shape (ln_weight self), rev (shape x) with
  | [e], n :: _ =>
      if n =? e
      then Ok (mkT (shape x)
                   (tab (numel (shape x))
                        (fun idx =>
                           let r := idx / n in
                           let j := idx mod n in
                           ((at_ x idx - row_mean x n r)
                            / sqrt (row_var x n r + ln_eps self)
                            * at_ (ln_weight self) j
                            + at_ (ln_bias self) j)%R)))
      else Raise RuntimeError
  | _, _ => Raise RuntimeError
  end.

(** ** [nn.Dropout(p)] *)
Record Dropout : Type := mkDropout { drop_p : R }.

Definition Dropout_init (p : R) : result Dropout :=
  if Rlt_dec p 0 then Raise ValueError
  else if Rlt_dec 1 p then Raise ValueError
  else Ok (mkDropout p).

(** In training mode every element is zeroed when its draw falls under [p]
    and scaled by [1 / (1 - p)] otherwise ([p = 1] zeroes everything); in
    evaluation mode the input is returned as it is. *)
Definition Dropout_forward (self : Dropout) : nnModule :=
  fun x w =>
    if training w
    then
      let n := numel (shape x) in
      Ok (mkT (shape x)
              (tab n (fun k =>
                        if Req_dec_T (drop_p self) 1 then 0%R
                        else if Rlt_dec (gen w k) (drop_p self) then 0%R
                        else (at_ x k / (1 - drop_p self))%R)),
          mkWorld (training w) (fun k => gen w (n + k)))
    else Ok (x, w).

(** ** [nn.Embedding] *)
Record Embedding : Type := mkEmbedding {
  emb_weight : tensor   (* [num_embeddings; embedding_dim] *)
}.

Definition Embedding_init (num_embeddings embedding_dim : nat) : M Embedding :=
  (w <- draw [num_embeddings; embedding_dim] ;;
   ret (mkEmbedding w))%M.

(** [F.embedding]: every index must lie in [[0, num_embeddings)]. *)
Definition Embedding_forward (self : Embedding) (ids : itensor)
  : result tensor :=
  match shape (emb_weight self) with
  | [v; e] =>
      if forallb (fun i => (0 <=? i)%Z && (i <? Z.of_nat v)%Z) (idata ids)
      then Ok (mkT (ishape ids ++ [e])
                   (tab (numel (ishape ids) * e)
                        (fun k =>
                           at_ (emb_weight self)
                               (Z.to_nat (nth (k / e) (idata ids) 0%Z) * e
                                + k mod e))))
      else Raise IndexError
  | _ => Raise RuntimeError
  end.

(* ================================================================== *)
(** * Lesson 4: multi-head attention and the transformer block *)

Module Lesson4.

Record MultiHeadAttention : Type := mkMultiHeadAttention {
  embed_dim : nat;
  num_heads : nat;
  head_dim : nat;
  query : Linear;
  key : Linear;
  value : Linear;
  out : Linear;
  scale : R
}.

Definition MultiHeadAttention_init (embed_dim num_heads : nat)
  : M MultiHeadAttention :=
  (head_dim <- lift (floordiv embed_dim num_heads) ;;
   r <- lift (pymod embed_dim num_heads) ;;
   _ <- lift (assert (r =? 0)) ;;
   query <- Linear_init embed_dim embed_dim ;;
   key <- Linear_init embed_dim embed_dim ;;
   value <- Linear_init embed_dim embed_dim ;;
   out <- Linear_init embed_dim embed_dim ;;
   scale <- lift (py_pow head_dim (- (1 / 2))) ;;
   ret (mkMultiHeadAttention embed_dim num_heads head_dim
                             query key value out scale))%M.

Definition MultiHeadAttention_forward (self : MultiHeadAttention) (x : tensor)
  : result (tensor * tensor) :=
  ('(batch_size, seq_length, embed_dim) <- size3 x ;;
   (* Step 1: Compute Q, K, V *)
   Q <- Linear_forward (query self) x ;;
   K <- Linear_forward (key self) x ;;
   V <- Linear_forward (value self) x ;;
   (* Step 2: Split into multiple heads *)
   Q <- view Q [batch_size; seq_length; num_heads self; head_dim self] ;;
   Q <- transpose Q 1 2 ;;
   K <- view K [batch_size; seq_length; num_heads self; head_dim self] ;;
   K <- transpose K 1 2 ;;
   V <- view V [batch_size; seq_length; num_heads self; head_dim self] ;;
   V <- transpose V 1 2 ;;
   (* Step 3: Compute attention scores *)
   Kt <- transpose K (-2) (-1) ;;
   QK <- matmul Q Kt ;;
   let scores := mul_scalar QK (scale self) in
   (* Step 4: Apply softmax for weights *)
   let attn_weights := softmax scores in
   (* Step 5: Combine with values *)
   o <- matmul attn_weights V ;;
   (* Step 6: Reshape and combine heads *)
   o <- transpose o 1 2 ;;
   o <- view (contiguous o) [batch_size; seq_length; embed_dim] ;;
   o <- Linear_forward (out self) o ;;
   Ok (o, attn_weights))%res.

(** The sub-modules of a block are attributes that are called; they are
    kept as callables so that any of them can be replaced. *)
Record TransformerBlock : Type := mkTransformerBlock {
  attention : tensor -> M (tensor * tensor);
  ffn : nnModule;
  norm1 : nnModule;
  norm2 : nnModule;
  dropout : nnModule
}.

Definition TransformerBlock_init
  (embed_dim num_heads ff_hidden_dim : nat) (dropout : R)
  : M TransformerBlock :=
  (mha <- MultiHeadAttention_init embed_dim num_heads ;;
   l1 <- Linear_init embed_dim ff_hidden_dim ;;
   l2 <- Linear_init ff_hidden_dim embed_dim ;;
   let n1 := LayerNorm_init embed_dim in
   let n2 := LayerNorm_init embed_dim in
   d <- lift (Dropout_init dropout) ;;
   ret (mkTransformerBlock
          (fun x => lift (MultiHeadAttention_forward mha x))
          (Sequential [ (fun x => lift (Linear_forward l1 x));
                        (fun x => ret (ReLU_forward x));
                        (fun x => lift (Linear_forward l2 x)) ])
          (fun x => lift (LayerNorm_forward n1 x))
          (fun x => lift (LayerNorm_forward n2 x))
          (Dropout_forward d)))%M.

Definition TransformerBlock_forward (self : TransformerBlock) (x : tensor)
  : M (tensor * tensor) :=
  ((* Multi-head attention with residual connection *)
   '(attn_output, attn_weights) <- attention self x ;;
   d <- dropout self attn_output ;;
   s <- lift (add x d) ;;
   x <- norm1 self s ;;
   (* Feed-forward with residual connection *)
   ff_output <- ffn self x ;;
   d <- dropout self ff_output ;;
   s <- lift (add x d) ;;
   x <- norm2 self s ;;
   ret (x, attn_weights))%M.

End Lesson4.

(* ================================================================== *)
(** * [nn.MultiheadAttention], the attention layer built into PyTorch

    Lesson 5 calls it with its default arguments: sequence-first input,
    no mask, dropout probability 0, [need_weights=True] and
    [average_attn_weights=True].  The definitions follow
    [torch.nn.MultiheadAttention.__init__] and
    [torch.nn.functional.multi_head_attention_forward] along that path. *)

Module nn.

Record MultiheadAttention : Type := mkMultiheadAttention {
  embed_dim : nat;
  num_heads : nat;
  head_dim : nat;
  in_proj_weight : tensor;   (* [3 * embed_dim; embed_dim] *)
  in_proj_bias : tensor;     (* [3 * embed_dim] *)
  out_proj : Linear
}.

Definition MultiheadAttention_init (embed_dim num_heads : nat)
  : M MultiheadAttention :=
  (_ <- (if (embed_dim =? 0) || (num_heads =? 0)
         then raise ValueError else ret tt) ;;
   head_dim <- lift (floordiv embed_dim num_heads) ;;
   _ <- lift (assert (head_dim * num_heads =? embed_dim)) ;;
   o <- Linear_init embed_dim embed_dim ;;
   w <- draw [3 * embed_dim; embed_dim] ;;
   ret (mkMultiheadAttention embed_dim num_heads head_dim
          w (zeros [3 * embed_dim])
          (mkLinear (weight o) (zeros [embed_dim]))))%M.

(** Batched self-attention on [x] of shape [L; N; E]. *)
Definition forward_batched (self : MultiheadAttention) (x : tensor)
  : result (tensor * tensor) :=
  ('(tgt_len, bsz, e) <- size3 x ;;
   _ <- assert (e =? embed_dim self) ;;
   let H := num_heads self in
   let D := head_dim self in
   proj <- linear x (in_proj_weight self) (in_proj_bias self) ;;
   q <- narrow_last proj 0 e ;;
   k <- narrow_last proj e e ;;
   v <- narrow_last proj (2 * e) e ;;
   q <- view q [tgt_len; bsz * H; D] ;;
   q <- transpose q 0 1 ;;
   k <- view k [tgt_len; bsz * H; D] ;;
   k <- transpose k 0 1 ;;
   v <- view v [tgt_len; bsz * H; D] ;;
   v <- transpose v 0 1 ;;
   let q_scaled := mul_scalar q (sqrt (1 / INR D)) in
   kt <- transpose k (-2) (-1) ;;
   w <- matmul q_scaled kt ;;
   let w := softmax w in
   o <- matmul w v ;;
   o <- transpose o 0 1 ;;
   o <- view (contiguous o) [tgt_len * bsz; e] ;;
   o <- linear o (weight (out_proj self)) (bias (out_proj self)) ;;
   o <- view o [tgt_len; bsz; e] ;;
   w <- view w [bsz; H; tgt_len; tgt_len] ;;
   w <- mean_dim1 w ;;
   Ok (o, w))%res.

(** [self.attention(x, x, x)]: a three-dimensional input is a batch; a
    two-dimensional one is a single sequence, handled as a batch of one. *)
Definition MultiheadAttention_forward (self : MultiheadAttention) (x : tensor)
  : result (tensor * tensor) :=
  match shape x with
  | [_; _; _] => forward_batched self x
  | [l; e] =>
      ('(o, w) <- forward_batched self (mkT [l; 1; e] (data x)) ;;
       Ok (mkT [l; e] (data o), mkT [l; l] (data w)))%res
  | _ => Raise AssertionError
  end.

End nn.

(* ================================================================== *)
(** * Lesson 5: positional encoding and the language model *)

Module Lesson5.

Record PositionalEncoding : Type := mkPositionalEncoding {
  pe : tensor
}.

Definition PositionalEncoding_init (embed_dim max_seq_length : nat)
  : result PositionalEncoding :=
  ((* Create a fixed positional encoding matrix *)
   let pe := zeros [max_seq_length; embed_dim] in
   position <- unsqueeze1 (arange max_seq_length) ;;
   let div_term :=
     tmap exp (mul_scalar (arange2 embed_dim)
                          (- (ln 10000 / INR embed_dim))) in
   a <- mul position div_term ;;
   pe <- setitem_cols2 pe 0 (tmap sin a) ;;
   a <- mul position div_term ;;
   pe <- setitem_cols2 pe 1 (tmap cos a) ;;
   Ok (mkPositionalEncoding pe))%res.

Definition PositionalEncoding_forward (self : PositionalEncoding) (x : tensor)
  : result tensor :=
  ((* Add positional encoding to the input embeddings *)
   seq_len <- size_at x 1 ;;
   sl <- slice_rows (pe self) seq_len ;;
   x <- add x sl ;;
   Ok x)%res.

(** Lesson 5 replaces the hand-written attention of lesson 4 by a wrapper
    around the built-in layer. *)
Record MultiHeadAttention : Type := mkMultiHeadAttention {
  mha_attention : nn.MultiheadAttention
}.

Definition MultiHeadAttention_init (embed_dim num_heads : nat)
  : M MultiHeadAttention :=
  (a <- nn.MultiheadAttention_init embed_dim num_heads ;;
   ret (mkMultiHeadAttention a))%M.

Definition MultiHeadAttention_forward (self : MultiHeadAttention) (x : tensor)
  : result (tensor * tensor) :=
  (x <- transpose x 0 1 ;;
   '(attn_output, attn_weights) <-
     nn.MultiheadAttention_forward (mha_attention self) x ;;
   attn_output <- transpose attn_output 0 1 ;;
   Ok (attn_output, attn_weights))%res.

Record TransformerBlock : Type := mkTransformerBlock {
  attention : tensor -> M (tensor * tensor);
  ffn : nnModule;
  norm1 : nnModule;
  norm2 : nnModule;
  dropout : nnModule
}.

Definition TransformerBlock_init
  (embed_dim num_heads ff_hidden_dim : nat) (dropout : R)
  : M TransformerBlock :=
  (mha <- MultiHeadAttention_init embed_dim num_heads ;;
   l1 <- Linear_init embed_dim ff_hidden_dim ;;
   l2 <- Linear_init ff_hidden_dim embed_dim ;;
   let n1 := LayerNorm_init embed_dim in
   let n2 := LayerNorm_init embed_dim in
   d <- lift (Dropout_init dropout) ;;
   ret (mkTransformerBlock
          (fun x => lift (MultiHeadAttention_forward mha x))
          (Sequential [ (fun x => lift (Linear_forward l1 x));
                        (fun x => ret (ReLU_forward x));
                        (fun x => lift (Linear_forward l2 x)) ])
          (fun x => lift (LayerNorm_forward n1 x))
          (fun x => lift (LayerNorm_forward n2 x))
          (Dropout_forward d)))%M.

Definition TransformerBlock_forward (self : TransformerBlock) (x : tensor)
  : M (tensor * tensor) :=
  ('(attn_output, attn_weights) <- attention self x ;;
   d <- dropout self attn_output ;;
   s <- lift (add x d) ;;
   x <- norm1 self s ;;
   ff_output <- ffn self x ;;
   d <- dropout self ff_output ;;
   s <- lift (add x d) ;;
   x <- norm2 self s ;;
   ret (x, attn_weights))%M.

Record LanguageModel : Type := mkLanguageModel {
  embedding : Embedding;
  positional_encoding : PositionalEncoding;
  transformer_blocks : list TransformerBlock;
  output_layer : Linear
}.

(** [[TransformerBlock(...) for _ in range(num_layers)]]. *)
Fixpoint make_blocks (num_layers embed_dim num_heads ff_hidden_dim : nat)
  (dropout : R) : M (list TransformerBlock) :=
  match num_layers with
  | 0 => ret []
  | S n =>
      (b <- TransformerBlock_init embed_dim num_heads ff_hidden_dim dropout ;;
       bs <- make_blocks n embed_dim num_heads ff_hidden_dim dropout ;;
       ret (b :: bs))%M
  end.

Definition LanguageModel_init
  (vocab_size embed_dim num_heads num_layers ff_hidden_dim max_seq_length : nat)
  (dropout : R) : M LanguageModel :=
  (embedding <- Embedding_init vocab_size embed_dim ;;
   positional_encoding <-
     lift (PositionalEncoding_init embed_dim max_seq_length) ;;
   transformer_blocks <-
     make_blocks num_layers embed_dim num_heads ff_hidden_dim dropout ;;
   output_layer <- Linear_init embed_dim vocab_size ;;
   ret (mkLanguageModel embedding positional_encoding
                        transformer_blocks output_layer))%M.

(** [for block in self.transformer_blocks: x, _ = block(x)]. *)
Fixpoint run_blocks (blocks : list TransformerBlock) (x : tensor) : M tensor :=
  match blocks with
  | [] => ret x
  | block :: rest =>
      ('(x, _) <- TransformerBlock_forward block x ;;
       run_blocks rest x)%M
  end.

Definition LanguageModel_forward (self : LanguageModel) (x : itensor)
  : M tensor :=
  (x <- lift (Embedding_forward (embedding self) x) ;;
   x <- lift (PositionalEncoding_forward (positional_encoding self) x) ;;
   x <- run_blocks (transformer_blocks self) x ;;
   logits <- lift (Linear_forward (output_layer self) x) ;;
   ret logits)%M.

End Lesson5.

(* ================================================================== *)
(** * Multi-head attention as the specification words it

    A second definition of what lesson 4's attention computes, written
    index by index from the specification's seven steps and not from the
    code, for an input [x] of shape [(batch, seq_length, embed_dim)]. *)

Module AttentionSpec.

Section Steps.

Variable self : Lesson4.MultiHeadAttention.
Variable x : tensor.

Let S := nth 1 (shape x) 0.
Let E := nth 2 (shape x) 0.
Let D := Lesson4.head_dim self.

(** Step 1: a linear projection of the vector at position [i] of batch
    element [b], feature [f]. *)
Definition proj (l : Linear) (b i f : nat) : R :=
  (sumR E (fun k => get x [b; i; k] * get (weight l) [f; k])
   + get (bias l) [f])%R.

(** Step 2: head [h] owns the features [h * head_dim + d].
    Step 3: raw scores [Q . Kt * scale] with [scale = head_dim ^ (-0.5)]. *)
Definition scores (b h i j : nat) : R :=
  (sumR D (fun d => proj (Lesson4.query self) b i (h * D + d) *
                    proj (Lesson4.key self) b j (h * D + d))
   * Rpower (INR D) (- (1 / 2)))%R.

(** Step 4: softmax over the keys [j]. *)
Definition weights (b h i j : nat) : R :=
  (exp (scores b h i j) / sumR S (fun j' => exp (scores b h i j')))%R.

(** Step 5: weighted sum of the values. *)
Definition head_out (b h i d : nat) : R :=
  sumR S (fun j => (weights b h i j *
                    proj (Lesson4.value self) b j (h * D + d))%R).

(** Step 6: the heads side by side along the feature axis, in head
    order. *)
Definition merged (b i f : nat) : R := head_out b (f / D) i (f mod D).

(** Step 7: the output projection. *)
Definition result (b i e : nat) : R :=
  (sumR E (fun f => merged b i f * get (weight (Lesson4.out self)) [e; f])
   + get (bias (Lesson4.out self)) [e])%R.

End Steps.

End AttentionSpec.

(* ================================================================== *)
(** * Class invariants established by the constructors *)

Definition Linear_ok (l : Linear) (in_features out_features : nat) : Prop :=
  shape (weight l) = [out_features; in_features] /\
  shape (bias l) = [out_features] /\
  wf (weight l) /\ wf (bias l).

Definition Lesson4_MHA_ok (self : Lesson4.MultiHeadAttention) : Prop :=
  let E := Lesson4.embed_dim self in
  0 < Lesson4.num_heads self /\
  0 < Lesson4.head_dim self /\
  Lesson4.num_heads self * Lesson4.head_dim self = E /\
  Linear_ok (Lesson4.query self) E E /\
  Linear_ok (Lesson4.key self) E E /\
  Linear_ok (Lesson4.value self) E E /\
  Linear_ok (Lesson4.out self) E E /\
  Lesson4.scale self = Rpower (INR (Lesson4.head_dim self)) (- (1 / 2)).

Definition nn_MHA_ok (self : nn.MultiheadAttention) : Prop :=
  let E := nn.embed_dim self in
  0 < nn.num_heads self /\
  0 < nn.head_dim self /\
  nn.num_heads self * nn.head_dim self = E /\
  shape (nn.in_proj_weight self) = [3 * E; E] /\
  shape (nn.in_proj_bias self) = [3 * E] /\
  Linear_ok (nn.out_proj self) E E.

(** A module that maps every tensor of shape [s] to a tensor of shape
    [s], in every state of the world. *)
Definition preserves (s : list nat) (m : nnModule) : Prop :=
  forall x w, shape x = s -> wf x ->
    exists y w', m x w = Ok (y, w') /\ shape y = s /\ wf y.

(** The same for a module that also returns attention weights. *)
Definition attends (s : list nat) (m : tensor -> M (tensor * tensor)) : Prop :=
  forall x w, shape x = s -> wf x ->
    exists y a w', m x w = Ok ((y, a), w') /\ shape y = s /\ wf y.

(** The entry that the constructor of [PositionalEncoding] stores in
    column [c] of row [pos]: a sine on even columns, a cosine on odd ones,
    both of [pos * exp (2i * -(ln 10000 / embed_dim))] for the pair
    [(2i, 2i+1)] the column belongs to. *)
Definition pe_entry (embed_dim pos c : nat) : R :=
  if Nat.even c
  then sin (INR pos * exp (INR c * - (ln 10000 / INR embed_dim)))
  else cos (INR pos * exp (INR (c - 1) * - (ln 10000 / INR embed_dim))).

(* ================================================================== *)
(** * Small concrete instances *)

(** A linear layer whose parameters are all zero. *)
Definition zero_Linear (in_features out_features : nat) : Linear :=
  mkLinear (zeros [out_features; in_features]) (zeros [out_features]).

(** Lesson 4's attention with [embed_dim = 2], [num_heads = 2]. *)
Definition example_attention4 : Lesson4.MultiHeadAttention :=
  Lesson4.mkMultiHeadAttention 2 2 1
    (zero_Linear 2 2) (zero_Linear 2 2) (zero_Linear 2 2) (zero_Linear 2 2)
    (Rpower (INR 1) (- (1 / 2))).

(** Lesson 5's attention with [embed_dim = 2], [num_heads = 2]. *)
Definition example_attention5 : Lesson5.MultiHeadAttention :=
  Lesson5.mkMultiHeadAttention
    (nn.mkMultiheadAttention 2 2 1 (zeros [6; 2]) (zeros [6]) (zero_Linear 2 2)).

(** A world in training mode whose generator yields zeros. *)
Definition example_world : World := mkWorld true (fun _ => 0%R).

(** A block of lesson 4 whose attention, feed-forward and normalisation
    sub-modules are replaced by identity functions; the replaced attention
    still returns a pair, with [a] in the place of the weights. *)
Definition identity_block (a : tensor) (d : Dropout) : Lesson4.TransformerBlock :=
  Lesson4.mkTransformerBlock
    (fun x => ret (x, a))
    (fun x => ret x)
    (fun x => ret x)
    (fun x => ret x)
    (Dropout_forward d).

(** An input of shape (1, 1, 2), and one of shape (1, 1, 1). *)
Definition example_input : tensor := mkT [1; 1; 2] [1%R; 2%R].

Definition unit_input : tensor := mkT [1; 1; 1] [1%R].

(** A world in evaluation mode. *)
Definition eval_world : World := mkWorld false (fun _ => 0%R).

(* ================================================================== *)
(** * A model whose logits look ahead

    A language model of lesson 5 with [vocab_size = 2], [embed_dim = 2],
    one head, one block, [ff_hidden_dim = 1], [max_seq_length = 2] and
    dropout probability 0, whose parameters are the 35 numbers below, in
    the order in which the constructor draws them. *)

Definition leak_params : list R :=
  ([ 0; 0; 4; 0 ]                              (* embedding *)
   ++ [ 1; 0; 0; 1 ] ++ [ 0; 0 ]               (* attention: out_proj *)
   ++ [ 0; 0; 0; 0 ] ++ [ 0; 0; 0; 0 ]         (* in_proj: query, key *)
   ++ [ 1; 0; 0; 1 ]                           (* in_proj: value *)
   ++ [ 0; 0 ] ++ [ 0 ]                        (* first linear of ffn *)
   ++ [ 0; 0 ] ++ [ 0; 0 ]                     (* second linear of ffn *)
   ++ [ 1; 0; 0; 1 ] ++ [ 0; 0 ])%R.           (* output layer *)

Definition leak_world : World :=
  mkWorld false (fun k => nth k leak_params 0%R).

Definition leak_embedding : Embedding :=
  mkEmbedding (mkT [2; 2] [0; 0; 4; 0]%R).

Definition leak_pe : Lesson5.PositionalEncoding :=
  match Lesson5.PositionalEncoding_init 2 2 with
  | Ok pe => pe
  | Raise _ => Lesson5.mkPositionalEncoding (zeros [2; 2])
  end.

Definition leak_attention : Lesson5.MultiHeadAttention :=
  Lesson5.mkMultiHeadAttention
    (nn.mkMultiheadAttention 2 1 2
       (mkT [6; 2] [0; 0; 0; 0; 0; 0; 0; 0; 1; 0; 0; 1]%R)
       (zeros [6])
       (mkLinear (mkT [2; 2] [1; 0; 0; 1]%R) (zeros [2]))).

Definition leak_l1 : Linear := mkLinear (mkT [1; 2] [0; 0]%R) (mkT [1] [0%R]).
Definition leak_l2 : Linear := mkLinear (mkT [2; 1] [0; 0]%R) (mkT [2] [0; 0]%R).

Definition leak_block : Lesson5.TransformerBlock :=
  Lesson5.mkTransformerBlock
    (fun x => lift (Lesson5.MultiHeadAttention_forward leak_attention x))
    (Sequential [ (fun x => lift (Linear_forward leak_l1 x));
                  (fun x => ret (ReLU_forward x));
                  (fun x => lift (Linear_forward leak_l2 x)) ])
    (fun x => lift (LayerNorm_forward (LayerNorm_init 2) x))
    (fun x => lift (LayerNorm_forward (LayerNorm_init 2) x))
    (Dropout_forward (mkDropout 0)).

Definition leak_output : Linear :=
  mkLinear (mkT [2; 2] [1; 0; 0; 1]%R) (mkT [2] [0; 0]%R).

Definition leak_model : Lesson5.LanguageModel :=
  Lesson5.mkLanguageModel leak_embedding leak_pe [leak_block] leak_output.

(** Two inputs that differ at position 1 only. *)
Definition leak_ids : itensor := mkIT [1; 2] [0; 0]%Z.
Definition leak_ids' : itensor := mkIT [1; 2] [0; 1]%Z.

(** Layer normalisation of a pair whose half difference is [d], with unit
    scale and no shift: the first entry. *)
Definition ln_unit (d : R) : R := (d / sqrt (d * d + 1 / 100000))%R.

(** The first entry of the output of [leak_block] when the row that enters
    the first normalisation is [(a, b)]: that row is normalised, the
    feed-forward branch adds 0, and the sum is normalised again. *)
Definition twice_normalised (a b : R) : R :=
  ln_unit ((ln_unit ((a - b) / 2) + 0 - (ln_unit ((b - a) / 2) + 0)) / 2).

(* ================================================================== *)
(** * Further concrete instances *)

(** The hidden states of the example of lesson 5: two sequences of ten
    positions, 64 features. *)
Definition example_hidden : tensor := zeros [2; 10; 64].

(** The input of lesson 4: one sequence of six tokens, 64 features. *)
Definition example_tokens6 : tensor := zeros [1; 6; 64].

(** Token ids of shape (2, 10), all in range for a vocabulary of 1000. *)
Definition example_ids : itensor := mkIT [2; 10] (repeat 7%Z 20).

(** The sub-modules of a block of lesson 5 keep the shape
    (B, S, embed_dim), for every [B] and [S]. *)
Definition Lesson5_block_ok (embed_dim : nat) (blk : Lesson5.TransformerBlock)
  : Prop :=
  forall B S,
    attends [B; S; embed_dim] (Lesson5.attention blk) /\
    preserves [B; S; embed_dim] (Lesson5.ffn blk) /\
    preserves [B; S; embed_dim] (Lesson5.norm1 blk) /\
    preserves [B; S; embed_dim] (Lesson5.norm2 blk) /\
    preserves [B; S; embed_dim] (Lesson5.dropout blk).

(** A module that, in evaluation mode, is a function of its input: it
    leaves the world as it found it and does not read the generator. *)
Definition pure_in_eval {A B : Type} (m : A -> M B) : Prop :=
  exists f : A -> result B,
    forall x w, training w = false -> m x w = lift (f x) w.

(** A second world in evaluation mode, with another generator. *)
Definition eval_world' : World := mkWorld false (fun k => INR k).

(** Two batches that share a sequence: the only sequence of the first is
    the second sequence of the other. *)
Definition example_batch1 : tensor := zeros [1; 3; 2].
Definition example_batch2 : tensor := zeros [2; 3; 2].

(* ================================================================== *)
(** * The weights of lesson 5's attention, in words

    The built-in layer computes one weight matrix per head, the softmax
    over the keys of the products of the head's scaled queries with its
    keys, and returns the average of these matrices over the heads.  This
    second definition is written index by index from that description,
    and not from the code, for an input [x] of shape
    [(batch, seq_length, embed_dim)]. *)

Module AveragedSpec.

Section Steps.

Variable self : nn.MultiheadAttention.
Variable x : tensor.

Let S := nth 1 (shape x) 0.
Let E := nn.embed_dim self.
Let H := nn.num_heads self.
Let D := nn.head_dim self.

(** Feature [f] of the packed input projection of the vector at position
    [i] of batch element [b]: chunk 0 of the packed rows holds the
    queries, chunk 1 the keys. *)
Definition in_proj (chunk b i f : nat) : R :=
  (sumR E (fun k => get x [b; i; k] *
                    get (nn.in_proj_weight self) [(chunk * E + f)%nat; k])
   + get (nn.in_proj_bias self) [(chunk * E + f)%nat])%R.

(** Scores of head [h], which owns the features [h * head_dim + d]; the
    queries are scaled by [sqrt (1 / head_dim)]. *)
Definition head_scores (b h i j : nat) : R :=
  sumR D (fun d => (in_proj 0 b i (h * D + d)%nat * sqrt (1 / INR D) *
                    in_proj 1 b j (h * D + d)%nat)%R).

(** Softmax over the keys [j]. *)
Definition head_weights (b h i j : nat) : R :=
  (exp (head_scores b h i j)
   / sumR S (fun j' => exp (head_scores b h i j')))%R.

(** The average over the heads. *)
Definition averaged_weights (b i j : nat) : R :=
  (sumR H (fun h => head_weights b h i j) / INR H)%R.

End Steps.

End AveragedSpec.

(* ================================================================== *)
(** * Lesson 4's attention on binary32 numbers

    The definitions above read a float as a real number, which says
    nothing on a value that leaves the range of binary32.  This module
    reads [MultiHeadAttention.forward] of lesson 4 a second time, on
    numbers that have that range.  A finite number still carries its real
    value: the rounding of the mantissa is not modelled.  But a result of
    magnitude [overflow_threshold] or more is an infinity, a result of
    magnitude [underflow_threshold] or less is zero, and the operations
    that IEEE 754 leaves undefined give NaN.  Zeros are not signed.  The
    parameters of a layer are the real numbers it holds, read through
    [round]. *)

Module F32.

Inductive f32 : Type :=
| Fin (r : R)
| PInf
| NInf
| NaN.

(** [(2 - 2^-24) * 2^127], half way between the largest finite binary32
    number and [2^128]: from here on, rounding to nearest gives an
    infinity. *)
Definition overflow_threshold : R := 340282356779733661637539395458142568448.

(** [2^-150], half of the smallest positive binary32 number: up to here,
    rounding to nearest gives zero. *)
Definition underflow_threshold : R :=
  (/ 1427247692705959881058285969449495136382746624)%R.

Definition round (r : R) : f32 :=
  if Rle_dec overflow_threshold r then PInf
  else if Rle_dec r (- overflow_threshold) then NInf
  else if Rle_dec (Rabs r) underflow_threshold then Fin 0
  else Fin r.



Definition fneg (a : f32) : f32 :=
  match a with
  | Fin r => Fin (- r)
  | PInf => NInf
  | NInf => PInf
  | NaN => NaN
  end.

Definition fadd (a b : f32) : f32 :=
  match a, b with
  | NaN, _ | _, NaN => NaN
  | Fin x, Fin y => round (x + y)
  | PInf, NInf | NInf, PInf => NaN
  | PInf, _ | _, PInf => PInf
  | NInf, _ | _, NInf => NInf
  end.

Definition fsub (a b : f32) : f32 := fadd a (fneg b).

(** An infinity times [x]. *)
Definition inf_times (positive : bool) (x : R) : f32 :=
  if Req_dec_T x 0 then NaN
  else if Rlt_dec 0 x then (if positive then PInf else NInf)
  else (if positive then NInf else PInf).

Definition fmul (a b : f32) : f32 :=
  match a, b with
  | NaN, _ | _, NaN => NaN
  | Fin x, Fin y => round (x * y)
  | Fin x, PInf | PInf, Fin x => inf_times true x
  | Fin x, NInf | NInf, Fin x => inf_times false x
  | PInf, PInf | NInf, NInf => PInf
  | PInf, NInf | NInf, PInf => NInf
  end.

Definition fdiv (a b : f32) : f32 :=
  match a, b with
  | NaN, _ | _, NaN => NaN
  | Fin x, Fin y =>
      if Req_dec_T y 0
      then (if Req_dec_T x 0 then NaN
            else if Rlt_dec 0 x then PInf else NInf)
      else round (x / y)
  | Fin _, PInf | Fin _, NInf => Fin 0
  | PInf, Fin y => if Rlt_dec y 0 then NInf else PInf
  | NInf, Fin y => if Rlt_dec y 0 then PInf else NInf
  | _, _ => NaN
  end.

Definition fexp (a : f32) : f32 :=
  match a with
  | Fin x => round (exp x)
  | PInf => PInf
  | NInf => Fin 0
  | NaN => NaN
  end.

Definition fmax (a b : f32) : f32 :=
  match a, b with
  | NaN, _ | _, NaN => NaN
  | PInf, _ | _, PInf => PInf
  | NInf, c | c, NInf => c
  | Fin x, Fin y => Fin (Rmax x y)
  end.

(** [f 0 + ... + f (n-1)], accumulated from the left, and the largest of
    [f 0, ..., f (n-1)]. *)
Definition fsum (n : nat) (f : nat -> f32) : f32 :=
  fold_left fadd (tab n f) (Fin 0).

Definition fmax_row (n : nat) (f : nat -> f32) : f32 :=
  fold_right fmax NInf (tab n f).

(** Tensors of binary32 numbers. *)
Record ftensor : Type := mkFT {
  fshape : list nat;
  fdata : list f32
}.

Definition at_ (t : ftensor) (k : nat) : f32 := nth k (fdata t) (Fin 0).
Definition get (t : ftensor) (idx : list nat) : f32 :=
  at_ t (ravel (fshape t) idx).

(** A parameter tensor as the binary32 tensor that the layer stores. *)
Definition of_real (t : tensor) : ftensor :=
  mkFT (shape t) (map round (data t)).

Definition zeros (s : list nat) : ftensor := mkFT s (repeat (Fin 0) (numel s)).

Definition size3 (t : ftensor) : result (nat * nat * nat) :=
  match fshape t with
  | [a; b; c] => Ok (a, b, c)
  | _ => Raise ValueError
  end.

Definition view (t : ftensor) (s : list nat) : result ftensor :=
  if numel s =? numel (fshape t) then Ok (mkFT s (fdata t))
  else Raise RuntimeError.

Definition contiguous (t : ftensor) : ftensor := t.

Definition transpose (t : ftensor) (d0 d1 : Z) : result ftensor :=
  (a <- norm_dim (length (fshape t)) d0 ;;
   b <- norm_dim (length (fshape t)) d1 ;;
   let s' := swap a b (fshape t) in
   Ok (mkFT s' (tab (numel s')
                    (fun k => get t (swap a b (unravel s' k))))))%res.

(** [x * c] for a Python number [c]. *)
Definition mul_scalar (t : ftensor) (c : R) : ftensor :=
  mkFT (fshape t) (map (fun v => fmul v (round c)) (fdata t)).

Definition matmul (a b : ftensor) : result ftensor :=
  match rev (fshape a), rev (fshape b) with
  | k :: n :: ra, m :: k' :: rb =>
      if (k =? k') && shape_eqb ra rb
      then
        let batch := rev ra in
        Ok (mkFT (batch ++ [n; m])
                 (tab (numel batch * n * m)
                      (fun idx =>
                         let bi := idx / (n * m) in
                         let r := (idx / m) mod n in
                         let c := idx mod m in
                         fsum k (fun t =>
                           fmul (at_ a ((bi * n + r) * k + t))
                                (at_ b ((bi * k + t) * m + c))))))
      else Raise RuntimeError
  | _, _ => Raise RuntimeError
  end.

(** [torch.softmax(x, dim=-1)]: the largest element of a row is subtracted
    from the row before it is exponentiated, as the kernel does. *)
Definition softmax (t : ftensor) : ftensor :=
  let n := match rev (fshape t) with n :: _ => n | [] => 1 end in
  mkFT (fshape t)
       (tab (numel (fshape t))
            (fun idx =>
               let row := fun j => at_ t ((idx / n) * n + j) in
               let m := fmax_row n row in
               fdiv (fexp (fsub (at_ t idx) m))
                    (fsum n (fun j => fexp (fsub (row j) m))))).

Definition linear (x W b : ftensor) : result ftensor :=
  match fshape W, rev (fshape x) with
  | [o; i], k :: rpre =>
      if k =? i
      then Ok (mkFT (rev rpre ++ [o])
                    (tab (numel (rev rpre) * o)
                         (fun idx =>
                            fadd (fsum i (fun t =>
                                    fmul (at_ x ((idx / o) * i + t))
                                         (at_ W ((idx mod o) * i + t))))
                                 (at_ b (idx mod o)))))
      else Raise RuntimeError
  | _, _ => Raise RuntimeError
  end.

Definition Linear_forward (self : Linear) (x : ftensor) : result ftensor :=
  linear x (of_real (weight self)) (of_real (bias self)).

Definition MultiHeadAttention_forward
  (self : Lesson4.MultiHeadAttention) (x : ftensor)
  : result (ftensor * ftensor) :=
  ('(batch_size, seq_length, embed_dim) <- size3 x ;;
   (* Step 1: Compute Q, K, V *)
   Q <- Linear_forward (Lesson4.query self) x ;;
   K <- Linear_forward (Lesson4.key self) x ;;
   V <- Linear_forward (Lesson4.value self) x ;;
   (* Step 2: Split into multiple heads *)
   Q <- view Q [batch_size; seq_length;
                Lesson4.num_heads self; Lesson4.head_dim self] ;;
   Q <- transpose Q 1 2 ;;
   K <- view K [batch_size; seq_length;
                Lesson4.num_heads self; Lesson4.head_dim self] ;;
   K <- transpose K 1 2 ;;
   V <- view V [batch_size; seq_length;
                Lesson4.num_heads self; Lesson4.head_dim self] ;;
   V <- transpose V 1 2 ;;
   (* Step 3: Compute attention scores *)
   Kt <- transpose K (-2) (-1) ;;
   QK <- matmul Q Kt ;;
   let scores := mul_scalar QK (Lesson4.scale self) in
   (* Step 4: Apply softmax for weights *)
   let attn_weights := softmax scores in
   (* Step 5: Combine with values *)
   o <- matmul attn_weights V ;;
   (* Step 6: Reshape and combine heads *)
   o <- transpose o 1 2 ;;
   o <- view (contiguous o) [batch_size; seq_length; embed_dim] ;;
   o <- Linear_forward (Lesson4.out self) o ;;
   Ok (o, attn_weights))%res.

(** The value of [scores] in a call of [forward]: steps 1 to 3 for the
    queries and the keys. *)
Definition attention_scores
  (self : Lesson4.MultiHeadAttention) (x : ftensor) : result ftensor :=
  ('(batch_size, seq_length, embed_dim) <- size3 x ;;
   Q <- Linear_forward (Lesson4.query self) x ;;
   K <- Linear_forward (Lesson4.key self) x ;;
   Q <- view Q [batch_size; seq_length;
                Lesson4.num_heads self; Lesson4.head_dim self] ;;
   Q <- transpose Q 1 2 ;;
   K <- view K [batch_size; seq_length;
                Lesson4.num_heads self; Lesson4.head_dim self] ;;
   K <- transpose K 1 2 ;;
   Kt <- transpose K (-2) (-1) ;;
   QK <- matmul Q Kt ;;
   Ok (mul_scalar QK (Lesson4.scale self)))%res.

End F32.

(** Lesson 4's attention with [embed_dim = 2], [num_heads = 2], whose query
    and key projections are the identity. *)
Definition identity_Linear2 : Linear :=
  mkLinear (mkT [2; 2] [1; 0; 0; 1]%R) (mkT [2] [0; 0]%R).

Definition identity_attention : Lesson4.MultiHeadAttention :=
  Lesson4.mkMultiHeadAttention 2 2 1
    identity_Linear2 identity_Linear2 (zero_Linear 2 2) (zero_Linear 2 2)
    (Rpower (INR 1) (- (1 / 2))).

(** One sequence of two positions whose entries are all finite, the first
    being [10^20]. *)
Definition overflow_input : F32.ftensor :=
  F32.mkFT [1; 2; 2]
    [F32.Fin 100000000000000000000; F32.Fin 0; F32.Fin 0; F32.Fin 0].


(* ================================================================== *)
(** * Lemmas on tabulated lists and sums *)

Lemma length_tab {A} (n : nat) (f : nat -> A) : length (tab n f) = n.
Proof. unfold tab. now rewrite length_map, length_seq. Qed.

Lemma nth_tab {A} (n : nat) (f : nat -> A) (d : A) (k : nat) :
  k < n -> nth k (tab n f) d = f k.
Proof.
  intros Hk. unfold tab.
  rewrite (nth_indep _ d (f 0)) by now rewrite length_map, length_seq.
  rewrite map_nth, seq_nth; auto.
Qed.

Lemma tab_ext {A} (n : nat) (f g : nat -> A) :
  (forall k, k < n -> f k = g k) -> tab n f = tab n g.
Proof.
  intros H. unfold tab. apply map_ext_in.
  intros k Hk. apply in_seq in Hk. apply H. lia.
Qed.

Lemma tab_S {A} (n : nat) (f : nat -> A) :
  tab (S n) f = tab n f ++ [f n].
Proof. unfold tab. now rewrite seq_S, map_app. Qed.

Lemma sumR_0 (f : nat -> R) : sumR 0 f = 0%R.
Proof. reflexivity. Qed.

Lemma fold_right_Rplus_app (l1 l2 : list R) :
  fold_right Rplus 0%R (l1 ++ l2)
  = (fold_right Rplus 0%R l1 + fold_right Rplus 0%R l2)%R.
Proof. induction l1 as [|a l1 IH]; simpl; [lra | rewrite IH; lra]. Qed.

Lemma sumR_S (n : nat) (f : nat -> R) :
  sumR (S n) f = (sumR n f + f n)%R.
Proof.
  unfold sumR. rewrite tab_S, fold_right_Rplus_app. simpl. lra.
Qed.

Lemma sumR_ext (n : nat) (f g : nat -> R) :
  (forall k, k < n -> f k = g k) -> sumR n f = sumR n g.
Proof. intros H. unfold sumR. now rewrite (tab_ext f g H). Qed.


Lemma sumR_pos (n : nat) (f : nat -> R) :
  0 < n -> (forall k, k < n -> (0 < f k)%R) -> (0 < sumR n f)%R.
Proof.
  induction n as [|n IH]; [lia|]. intros _ Hf.
  rewrite sumR_S. destruct n as [|n].
  - rewrite sumR_0. specialize (Hf 0 ltac:(lia)). lra.
  - assert (0 < sumR (S n) f)%R by (apply IH; [lia | intros; apply Hf; lia]).
    specialize (Hf (S n) ltac:(lia)). lra.
Qed.

(* ================================================================== *)
(** * Lemmas on row-major offsets *)

Lemma numel_app (s1 s2 : list nat) : numel (s1 ++ s2) = numel s1 * numel s2.
Proof.
  induction s1 as [|a s1 IH]; simpl; [lia|].
  unfold numel in *. simpl. rewrite IH. lia.
Qed.

Lemma numel_cons (a : nat) (s : list nat) : numel (a :: s) = a * numel s.
Proof. reflexivity. Qed.

Lemma div_mod_offset (q r n : nat) :
  r < n -> (q * n + r) / n = q /\ (q * n + r) mod n = r.
Proof.
  intros Hr. split.
  - rewrite Nat.div_add_l by lia. rewrite Nat.div_small by lia. lia.
  - rewrite Nat.add_comm, Nat.Div0.mod_add. now apply Nat.mod_small.
Qed.

Lemma offset_lt (q r m n : nat) : q < m -> r < n -> q * n + r < m * n.
Proof. intros. nia. Qed.

Lemma ravel_lt (s idx : list nat) :
  in_bounds s idx -> ravel s idx < numel s.
Proof.
  unfold in_bounds. intros H. induction H as [|i a idx s Hi H IH].
  - simpl. lia.
  - cbn [ravel]. rewrite numel_cons. nia.
Qed.

Lemma unravel_ravel (s idx : list nat) :
  in_bounds s idx -> unravel s (ravel s idx) = idx.
Proof.
  unfold in_bounds. intros H. induction H as [|i a idx s Hi H IH].
  - reflexivity.
  - cbn [ravel unravel].
    pose proof (ravel_lt H) as Hlt.
    destruct (div_mod_offset i Hlt) as [Hd Hm].
    now rewrite Hd, Hm, IH.
Qed.

Lemma unravel_in_bounds (s : list nat) (k : nat) :
  k < numel s -> in_bounds s (unravel s k).
Proof.
  unfold in_bounds. revert k. induction s as [|a s IH]; intros k Hk.
  - constructor.
  - cbn [unravel]. rewrite numel_cons in Hk.
    assert (numel s <> 0) by (intros E; rewrite E in Hk; lia).
    constructor.
    + apply Nat.Div0.div_lt_upper_bound. lia.
    + apply IH. now apply Nat.mod_upper_bound.
Qed.

Lemma ravel_unravel (s : list nat) (k : nat) :
  k < numel s -> ravel s (unravel s k) = k.
Proof.
  revert k. induction s as [|a s IH]; intros k Hk.
  - simpl in *. unfold numel in Hk. simpl in Hk. lia.
  - cbn [unravel ravel]. rewrite numel_cons in Hk.
    assert (numel s <> 0) by (intros E; rewrite E in Hk; lia).
    rewrite IH by now apply Nat.mod_upper_bound.
    rewrite (Nat.div_mod_eq k (numel s)) at 3. lia.
Qed.

(** Offsets of two-, three- and four-dimensional indices, in Horner form. *)
Lemma ravel2 (a b i j : nat) : ravel [a; b] [i; j] = i * b + j.
Proof. cbn. unfold numel. simpl. ring. Qed.

Lemma ravel3 (a b c i j k : nat) :
  ravel [a; b; c] [i; j; k] = (i * b + j) * c + k.
Proof. cbn. unfold numel. simpl. ring. Qed.

Lemma ravel4 (a b c d i j k l : nat) :
  ravel [a; b; c; d] [i; j; k; l] = ((i * b + j) * c + k) * d + l.
Proof. cbn. unfold numel. simpl. ring. Qed.

Lemma in_bounds2 (a b i j : nat) :
  i < a -> j < b -> in_bounds [a; b] [i; j].
Proof. unfold in_bounds. intros. repeat constructor; assumption. Qed.

Lemma in_bounds3 (a b c i j k : nat) :
  i < a -> j < b -> k < c -> in_bounds [a; b; c] [i; j; k].
Proof. unfold in_bounds. intros. repeat constructor; assumption. Qed.

Lemma in_bounds4 (a b c d i j k l : nat) :
  i < a -> j < b -> k < c -> l < d -> in_bounds [a; b; c; d] [i; j; k; l].
Proof. unfold in_bounds. intros. repeat constructor; assumption. Qed.

Lemma numel2 (a b : nat) : numel [a; b] = a * b.
Proof. unfold numel. simpl. lia. Qed.

Lemma numel3 (a b c : nat) : numel [a; b; c] = a * b * c.
Proof. unfold numel. simpl. lia. Qed.

Lemma numel4 (a b c d : nat) : numel [a; b; c; d] = a * b * c * d.
Proof. unfold numel. simpl. lia. Qed.

Lemma offset3_lt (a b c i j k : nat) :
  i < a -> j < b -> k < c -> (i * b + j) * c + k < a * b * c.
Proof. intros. apply offset_lt; [apply offset_lt|]; assumption. Qed.

Lemma offset4_lt (a b c d i j k l : nat) :
  i < a -> j < b -> k < c -> l < d ->
  ((i * b + j) * c + k) * d + l < a * b * c * d.
Proof. intros. apply offset_lt; [apply offset3_lt|]; assumption. Qed.

(* ================================================================== *)
(** * What each tensor operation returns *)

Lemma rbind_Ok {A B} (a : A) (k : A -> result B) : rbind (Ok a) k = k a.
Proof. reflexivity. Qed.

Lemma wf_tab (s : list nat) (f : nat -> R) : wf (mkT s (tab (numel s) f)).
Proof. unfold wf. simpl. apply length_tab. Qed.

Lemma at_tab (s : list nat) (n : nat) (f : nat -> R) (k : nat) :
  k < n -> at_ (mkT s (tab n f)) k = f k.
Proof. intros. unfold at_. simpl. now apply nth_tab. Qed.

Lemma at_mul_scalar (t : tensor) (c : R) (k : nat) :
  at_ (mul_scalar t c) k = (at_ t k * c)%R.
Proof.
  unfold at_, mul_scalar, tmap. simpl.
  destruct (Nat.lt_ge_cases k (length (data t))) as [Hk|Hk].
  - rewrite (nth_indep _ 0%R (0 * c)%R) by now rewrite length_map.
    now rewrite (map_nth (fun v => (v * c)%R)).
  - rewrite !nth_overflow; [lra | lia | now rewrite length_map].
Qed.

Lemma at_tmap (f : R -> R) (t : tensor) (k : nat) :
  k < length (data t) -> at_ (tmap f t) k = f (at_ t k).
Proof.
  intros Hk. unfold at_, tmap. simpl.
  rewrite (nth_indep _ 0%R (f 0%R)) by now rewrite length_map.
  now rewrite map_nth.
Qed.

Lemma wf_tmap (f : R -> R) (t : tensor) : wf t -> wf (tmap f t).
Proof. unfold wf, tmap. simpl. now rewrite length_map. Qed.

Lemma view_ok (t : tensor) (s : list nat) :
  numel s = numel (shape t) -> view t s = Ok (mkT s (data t)).
Proof. intros H. unfold view. now rewrite H, Nat.eqb_refl. Qed.

Lemma shape_eqb_refl (s : list nat) : shape_eqb s s = true.
Proof. induction s; simpl; [|rewrite Nat.eqb_refl]; auto. Qed.

Lemma shape_eqb_eq (s1 s2 : list nat) : shape_eqb s1 s2 = true -> s1 = s2.
Proof.
  revert s2. induction s1 as [|a s1 IH]; destruct s2 as [|b s2];
    simpl; try congruence.
  intros H. apply andb_prop in H. destruct H as [H1 H2].
  apply Nat.eqb_eq in H1. f_equal; auto.
Qed.

(** ** [transpose] *)

Lemma transpose_at (t : tensor) (d0 d1 : Z) (a b : nat) (idx : list nat) :
  norm_dim (length (shape t)) d0 = Ok a ->
  norm_dim (length (shape t)) d1 = Ok b ->
  in_bounds (swap a b (shape t)) idx ->
  exists t',
    transpose t d0 d1 = Ok t' /\
    shape t' = swap a b (shape t) /\
    wf t' /\
    at_ t' (ravel (swap a b (shape t)) idx) = get t (swap a b idx).
Proof.
  intros Ha Hb Hin. unfold transpose. rewrite Ha, Hb. cbn [rbind].
  eexists. split; [reflexivity|]. split; [reflexivity|].
  split; [apply wf_tab|].
  rewrite at_tab by now apply ravel_lt.
  now rewrite unravel_ravel.
Qed.

Lemma transpose_shape (t : tensor) (d0 d1 : Z) (a b : nat) :
  norm_dim (length (shape t)) d0 = Ok a ->
  norm_dim (length (shape t)) d1 = Ok b ->
  exists t',
    transpose t d0 d1 = Ok t' /\ shape t' = swap a b (shape t) /\ wf t'.
Proof.
  intros Ha Hb. unfold transpose. rewrite Ha, Hb. cbn [rbind].
  eexists. split; [reflexivity|]. split; [reflexivity|]. apply wf_tab.
Qed.

Lemma transpose12_4d (t : tensor) (A B C D : nat) :
  shape t = [A; B; C; D] ->
  exists t',
    transpose t 1 2 = Ok t' /\ shape t' = [A; C; B; D] /\ wf t' /\
    forall a c b d, a < A -> c < C -> b < B -> d < D ->
      at_ t' (((a * C + c) * B + b) * D + d)
      = at_ t (((a * B + b) * C + c) * D + d).
Proof.
  intros Hs.
  destruct (@transpose_shape t 1 2 1 2) as (t' & Ht & Hs' & Hwf);
    try (rewrite Hs; reflexivity).
  exists t'. rewrite Hs in Hs'. repeat split; auto.
  intros a c b d Ha Hc Hb Hd.
  destruct (@transpose_at t 1 2 1 2 [a; c; b; d]) as (t2 & Ht2 & _ & _ & Hat);
    try (rewrite Hs; reflexivity).
  { rewrite Hs. now apply (@in_bounds4 A C B D). }
  rewrite Ht in Ht2. injection Ht2 as <-.
  rewrite Hs in Hat. change (swap 1 2 [A; B; C; D]) with [A; C; B; D] in Hat.
  change (swap 1 2 [a; c; b; d]) with [a; b; c; d] in Hat.
  unfold get in Hat. rewrite Hs in Hat. now rewrite !ravel4 in Hat.
Qed.

Lemma transpose_last2_4d (t : tensor) (A B C D : nat) :
  shape t = [A; B; C; D] ->
  exists t',
    transpose t (-2) (-1) = Ok t' /\ shape t' = [A; B; D; C] /\ wf t' /\
    forall a b d c, a < A -> b < B -> d < D -> c < C ->
      at_ t' (((a * B + b) * D + d) * C + c)
      = at_ t (((a * B + b) * C + c) * D + d).
Proof.
  intros Hs.
  destruct (@transpose_shape t (-2) (-1) 2 3) as (t' & Ht & Hs' & Hwf);
    try (rewrite Hs; reflexivity).
  exists t'. rewrite Hs in Hs'. repeat split; auto.
  intros a b d c Ha Hb Hd Hc.
  destruct (@transpose_at t (-2) (-1) 2 3 [a; b; d; c])
    as (t2 & Ht2 & _ & _ & Hat); try (rewrite Hs; reflexivity).
  { rewrite Hs. now apply (@in_bounds4 A B D C). }
  rewrite Ht in Ht2. injection Ht2 as <-.
  rewrite Hs in Hat. change (swap 2 3 [A; B; C; D]) with [A; B; D; C] in Hat.
  change (swap 2 3 [a; b; d; c]) with [a; b; c; d] in Hat.
  unfold get in Hat. rewrite Hs in Hat. now rewrite !ravel4 in Hat.
Qed.

Lemma transpose01_3d (t : tensor) (A B C : nat) :
  shape t = [A; B; C] ->
  exists t',
    transpose t 0 1 = Ok t' /\ shape t' = [B; A; C] /\ wf t' /\
    forall b a c, b < B -> a < A -> c < C ->
      at_ t' ((b * A + a) * C + c) = at_ t ((a * B + b) * C + c).
Proof.
  intros Hs.
  destruct (@transpose_shape t 0 1 0 1) as (t' & Ht & Hs' & Hwf);
    try (rewrite Hs; reflexivity).
  exists t'. rewrite Hs in Hs'. repeat split; auto.
  intros b a c Hb Ha Hc.
  destruct (@transpose_at t 0 1 0 1 [b; a; c]) as (t2 & Ht2 & _ & _ & Hat);
    try (rewrite Hs; reflexivity).
  { rewrite Hs. now apply (@in_bounds3 B A C). }
  rewrite Ht in Ht2. injection Ht2 as <-.
  rewrite Hs in Hat. change (swap 0 1 [A; B; C]) with [B; A; C] in Hat.
  change (swap 0 1 [b; a; c]) with [a; b; c] in Hat.
  unfold get in Hat. rewrite Hs in Hat. now rewrite !ravel3 in Hat.
Qed.

Lemma transpose_last2_3d (t : tensor) (A B C : nat) :
  shape t = [A; B; C] ->
  exists t',
    transpose t (-2) (-1) = Ok t' /\ shape t' = [A; C; B] /\ wf t' /\
    forall a c b, a < A -> c < C -> b < B ->
      at_ t' ((a * C + c) * B + b) = at_ t ((a * B + b) * C + c).
Proof.
  intros Hs.
  destruct (@transpose_shape t (-2) (-1) 1 2) as (t' & Ht & Hs' & Hwf);
    try (rewrite Hs; reflexivity).
  exists t'. rewrite Hs in Hs'. repeat split; auto.
  intros a c b Ha Hc Hb.
  destruct (@transpose_at t (-2) (-1) 1 2 [a; c; b])
    as (t2 & Ht2 & _ & _ & Hat); try (rewrite Hs; reflexivity).
  { rewrite Hs. now apply (@in_bounds3 A C B). }
  rewrite Ht in Ht2. injection Ht2 as <-.
  rewrite Hs in Hat. change (swap 1 2 [A; B; C]) with [A; C; B] in Hat.
  change (swap 1 2 [a; c; b]) with [a; b; c] in Hat.
  unfold get in Hat. rewrite Hs in Hat. now rewrite !ravel3 in Hat.
Qed.

(** ** [matmul], [softmax], [linear] *)

Lemma matmul_index (bi r j n m : nat) :
  r < n -> j < m ->
  let idx := (bi * n + r) * m + j in
  idx / (n * m) = bi /\ (idx / m) mod n = r /\ idx mod m = j.
Proof.
  intros Hr Hj idx.
  destruct (div_mod_offset (bi * n + r) Hj) as [Hd Hm].
  destruct (div_mod_offset bi Hr) as [Hd2 Hm2].
  repeat split.
  - replace idx with (bi * (n * m) + (r * m + j)) by (unfold idx; ring).
    apply div_mod_offset. now apply offset_lt.
  - unfold idx. now rewrite Hd.
  - exact Hm.
Qed.

Lemma matmul_spec (a b : tensor) (batch : list nat) (n k m : nat) :
  shape a = batch ++ [n; k] ->
  shape b = batch ++ [k; m] ->
  exists c,
    matmul a b = Ok c /\ shape c = batch ++ [n; m] /\ wf c /\
    forall bi r j, bi < numel batch -> r < n -> j < m ->
      at_ c ((bi * n + r) * m + j)
      = sumR k (fun t => (at_ a ((bi * n + r) * k + t) *
                          at_ b ((bi * k + t) * m + j))%R).
Proof.
  intros Ha Hb. unfold matmul. rewrite Ha, Hb, !rev_app_distr. simpl rev.
  cbn [app]. rewrite Nat.eqb_refl, shape_eqb_refl, rev_involutive. cbn [andb].
  eexists. split; [reflexivity|]. split; [reflexivity|]. split.
  - unfold wf. simpl. rewrite length_tab, numel_app, numel2. lia.
  - intros bi r j Hbi Hr Hj.
    rewrite at_tab.
    + destruct (@matmul_index bi r j n m Hr Hj) as (H1 & H2 & H3).
      cbv zeta. now rewrite H1, H2, H3.
    + apply offset_lt; [apply offset_lt|]; assumption.
Qed.

Lemma softmax_spec (t : tensor) (pre : list nat) (n : nat) :
  shape t = pre ++ [n] ->
  shape (softmax t) = shape t /\ wf (softmax t) /\
  forall r j, r < numel pre -> j < n ->
    at_ (softmax t) (r * n + j)
    = (exp (at_ t (r * n + j)) /
       sumR n (fun j' => exp (at_ t (r * n + j'))))%R.
Proof.
  intros Hs. unfold softmax. rewrite Hs, rev_app_distr. simpl rev. cbn [app].
  split; [reflexivity|]. split; [apply wf_tab|].
  intros r j Hr Hj.
  rewrite at_tab.
  - destruct (div_mod_offset r Hj) as [Hd _]. cbv zeta. now rewrite Hd.
  - rewrite numel_app. unfold numel at 2. simpl.
    rewrite Nat.mul_1_r. now apply offset_lt.
Qed.

Lemma linear_spec (x W b : tensor) (pre : list nat) (i o : nat) :
  shape W = [o; i] ->
  shape x = pre ++ [i] ->
  exists y,
    linear x W b = Ok y /\ shape y = pre ++ [o] /\ wf y /\
    forall r c, r < numel pre -> c < o ->
      at_ y (r * o + c)
      = (sumR i (fun t => at_ x (r * i + t) * at_ W (c * i + t))
         + at_ b c)%R.
Proof.
  intros HW Hx. unfold linear. rewrite HW, Hx, rev_app_distr. simpl rev.
  cbn [app]. rewrite Nat.eqb_refl, rev_involutive.
  eexists. split; [reflexivity|]. split; [reflexivity|]. split.
  - unfold wf. simpl. rewrite length_tab, numel_app. unfold numel at 3.
    simpl. lia.
  - intros r c Hr Hc.
    rewrite at_tab by now apply offset_lt.
    destruct (div_mod_offset r Hc) as [Hd Hm]. now rewrite Hd, Hm.
Qed.

(* ================================================================== *)
(** * Lesson 4: what [MultiHeadAttention.forward] computes *)

Lemma get1 (t : tensor) (A a : nat) :
  shape t = [A] -> get t [a] = at_ t a.
Proof. intros H. unfold get. rewrite H. cbn. f_equal. unfold numel. simpl. lia. Qed.

Lemma get2 (t : tensor) (A B a b : nat) :
  shape t = [A; B] -> get t [a; b] = at_ t (a * B + b).
Proof. intros H. unfold get. now rewrite H, ravel2. Qed.

Lemma get3 (t : tensor) (A B C a b c : nat) :
  shape t = [A; B; C] -> get t [a; b; c] = at_ t ((a * B + b) * C + c).
Proof. intros H. unfold get. now rewrite H, ravel3. Qed.

Lemma get4 (t : tensor) (A B C D a b c d : nat) :
  shape t = [A; B; C; D] ->
  get t [a; b; c; d] = at_ t (((a * B + b) * C + c) * D + d).
Proof. intros H. unfold get. now rewrite H, ravel4. Qed.

Lemma split_heads (l : Linear) (x : tensor) (B S H D E : nat) :
  H * D = E -> Linear_ok l E E -> shape x = [B; S; E] ->
  exists P P2,
    Linear_forward l x = Ok P /\
    view P [B; S; H; D] = Ok (mkT [B; S; H; D] (data P)) /\
    transpose (mkT [B; S; H; D] (data P)) 1 2 = Ok P2 /\
    shape P2 = [B; H; S; D] /\
    forall b h i d, b < B -> h < H -> i < S -> d < D ->
      at_ P2 (((b * H + h) * S + i) * D + d)
      = AttentionSpec.proj x l b i (h * D + d).
Proof.
  intros HE (HW & Hb & _ & _) Hx.
  destruct (@linear_spec x (weight l) (bias l) [B; S] E E HW Hx)
    as (P & HP & HsP & HwP & HatP).
  cbn [app] in HsP.
  destruct (@transpose12_4d (mkT [B; S; H; D] (data P)) B S H D eq_refl)
    as (P2 & HP2 & HsP2 & _ & HatP2).
  exists P, P2. repeat split; auto.
  - apply view_ok. rewrite HsP, numel4, numel3, <- HE. lia.
  - intros b h i d Hb' Hh Hi Hd.
    rewrite HatP2 by assumption.
    unfold at_ at 1. cbn [data]. fold (at_ P (((b * S + i) * H + h) * D + d)).
    replace (((b * S + i) * H + h) * D + d)
      with ((b * S + i) * E + (h * D + d)) by (rewrite <- HE; ring).
    rewrite HatP.
    + unfold AttentionSpec.proj. rewrite Hx. cbn [nth].
      rewrite get1 with (A := E) by assumption. f_equal.
      apply sumR_ext. intros k Hk.
      rewrite get3 with (A := B) (B := S) (C := E) by assumption.
      now rewrite get2 with (A := E) (B := E) by assumption.
    + rewrite numel2. now apply offset_lt.
    + rewrite <- HE. now apply offset_lt.
Qed.

Lemma Lesson4_forward_char
  (self : Lesson4.MultiHeadAttention) (x : tensor) (B S : nat) :
  Lesson4_MHA_ok self ->
  shape x = [B; S; Lesson4.embed_dim self] ->
  exists res w,
    Lesson4.MultiHeadAttention_forward self x = Ok (res, w) /\
    shape res = [B; S; Lesson4.embed_dim self] /\ wf res /\
    shape w = [B; Lesson4.num_heads self; S; S] /\ wf w /\
    (forall b h i j,
        b < B -> h < Lesson4.num_heads self -> i < S -> j < S ->
        at_ w (((b * Lesson4.num_heads self + h) * S + i) * S + j)
        = AttentionSpec.weights self x b h i j) /\
    (forall b i e,
        b < B -> i < S -> e < Lesson4.embed_dim self ->
        at_ res ((b * S + i) * Lesson4.embed_dim self + e)
        = AttentionSpec.result self x b i e).
Proof.
  destruct self as [E H D q k v o sc].
  unfold Lesson4_MHA_ok. cbn [Lesson4.embed_dim Lesson4.num_heads
    Lesson4.head_dim Lesson4.query Lesson4.key Lesson4.value Lesson4.out
    Lesson4.scale].
  intros (HH & HD & HE & Hq & Hk & Hv & Ho & Hsc) Hx.
  destruct (@split_heads q x B S H D E HE Hq Hx)
    as (Q0 & Q & HQ0 & HQ1 & HQ & HsQ & HatQ).
  destruct (@split_heads k x B S H D E HE Hk Hx)
    as (K0 & K & HK0 & HK1 & HK & HsK & HatK).
  destruct (@split_heads v x B S H D E HE Hv Hx)
    as (V0 & V & HV0 & HV1 & HV & HsV & HatV).
  destruct (@transpose_last2_4d K B H S D HsK) as (Kt & HKt & HsKt & _ & HatKt).
  destruct (@matmul_spec Q Kt [B; H] S D S HsQ HsKt)
    as (QK & HQK & HsQK & _ & HatQK).
  cbn [app] in HsQK.
  assert (Hss : shape (mul_scalar QK sc) = [B; H; S] ++ [S]) by exact HsQK.
  destruct (@softmax_spec (mul_scalar QK sc) [B; H; S] S Hss)
    as (HsW & HwW & HatW).
  set (W := softmax (mul_scalar QK sc)) in *.
  rewrite Hss in HsW. cbn [app] in HsW.
  destruct (@matmul_spec W V [B; H] S S D HsW HsV)
    as (O & HO & HsO & _ & HatO).
  cbn [app] in HsO.
  destruct (@transpose12_4d O B H S D HsO) as (O2 & HO2 & HsO2 & HwO2 & HatO2).
  destruct Ho as (HWo & Hbo & _ & _).
  destruct (@linear_spec (mkT [B; S; E] (data O2)) (weight o) (bias o)
              [B; S] E E HWo eq_refl) as (R & HR & HsR & HwR & HatR).
  cbn [app] in HsR.
  (* the scores, index by index *)
  assert (Hscore : forall b h i j, b < B -> h < H -> i < S -> j < S ->
            at_ (mul_scalar QK sc) (((b * H + h) * S + i) * S + j)
            = AttentionSpec.scores
                (Lesson4.mkMultiHeadAttention E H D q k v o sc) x b h i j).
  { intros b h i j Hb Hh Hi Hj.
    rewrite at_mul_scalar, HatQK; auto;
      [| rewrite numel2; now apply offset_lt].
    unfold AttentionSpec.scores. cbn [Lesson4.head_dim Lesson4.query Lesson4.key].
    rewrite Hsc. f_equal. apply sumR_ext. intros d Hd.
    rewrite HatQ, HatKt, HatK; auto. }
  assert (Hweights : forall b h i j, b < B -> h < H -> i < S -> j < S ->
            at_ W (((b * H + h) * S + i) * S + j)
            = AttentionSpec.weights
                (Lesson4.mkMultiHeadAttention E H D q k v o sc) x b h i j).
  { intros b h i j Hb Hh Hi Hj.
    rewrite HatW; auto; [| rewrite numel3; now apply offset3_lt].
    unfold AttentionSpec.weights. rewrite Hx. cbn [nth].
    rewrite Hscore by auto. f_equal.
    apply sumR_ext. intros j' Hj'. now rewrite Hscore. }
  exists R, W. repeat split; auto.
  - unfold Lesson4.MultiHeadAttention_forward, size3. rewrite Hx.
    cbn [rbind Lesson4.query Lesson4.key Lesson4.value Lesson4.out
         Lesson4.num_heads Lesson4.head_dim Lesson4.scale].
    rewrite HQ0, HK0, HV0. cbn [rbind].
    rewrite HQ1. cbn [rbind]. rewrite HQ. cbn [rbind].
    rewrite HK1. cbn [rbind]. rewrite HK. cbn [rbind].
    rewrite HV1. cbn [rbind]. rewrite HV. cbn [rbind].
    rewrite HKt. cbn [rbind]. rewrite HQK. cbn [rbind].
    cbv zeta. fold W. rewrite HO. cbn [rbind].
    rewrite HO2. cbn [rbind]. unfold contiguous.
    rewrite view_ok by (rewrite HsO2, numel4, numel3, <- HE; lia).
    cbn [rbind]. unfold Linear_forward. rewrite HR. reflexivity.
  - intros b i e Hb Hi He.
    rewrite HatR; auto; [| rewrite numel2; now apply offset_lt].
    unfold AttentionSpec.result. rewrite Hx. cbn [nth Lesson4.out].
    rewrite get1 with (A := E) by assumption. f_equal.
    apply sumR_ext. intros f Hf.
    rewrite get2 with (A := E) (B := E) by assumption. f_equal.
    unfold AttentionSpec.merged, AttentionSpec.head_out.
    rewrite Hx. cbn [nth Lesson4.head_dim Lesson4.value].
    assert (Hh : f / D < H).
    { apply Nat.Div0.div_lt_upper_bound. rewrite <- HE in Hf. lia. }
    assert (Hd : f mod D < D) by (apply Nat.mod_upper_bound; lia).
    unfold at_ at 1. cbn [data].
    fold (at_ O2 ((b * S + i) * E + f)).
    replace ((b * S + i) * E + f)
      with (((b * S + i) * H + f / D) * D + f mod D).
    2:{ rewrite (Nat.div_mod_eq f D) at 3. rewrite <- HE. ring. }
    rewrite HatO2, HatO; auto; [| rewrite numel2; now apply offset_lt].
    apply sumR_ext. intros j Hj.
    rewrite Hweights, HatV; auto.
Qed.

(* ================================================================== *)
(** * Broadcasting, normalisation, dropout *)

Lemma broadcast_rev_same (r : list nat) : broadcast_rev r r = Some r.
Proof.
  induction r as [|a r IH]; [reflexivity|].
  simpl. now rewrite IH, Nat.eqb_refl.
Qed.

Lemma broadcast_shapes_same (s : list nat) : broadcast_shapes s s = Some s.
Proof.
  unfold broadcast_shapes. rewrite broadcast_rev_same. simpl.
  now rewrite rev_involutive.
Qed.

Lemma bidx_same (s idx : list nat) : in_bounds s idx -> bidx s idx = idx.
Proof.
  unfold in_bounds, bidx. intros H.
  rewrite (Forall2_length H), Nat.sub_diag. cbn [skipn].
  induction H as [|i a idx s Hi H IH]; [reflexivity|].
  cbn [combine map fst snd]. rewrite IH. f_equal.
  destruct (Nat.eqb_spec a 1); lia.
Qed.

Lemma add_same (a b : tensor) (s : list nat) :
  shape a = s -> shape b = s ->
  exists c,
    add a b = Ok c /\ shape c = s /\ wf c /\
    forall k, k < numel s -> at_ c k = (at_ a k + at_ b k)%R.
Proof.
  intros Ha Hb. unfold add. rewrite Ha, Hb, broadcast_shapes_same.
  eexists. split; [reflexivity|]. split; [reflexivity|].
  split; [apply wf_tab|].
  intros k Hk. rewrite at_tab by assumption. cbv zeta.
  rewrite bidx_same by now apply unravel_in_bounds.
  unfold get. now rewrite Ha, Hb, ravel_unravel.
Qed.

Lemma LayerNorm_forward_shape (e : nat) (x : tensor) (pre : list nat) :
  shape x = pre ++ [e] ->
  exists y,
    LayerNorm_forward (LayerNorm_init e) x = Ok y /\
    shape y = shape x /\ wf y.
Proof.
  intros Hx. unfold LayerNorm_forward, LayerNorm_init. cbn [ln_weight shape].
  rewrite Hx, rev_app_distr. simpl rev. cbn [app]. rewrite Nat.eqb_refl.
  eexists. split; [reflexivity|]. split; [reflexivity|]. apply wf_tab.
Qed.

Lemma Dropout_forward_shape (d : Dropout) (x : tensor) (w : World) :
  exists y w',
    Dropout_forward d x w = Ok (y, w') /\
    shape y = shape x /\ (wf x -> wf y) /\
    training w' = training w /\
    (training w = false -> y = x /\ w' = w).
Proof.
  unfold Dropout_forward. destruct (training w) eqn:Ht.
  - eexists. eexists. split; [reflexivity|]. split; [reflexivity|].
    split; [intros _; apply wf_tab|]. split; [reflexivity|]. discriminate.
  - exists x, w. repeat split; auto.
Qed.

Lemma shape_ReLU (x : tensor) : shape (ReLU_forward x) = shape x.
Proof. reflexivity. Qed.

Lemma wf_ReLU (x : tensor) : wf x -> wf (ReLU_forward x).
Proof. apply wf_tmap. Qed.

(** ** Constructors *)

Lemma draw_ok (s : list nat) (w : World) :
  exists t w',
    draw s w = Ok (t, w') /\ shape t = s /\ wf t /\
    training w' = training w.
Proof.
  unfold draw. eexists. eexists. split; [reflexivity|].
  split; [reflexivity|]. split; [apply wf_tab | reflexivity].
Qed.

Lemma Linear_init_ok (i o : nat) (w : World) :
  exists l w',
    Linear_init i o w = Ok (l, w') /\ Linear_ok l i o /\
    training w' = training w.
Proof.
  unfold Linear_init, bind, ret.
  destruct (draw_ok [o; i] w) as (W & w1 & HW & HsW & HwW & Ht1).
  rewrite HW.
  destruct (draw_ok [o] w1) as (b & w2 & Hb & Hsb & Hwb & Ht2).
  rewrite Hb.
  eexists. eexists. split; [reflexivity|].
  split; [repeat split; assumption | congruence].
Qed.

Lemma py_pow_pos (n : nat) (e : R) :
  0 < n -> py_pow n e = Ok (Rpower (INR n) e).
Proof.
  intros Hn. unfold py_pow. destruct (Nat.eqb_spec n 0); [lia | reflexivity].
Qed.

Lemma py_pow_zero_neg (e : R) : (e < 0)%R -> py_pow 0 e = Raise ZeroDivisionError.
Proof.
  intros He. unfold py_pow. cbn [Nat.eqb].
  destruct (Rlt_dec e 0); [reflexivity | contradiction].
Qed.

Lemma div_exact_pos (e h : nat) :
  0 < h -> 0 < e -> e mod h = 0 -> 0 < e / h /\ h * (e / h) = e.
Proof.
  intros Hh He Hm.
  assert (Heq : e = h * (e / h)) by (apply Nat.Div0.div_exact; assumption).
  split; [|lia].
  destruct (e / h); lia.
Qed.

(** The four outcomes of lesson 4's [MultiHeadAttention(embed_dim,
    num_heads)]. *)
Lemma Lesson4_init_zero_heads (e : nat) (w : World) :
  Lesson4.MultiHeadAttention_init e 0 w = Raise ZeroDivisionError.
Proof. reflexivity. Qed.

Lemma Lesson4_init_indivisible (e h : nat) (w : World) :
  0 < h -> e mod h <> 0 ->
  Lesson4.MultiHeadAttention_init e h w = Raise AssertionError.
Proof.
  intros Hh Hm. unfold Lesson4.MultiHeadAttention_init, bind, lift.
  unfold floordiv, pymod.
  destruct (Nat.eqb_spec h 0); [lia|].
  unfold assert. destruct (Nat.eqb_spec (e mod h) 0); [contradiction|].
  reflexivity.
Qed.

Lemma Lesson4_init_zero_dim (h : nat) (w : World) :
  0 < h -> Lesson4.MultiHeadAttention_init 0 h w = Raise ZeroDivisionError.
Proof.
  intros Hh. unfold Lesson4.MultiHeadAttention_init, bind, lift.
  unfold floordiv, pymod.
  destruct (Nat.eqb_spec h 0); [lia|].
  rewrite Nat.Div0.mod_0_l, Nat.Div0.div_0_l. cbn [Nat.eqb assert].
  destruct (Linear_init_ok 0 0 w) as (q & w1 & Hq & _). rewrite Hq.
  destruct (Linear_init_ok 0 0 w1) as (k & w2 & Hk & _). rewrite Hk.
  destruct (Linear_init_ok 0 0 w2) as (v & w3 & Hv & _). rewrite Hv.
  destruct (Linear_init_ok 0 0 w3) as (o & w4 & Ho & _). rewrite Ho.
  rewrite py_pow_zero_neg by lra. reflexivity.
Qed.

Lemma Lesson4_init_ok (e h : nat) (w : World) :
  0 < h -> 0 < e -> e mod h = 0 ->
  exists self w',
    Lesson4.MultiHeadAttention_init e h w = Ok (self, w') /\
    Lesson4_MHA_ok self /\
    Lesson4.embed_dim self = e /\ Lesson4.num_heads self = h /\
    training w' = training w.
Proof.
  intros Hh He Hm. unfold Lesson4.MultiHeadAttention_init, bind, lift.
  unfold floordiv, pymod.
  destruct (Nat.eqb_spec h 0); [lia|].
  rewrite Hm. cbn [Nat.eqb assert].
  destruct (Linear_init_ok e e w) as (q & w1 & Hq & Hqo & Ht1). rewrite Hq.
  destruct (Linear_init_ok e e w1) as (k & w2 & Hk & Hko & Ht2). rewrite Hk.
  destruct (Linear_init_ok e e w2) as (v & w3 & Hv & Hvo & Ht3). rewrite Hv.
  destruct (Linear_init_ok e e w3) as (o & w4 & Ho & Hoo & Ht4). rewrite Ho.
  destruct (div_exact_pos Hh He Hm) as [Hd Hhd].
  rewrite py_pow_pos by assumption.
  eexists. eexists. split; [reflexivity|].
  split; [| repeat split; congruence].
  unfold Lesson4_MHA_ok. cbn. repeat split; try assumption;
    try apply Hqo; try apply Hko; try apply Hvo; try apply Hoo.
Qed.

(** Every object that the constructor returns satisfies the invariant. *)
Lemma Lesson4_init_inv
  (e h : nat) (w w' : World) (self : Lesson4.MultiHeadAttention) :
  Lesson4.MultiHeadAttention_init e h w = Ok (self, w') ->
  Lesson4_MHA_ok self /\
  Lesson4.embed_dim self = e /\ Lesson4.num_heads self = h.
Proof.
  intros Hinit.
  destruct (Nat.eq_dec h 0) as [-> | Hh].
  { rewrite Lesson4_init_zero_heads in Hinit. discriminate. }
  destruct (Nat.eq_dec (e mod h) 0) as [Hm | Hm].
  2:{ rewrite Lesson4_init_indivisible in Hinit by lia. discriminate. }
  destruct (Nat.eq_dec e 0) as [-> | He].
  { rewrite Lesson4_init_zero_dim in Hinit by lia. discriminate. }
  destruct (@Lesson4_init_ok e h w) as (s & w1 & Hs & Hok & H1 & H2 & _);
    try lia.
  rewrite Hs in Hinit. injection Hinit as <- _. auto.
Qed.

(* ================================================================== *)
(** * The built-in attention layer: shapes *)

Lemma narrow_last_shape (t : tensor) (pre : list nat) (n start len : nat) :
  shape t = pre ++ [n] -> start + len <= n ->
  exists y,
    narrow_last t start len = Ok y /\ shape y = pre ++ [len] /\ wf y /\
    forall r c, r < numel pre -> c < len ->
      at_ y (r * len + c) = at_ t (r * n + start + c).
Proof.
  intros Hs Hle. unfold narrow_last. rewrite Hs, rev_app_distr. simpl rev.
  cbn [app]. rewrite rev_involutive.
  destruct (Nat.leb_spec (start + len) n); [|lia].
  eexists. split; [reflexivity|]. split; [reflexivity|]. split.
  - unfold wf. simpl. rewrite length_tab, numel_app. unfold numel at 3.
    simpl. lia.
  - intros r c Hr Hc. rewrite at_tab by now apply offset_lt.
    destruct (div_mod_offset r Hc) as [Hd Hm]. now rewrite Hd, Hm.
Qed.

Lemma mean_dim1_shape (t : tensor) (n h l s : nat) :
  shape t = [n; h; l; s] ->
  exists y, mean_dim1 t = Ok y /\ shape y = [n; l; s] /\ wf y.
Proof.
  intros Hs. unfold mean_dim1. rewrite Hs.
  eexists. split; [reflexivity|]. split; [reflexivity|].
  unfold wf. cbn [data shape]. now rewrite length_tab, numel3.
Qed.

Lemma nn_forward_batched_shape
  (self : nn.MultiheadAttention) (x : tensor) (L N : nat) :
  nn_MHA_ok self ->
  shape x = [L; N; nn.embed_dim self] ->
  exists o w,
    nn.forward_batched self x = Ok (o, w) /\
    shape o = [L; N; nn.embed_dim self] /\ wf o /\
    shape w = [N; L; L] /\ wf w.
Proof.
  destruct self as [E H D Win bin op].
  unfold nn_MHA_ok.
  cbn [nn.embed_dim nn.num_heads nn.head_dim nn.in_proj_weight
       nn.in_proj_bias nn.out_proj].
  intros (HH & HD & HE & HWin & Hbin & (HWo & Hbo & _ & _)) Hx.
  destruct (@linear_spec x Win bin [L; N] E (3 * E) HWin Hx)
    as (P & HP & HsP & _ & _).
  destruct (@narrow_last_shape P [L; N] (3 * E) 0 E HsP ltac:(lia))
    as (q0 & Hq0 & Hsq0 & _ & _).
  destruct (@narrow_last_shape P [L; N] (3 * E) E E HsP ltac:(lia))
    as (k0 & Hk0 & Hsk0 & _ & _).
  destruct (@narrow_last_shape P [L; N] (3 * E) (2 * E) E HsP ltac:(lia))
    as (v0 & Hv0 & Hsv0 & _ & _).
  cbn [app] in Hsq0, Hsk0, Hsv0.
  assert (Hn : numel [L; N * H; D] = numel [L; N; E])
    by (rewrite !numel3, <- HE; ring).
  destruct (@transpose01_3d (mkT [L; N * H; D] (data q0)) L (N * H) D eq_refl)
    as (q & Hq & Hsq & _ & _).
  destruct (@transpose01_3d (mkT [L; N * H; D] (data k0)) L (N * H) D eq_refl)
    as (k & Hk & Hsk & _ & _).
  destruct (@transpose01_3d (mkT [L; N * H; D] (data v0)) L (N * H) D eq_refl)
    as (v & Hv & Hsv & _ & _).
  destruct (@transpose_last2_3d k (N * H) L D Hsk) as (kt & Hkt & Hskt & _ & _).
  assert (Hsqs : shape (mul_scalar q (sqrt (1 / INR D))) = [N * H] ++ [L; D])
    by exact Hsq.
  destruct (@matmul_spec _ kt [N * H] L D L Hsqs Hskt)
    as (w0 & Hw0 & Hsw0 & _ & _).
  destruct (@softmax_spec w0 [N * H; L] L Hsw0) as (Hsw1 & Hww1 & _).
  set (w1 := softmax w0) in *.
  rewrite Hsw0 in Hsw1.
  destruct (@matmul_spec w1 v [N * H] L L D Hsw1 Hsv)
    as (o0 & Ho0 & Hso0 & _ & _).
  cbn [app] in Hso0.
  destruct (@transpose01_3d o0 (N * H) L D Hso0) as (o1 & Ho1 & Hso1 & _ & _).
  destruct (@linear_spec (mkT [L * N; E] (data o1)) (weight op) (bias op)
              [L * N] E E HWo eq_refl) as (o2 & Ho2 & Hso2 & Hwo2 & _).
  cbn [app] in Hso2.
  destruct (@mean_dim1_shape (mkT [N; H; L; L] (data w1)) N H L L eq_refl)
    as (w2 & Hw2 & Hsw2 & Hww2).
  exists (mkT [L; N; E] (data o2)), w2. split.
  - unfold nn.forward_batched, size3. rewrite Hx.
    cbn [rbind nn.embed_dim nn.num_heads nn.head_dim nn.in_proj_weight
         nn.in_proj_bias nn.out_proj].
    rewrite Nat.eqb_refl. cbn [assert rbind].
    rewrite HP. cbn [rbind]. rewrite Hq0. cbn [rbind].
    rewrite Hk0. cbn [rbind]. rewrite Hv0. cbn [rbind].
    rewrite view_ok by (rewrite Hsq0; exact Hn). cbn [rbind].
    rewrite Hq. cbn [rbind].
    rewrite view_ok by (rewrite Hsk0; exact Hn). cbn [rbind].
    rewrite Hk. cbn [rbind].
    rewrite view_ok by (rewrite Hsv0; exact Hn). cbn [rbind].
    rewrite Hv. cbn [rbind].
    rewrite Hkt. cbn [rbind]. rewrite Hw0. cbn [rbind].
    cbv zeta. fold w1. rewrite Ho0. cbn [rbind].
    rewrite Ho1. cbn [rbind]. unfold contiguous.
    rewrite view_ok by (rewrite Hso1, numel2, numel3, <- HE; ring).
    cbn [rbind]. rewrite Ho2. cbn [rbind].
    rewrite view_ok by (rewrite Hso2, numel2, numel3; ring).
    cbn [rbind].
    rewrite view_ok by (rewrite Hsw1; cbn [app]; rewrite numel3, numel4; ring).
    cbn [rbind]. rewrite Hw2. reflexivity.
  - repeat split; auto.
    unfold wf in *. cbn [data shape]. rewrite Hwo2, Hso2, numel2, numel3. ring.
Qed.

Lemma Lesson5_MHA_forward_shape
  (self : Lesson5.MultiHeadAttention) (x : tensor) (B S : nat) :
  nn_MHA_ok (Lesson5.mha_attention self) ->
  shape x = [B; S; nn.embed_dim (Lesson5.mha_attention self)] ->
  exists o w,
    Lesson5.MultiHeadAttention_forward self x = Ok (o, w) /\
    shape o = shape x /\ wf o /\
    shape w = [B; S; S] /\ wf w.
Proof.
  intros Hok Hx.
  destruct (@transpose01_3d x B S _ Hx) as (xt & Hxt & Hsxt & _ & _).
  destruct (@nn_forward_batched_shape _ xt S B Hok Hsxt)
    as (o & w & Ho & Hso & _ & Hsw & Hww).
  destruct (@transpose01_3d o S B _ Hso) as (ot & Hot & Hsot & Hwot & _).
  exists ot, w. split.
  - unfold Lesson5.MultiHeadAttention_forward. rewrite Hxt. cbn [rbind].
    unfold nn.MultiheadAttention_forward. rewrite Hsxt, Ho. cbn [rbind].
    rewrite Hot. reflexivity.
  - rewrite Hx. repeat split; auto.
Qed.

Lemma nn_init_ok (e h : nat) (w : World) :
  0 < h -> 0 < e -> e mod h = 0 ->
  exists self w',
    nn.MultiheadAttention_init e h w = Ok (self, w') /\
    nn_MHA_ok self /\ nn.embed_dim self = e /\ nn.num_heads self = h /\
    training w' = training w.
Proof.
  intros Hh He Hm. unfold nn.MultiheadAttention_init, bind, lift, ret, raise.
  destruct (Nat.eqb_spec e 0); [lia|]. destruct (Nat.eqb_spec h 0); [lia|].
  cbn [orb]. unfold floordiv.
  destruct (Nat.eqb_spec h 0); [lia|].
  destruct (div_exact_pos Hh He Hm) as [Hd Hhd].
  replace (e / h * h =? e) with true by (symmetry; apply Nat.eqb_eq; lia).
  cbn [assert].
  destruct (Linear_init_ok e e w) as (o & w1 & Ho & Hoo & Ht1). rewrite Ho.
  destruct (draw_ok [3 * e; e] w1) as (W & w2 & HW & HsW & HwW & Ht2).
  rewrite HW.
  eexists. eexists. split; [reflexivity|].
  split; [| repeat split; congruence].
  unfold nn_MHA_ok. cbn [nn.embed_dim nn.num_heads nn.head_dim
    nn.in_proj_weight nn.in_proj_bias nn.out_proj].
  destruct Hoo as (H1 & H2 & H3 & H4).
  assert (Hz : wf (zeros [e])).
  { unfold wf, zeros. cbn [data shape]. apply repeat_length. }
  repeat split; auto; lia.
Qed.

Lemma nn_init_indivisible (e h : nat) (w : World) :
  0 < h -> 0 < e -> e mod h <> 0 ->
  nn.MultiheadAttention_init e h w = Raise AssertionError.
Proof.
  intros Hh He Hm. unfold nn.MultiheadAttention_init, bind, lift, ret, raise.
  destruct (Nat.eqb_spec e 0); [lia|]. destruct (Nat.eqb_spec h 0); [lia|].
  cbn [orb]. unfold floordiv.
  destruct (Nat.eqb_spec h 0); [lia|].
  destruct (Nat.eqb_spec (e / h * h) e) as [Heq|]; [|reflexivity].
  exfalso. apply Hm. apply Nat.Div0.div_exact. lia.
Qed.

Lemma nn_init_zero (e h : nat) (w : World) :
  e = 0 \/ h = 0 ->
  nn.MultiheadAttention_init e h w = Raise ValueError.
Proof.
  intros Hz. unfold nn.MultiheadAttention_init, bind, raise.
  replace ((e =? 0) || (h =? 0)) with true; [reflexivity|].
  symmetry. apply orb_true_iff. rewrite !Nat.eqb_eq. exact Hz.
Qed.

(* ================================================================== *)
(** * Transformer blocks preserve shapes *)

Lemma preserves_LayerNorm (e : nat) (pre : list nat) :
  preserves (pre ++ [e])
            (fun x => lift (LayerNorm_forward (LayerNorm_init e) x)).
Proof.
  intros x w Hx _.
  destruct (@LayerNorm_forward_shape e x pre Hx) as (y & Hy & Hsy & Hwy).
  exists y, w. unfold lift. rewrite Hy. repeat split; congruence.
Qed.

Lemma preserves_Dropout (d : Dropout) (s : list nat) :
  preserves s (Dropout_forward d).
Proof.
  intros x w Hx Hwf.
  destruct (Dropout_forward_shape d x w) as (y & w' & Hy & Hsy & Hwy & _).
  exists y, w'. repeat split; auto; congruence.
Qed.

Lemma preserves_ffn (l1 l2 : Linear) (pre : list nat) (e f : nat) :
  Linear_ok l1 e f -> Linear_ok l2 f e ->
  preserves (pre ++ [e])
            (Sequential [ (fun x => lift (Linear_forward l1 x));
                          (fun x => ret (ReLU_forward x));
                          (fun x => lift (Linear_forward l2 x)) ]).
Proof.
  intros (HW1 & _) (HW2 & _) x w Hx _.
  destruct (@linear_spec x (weight l1) (bias l1) pre e f HW1 Hx)
    as (y1 & Hy1 & Hsy1 & _ & _).
  assert (Hr : shape (ReLU_forward y1) = pre ++ [f]) by exact Hsy1.
  destruct (@linear_spec _ (weight l2) (bias l2) pre f e HW2 Hr)
    as (y2 & Hy2 & Hsy2 & Hwy2 & _).
  exists y2, w. cbn [Sequential]. unfold bind, lift, ret, Linear_forward.
  rewrite Hy1, Hy2. repeat split; auto.
Qed.

Lemma attends_Lesson4 (mha : Lesson4.MultiHeadAttention) (B S : nat) :
  Lesson4_MHA_ok mha ->
  attends [B; S; Lesson4.embed_dim mha]
          (fun x => lift (Lesson4.MultiHeadAttention_forward mha x)).
Proof.
  intros Hok x w Hx _.
  destruct (@Lesson4_forward_char mha x B S Hok Hx)
    as (res & a & Hf & Hsr & Hwr & _).
  exists res, a, w. unfold lift. rewrite Hf. repeat split; auto.
Qed.

Lemma attends_Lesson5 (mha : Lesson5.MultiHeadAttention) (B S : nat) :
  nn_MHA_ok (Lesson5.mha_attention mha) ->
  attends [B; S; nn.embed_dim (Lesson5.mha_attention mha)]
          (fun x => lift (Lesson5.MultiHeadAttention_forward mha x)).
Proof.
  intros Hok x w Hx _.
  destruct (@Lesson5_MHA_forward_shape mha x B S Hok Hx)
    as (o & a & Hf & Hso & Hwo & _).
  exists o, a, w. unfold lift. rewrite Hf. repeat split; auto; congruence.
Qed.

Lemma Lesson4_block_forward_shape
  (blk : Lesson4.TransformerBlock) (s : list nat) :
  attends s (Lesson4.attention blk) ->
  preserves s (Lesson4.ffn blk) ->
  preserves s (Lesson4.norm1 blk) ->
  preserves s (Lesson4.norm2 blk) ->
  preserves s (Lesson4.dropout blk) ->
  forall x w, shape x = s -> wf x ->
    exists y a w',
      Lesson4.TransformerBlock_forward blk x w = Ok ((y, a), w') /\
      shape y = s /\ wf y.
Proof.
  intros Hatt Hffn Hn1 Hn2 Hdr x w Hx Hwf.
  unfold Lesson4.TransformerBlock_forward, bind.
  destruct (Hatt x w Hx Hwf) as (ao & aw & w1 & Ha & Hsa & Hwa). rewrite Ha.
  destruct (Hdr ao w1 Hsa Hwa) as (d1 & w2 & Hd1 & Hsd1 & Hwd1). rewrite Hd1.
  destruct (@add_same x d1 s Hx Hsd1) as (s1 & Hs1 & Hss1 & Hws1 & _).
  unfold lift at 1. rewrite Hs1.
  destruct (Hn1 s1 w2 Hss1 Hws1) as (x1 & w3 & Hx1 & Hsx1 & Hwx1). rewrite Hx1.
  destruct (Hffn x1 w3 Hsx1 Hwx1) as (ff & w4 & Hff & Hsff & Hwff). rewrite Hff.
  destruct (Hdr ff w4 Hsff Hwff) as (d2 & w5 & Hd2 & Hsd2 & Hwd2). rewrite Hd2.
  destruct (@add_same x1 d2 s Hsx1 Hsd2) as (s2 & Hs2 & Hss2 & Hws2 & _).
  unfold lift. rewrite Hs2.
  destruct (Hn2 s2 w5 Hss2 Hws2) as (x2 & w6 & Hx2 & Hsx2 & Hwx2). rewrite Hx2.
  exists x2, aw, w6. unfold ret. repeat split; auto.
Qed.

Lemma Lesson5_block_forward_shape
  (blk : Lesson5.TransformerBlock) (s : list nat) :
  attends s (Lesson5.attention blk) ->
  preserves s (Lesson5.ffn blk) ->
  preserves s (Lesson5.norm1 blk) ->
  preserves s (Lesson5.norm2 blk) ->
  preserves s (Lesson5.dropout blk) ->
  forall x w, shape x = s -> wf x ->
    exists y a w',
      Lesson5.TransformerBlock_forward blk x w = Ok ((y, a), w') /\
      shape y = s /\ wf y.
Proof.
  intros Hatt Hffn Hn1 Hn2 Hdr x w Hx Hwf.
  unfold Lesson5.TransformerBlock_forward, bind.
  destruct (Hatt x w Hx Hwf) as (ao & aw & w1 & Ha & Hsa & Hwa). rewrite Ha.
  destruct (Hdr ao w1 Hsa Hwa) as (d1 & w2 & Hd1 & Hsd1 & Hwd1). rewrite Hd1.
  destruct (@add_same x d1 s Hx Hsd1) as (s1 & Hs1 & Hss1 & Hws1 & _).
  unfold lift at 1. rewrite Hs1.
  destruct (Hn1 s1 w2 Hss1 Hws1) as (x1 & w3 & Hx1 & Hsx1 & Hwx1). rewrite Hx1.
  destruct (Hffn x1 w3 Hsx1 Hwx1) as (ff & w4 & Hff & Hsff & Hwff). rewrite Hff.
  destruct (Hdr ff w4 Hsff Hwff) as (d2 & w5 & Hd2 & Hsd2 & Hwd2). rewrite Hd2.
  destruct (@add_same x1 d2 s Hsx1 Hsd2) as (s2 & Hs2 & Hss2 & Hws2 & _).
  unfold lift. rewrite Hs2.
  destruct (Hn2 s2 w5 Hss2 Hws2) as (x2 & w6 & Hx2 & Hsx2 & Hwx2). rewrite Hx2.
  exists x2, aw, w6. unfold ret. repeat split; auto.
Qed.

Lemma Dropout_init_ok (p : R) :
  (0 <= p <= 1)%R -> Dropout_init p = Ok (mkDropout p).
Proof.
  intros [H0 H1]. unfold Dropout_init.
  destruct (Rlt_dec p 0); [lra|]. destruct (Rlt_dec 1 p); [lra|]. reflexivity.
Qed.

Lemma Lesson4_block_init_ok (e h f : nat) (p : R) (w : World) :
  0 < h -> 0 < e -> e mod h = 0 -> (0 <= p <= 1)%R ->
  exists blk w',
    Lesson4.TransformerBlock_init e h f p w = Ok (blk, w') /\
    training w' = training w /\
    forall B S,
      attends [B; S; e] (Lesson4.attention blk) /\
      preserves [B; S; e] (Lesson4.ffn blk) /\
      preserves [B; S; e] (Lesson4.norm1 blk) /\
      preserves [B; S; e] (Lesson4.norm2 blk) /\
      preserves [B; S; e] (Lesson4.dropout blk).
Proof.
  intros Hh He Hm Hp. unfold Lesson4.TransformerBlock_init, bind.
  destruct (@Lesson4_init_ok e h w Hh He Hm)
    as (mha & w1 & Hmha & Hok & HE & _ & Ht1).
  rewrite Hmha.
  destruct (Linear_init_ok e f w1) as (l1 & w2 & Hl1 & Hl1o & Ht2). rewrite Hl1.
  destruct (Linear_init_ok f e w2) as (l2 & w3 & Hl2 & Hl2o & Ht3). rewrite Hl2.
  rewrite (Dropout_init_ok Hp). unfold lift, ret.
  eexists. eexists. split; [reflexivity|]. split; [congruence|].
  intros B S. cbn [Lesson4.attention Lesson4.ffn Lesson4.norm1 Lesson4.norm2
                   Lesson4.dropout].
  split; [rewrite <- HE; now apply attends_Lesson4|].
  split; [apply (@preserves_ffn l1 l2 [B; S] e f); assumption|].
  split; [apply (@preserves_LayerNorm e [B; S])|].
  split; [apply (@preserves_LayerNorm e [B; S])|].
  apply preserves_Dropout.
Qed.

Lemma Lesson5_MHA_init_ok (e h : nat) (w : World) :
  0 < h -> 0 < e -> e mod h = 0 ->
  exists self w',
    Lesson5.MultiHeadAttention_init e h w = Ok (self, w') /\
    nn_MHA_ok (Lesson5.mha_attention self) /\
    nn.embed_dim (Lesson5.mha_attention self) = e /\
    nn.num_heads (Lesson5.mha_attention self) = h /\
    training w' = training w.
Proof.
  intros Hh He Hm. unfold Lesson5.MultiHeadAttention_init, bind, ret.
  destruct (@nn_init_ok e h w Hh He Hm) as (a & w1 & Ha & Hok & HE & HH & Ht).
  rewrite Ha. eexists. eexists. split; [reflexivity|].
  cbn [Lesson5.mha_attention].
  split; [exact Hok|]. split; [exact HE|]. split; [exact HH | exact Ht].
Qed.

Lemma Lesson5_block_init_ok (e h f : nat) (p : R) (w : World) :
  0 < h -> 0 < e -> e mod h = 0 -> (0 <= p <= 1)%R ->
  exists blk w',
    Lesson5.TransformerBlock_init e h f p w = Ok (blk, w') /\
    training w' = training w /\
    forall B S,
      attends [B; S; e] (Lesson5.attention blk) /\
      preserves [B; S; e] (Lesson5.ffn blk) /\
      preserves [B; S; e] (Lesson5.norm1 blk) /\
      preserves [B; S; e] (Lesson5.norm2 blk) /\
      preserves [B; S; e] (Lesson5.dropout blk).
Proof.
  intros Hh He Hm Hp. unfold Lesson5.TransformerBlock_init, bind.
  destruct (@Lesson5_MHA_init_ok e h w Hh He Hm)
    as (mha & w1 & Hmha & Hok & HE & _ & Ht1).
  rewrite Hmha.
  destruct (Linear_init_ok e f w1) as (l1 & w2 & Hl1 & Hl1o & Ht2). rewrite Hl1.
  destruct (Linear_init_ok f e w2) as (l2 & w3 & Hl2 & Hl2o & Ht3). rewrite Hl2.
  rewrite (Dropout_init_ok Hp). unfold lift, ret.
  eexists. eexists. split; [reflexivity|]. split; [congruence|].
  intros B S. cbn [Lesson5.attention Lesson5.ffn Lesson5.norm1 Lesson5.norm2
                   Lesson5.dropout].
  split; [rewrite <- HE; now apply attends_Lesson5|].
  split; [apply (@preserves_ffn l1 l2 [B; S] e f); assumption|].
  split; [apply (@preserves_LayerNorm e [B; S])|].
  split; [apply (@preserves_LayerNorm e [B; S])|].
  apply preserves_Dropout.
Qed.

(* ================================================================== *)
(** * Lesson 5: the positional encoding table *)

Lemma half_succ_double (n : nat) : (2 * n + 1) / 2 = n.
Proof.
  replace (2 * n + 1) with (n * 2 + 1) by lia.
  rewrite Nat.div_add_l by lia. now rewrite Nat.div_small by lia.
Qed.

Lemma half_double (n : nat) : (2 * n) / 2 = n.
Proof. rewrite Nat.mul_comm. apply Nat.div_mul. lia. Qed.

Lemma even_half_lt (a b : nat) :
  a mod 2 = 0 -> a < b -> a / 2 < (b + 1) / 2.
Proof.
  intros Hm Hlt.
  pose proof (Nat.div_mod_eq a 2) as Ha. rewrite Hm in Ha.
  assert (Hle : (a + 2) / 2 <= (b + 1) / 2)
    by (apply Nat.Div0.div_le_mono; lia).
  replace (a + 2) with (a + 1 * 2) in Hle by lia.
  rewrite Nat.div_add in Hle by lia. lia.
Qed.

(** A column [M;1] times a row [K] is the outer product [M;K]. *)
Lemma mul_outer (p d : list R) (M K : nat) :
  exists c,
    mul (mkT [M; 1] p) (mkT [K] d) = Ok c /\ shape c = [M; K] /\ wf c /\
    forall r j, r < M -> j < K ->
      at_ c (r * K + j) = (nth r p 0 * nth j d 0)%R.
Proof.
  unfold mul, broadcast_shapes. cbn [shape rev app broadcast_rev].
  assert (Hb : (if 1 =? K then Some [1; M]
                else if 1 =? 1 then Some [K; M]
                else if K =? 1 then Some [1; M] else None) = Some [K; M]).
  { destruct (Nat.eqb_spec 1 K); [subst|]; reflexivity. }
  rewrite Hb. cbn [option_map rev app].
  eexists. split; [reflexivity|]. split; [reflexivity|].
  split; [apply wf_tab|].
  intros r j Hr Hj.
  rewrite at_tab by (rewrite numel2; now apply offset_lt).
  cbv zeta. rewrite <- (ravel2 M K r j).
  rewrite unravel_ravel by now apply in_bounds2.
  unfold bidx, get. cbn [shape length Nat.sub skipn combine map fst snd data].
  rewrite (Nat.eqb_refl 1), !ravel2. unfold at_. cbn [data].
  f_equal.
  - f_equal. destruct (Nat.eqb_spec M 1); lia.
  - cbn [ravel]. unfold numel. cbn [fold_right].
    destruct (Nat.eqb_spec K 1); f_equal; lia.
Qed.

Lemma setitem_cols2_spec (dst src : tensor) (m e start : nat) :
  shape dst = [m; e] ->
  shape src = [m; ncols2 e start] ->
  exists t,
    setitem_cols2 dst start src = Ok t /\ shape t = [m; e] /\ wf t /\
    forall r c, r < m -> c < e ->
      at_ t (r * e + c)
      = if (start <=? c) && ((c - start) mod 2 =? 0)
        then at_ src (r * ncols2 e start + (c - start) / 2)
        else at_ dst (r * e + c).
Proof.
  intros Hd Hs. unfold setitem_cols2. rewrite Hd, Hs.
  rewrite broadcast_shapes_same, shape_eqb_refl.
  eexists. split; [reflexivity|]. split; [reflexivity|]. split.
  - unfold wf. cbn [data shape]. now rewrite length_tab, numel2.
  - intros r c Hr Hc.
    rewrite at_tab by now apply offset_lt.
    destruct (div_mod_offset r Hc) as [Hdv Hmd]. cbv zeta. rewrite Hdv, Hmd.
    destruct (Nat.leb_spec start c) as [Hle|]; [|reflexivity].
    destruct (Nat.eqb_spec ((c - start) mod 2) 0) as [Hev|]; [|reflexivity].
    cbn [andb].
    assert (Hlt : (c - start) / 2 < ncols2 e start).
    { unfold ncols2. apply even_half_lt; [assumption | lia]. }
    rewrite bidx_same by now apply in_bounds2.
    unfold get. now rewrite Hs, ravel2.
Qed.

(** When the source has one column and no column is selected, the
    assignment broadcasts the source to an empty selection. *)
Lemma setitem_cols2_none (dst src : tensor) (m e start : nat) :
  shape dst = [m; e] ->
  shape src = [m; 1] ->
  ncols2 e start = 0 ->
  exists t,
    setitem_cols2 dst start src = Ok t /\ shape t = [m; e] /\ wf t /\
    forall r c, r < m -> c < e -> at_ t (r * e + c) = at_ dst (r * e + c).
Proof.
  intros Hd Hs Hn. unfold setitem_cols2. rewrite Hd, Hs, Hn.
  unfold broadcast_shapes. cbn [rev app broadcast_rev].
  rewrite Nat.eqb_refl. cbn [Nat.eqb option_map rev app].
  rewrite shape_eqb_refl.
  eexists. split; [reflexivity|]. split; [reflexivity|]. split.
  - unfold wf. cbn [data shape]. now rewrite length_tab, numel2.
  - intros r c Hr Hc.
    rewrite at_tab by now apply offset_lt.
    destruct (div_mod_offset r Hc) as [Hdv Hmd]. cbv zeta. rewrite Hdv, Hmd.
    destruct (Nat.leb_spec start c) as [Hle|]; [|reflexivity].
    destruct (Nat.eqb_spec ((c - start) mod 2) 0) as [Hev|]; [|reflexivity].
    exfalso. unfold ncols2 in Hn.
    assert ((c - start) / 2 < (e - start + 1) / 2)
      by (apply even_half_lt; [assumption | lia]).
    lia.
Qed.

Lemma even_mod2 (c : nat) : Nat.even c = (c mod 2 =? 0).
Proof.
  pose proof (Nat.div_mod_eq c 2) as Hc.
  pose proof (Nat.mod_upper_bound c 2 ltac:(lia)) as Hlt.
  destruct (c mod 2) as [|[|m]] eqn:Hm; try lia.
  - rewrite Hc, Nat.add_0_r, Nat.even_mul. reflexivity.
  - rewrite Hc, Nat.add_comm, Nat.even_add_mul_2. reflexivity.
Qed.

Lemma div_term_at (e j : nat) :
  j < (e + 1) / 2 ->
  at_ (tmap exp (mul_scalar (arange2 e) (- (ln 10000 / INR e)))) j
  = exp (INR (2 * j) * - (ln 10000 / INR e)).
Proof.
  intros Hj. rewrite at_tmap.
  - rewrite at_mul_scalar. unfold arange2. now rewrite at_tab.
  - unfold mul_scalar, tmap, arange2. cbn [data].
    now rewrite length_map, length_tab.
Qed.

(** The product [position * div_term] of the constructor. *)
Lemma PE_angles (e m : nat) :
  exists a,
    mul (mkT [m; 1] (tab m INR))
        (tmap exp (mul_scalar (arange2 e) (- (ln 10000 / INR e)))) = Ok a /\
    shape a = [m; (e + 1) / 2] /\ wf a /\
    forall r j, r < m -> j < (e + 1) / 2 ->
      at_ a (r * ((e + 1) / 2) + j)
      = (INR r * exp (INR (2 * j) * - (ln 10000 / INR e)))%R.
Proof.
  set (dv := tmap exp (mul_scalar (arange2 e) (- (ln 10000 / INR e)))).
  destruct (mul_outer (tab m INR) (data dv) m ((e + 1) / 2))
    as (a & Ha & Hsa & Hwa & Hat).
  exists a. split; [exact Ha|]. split; [exact Hsa|]. split; [exact Hwa|].
  intros r j Hr Hj. rewrite Hat by assumption.
  rewrite nth_tab by assumption. f_equal.
  now apply div_term_at.
Qed.

Lemma at_tmap_wf (f : R -> R) (t : tensor) (k : nat) :
  wf t -> k < numel (shape t) -> at_ (tmap f t) k = f (at_ t k).
Proof. intros Hw Hk. apply at_tmap. now rewrite Hw. Qed.

Lemma PE_init_even (n m : nat) :
  exists self,
    Lesson5.PositionalEncoding_init (2 * n) m = Ok self /\
    shape (Lesson5.pe self) = [m; 2 * n] /\ wf (Lesson5.pe self) /\
    forall pos c, pos < m -> c < 2 * n ->
      at_ (Lesson5.pe self) (pos * (2 * n) + c) = pe_entry (2 * n) pos c.
Proof.
  destruct (PE_angles (2 * n) m) as (a & Ha & Hsa & Hwa & Hat).
  rewrite half_succ_double in Hsa, Hat.
  assert (Hn0 : ncols2 (2 * n) 0 = n).
  { unfold ncols2. now rewrite Nat.sub_0_r, half_succ_double. }
  assert (Hn1 : ncols2 (2 * n) 1 = n).
  { unfold ncols2. destruct n as [|n']; [reflexivity|].
    replace (2 * S n' - 1 + 1) with (2 * S n') by lia. apply half_double. }
  destruct (@setitem_cols2_spec (zeros [m; 2 * n]) (tmap sin a) m (2 * n) 0
              eq_refl) as (p1 & Hp1 & Hsp1 & _ & Hatp1).
  { cbn [tmap shape]. now rewrite Hsa, Hn0. }
  destruct (@setitem_cols2_spec p1 (tmap cos a) m (2 * n) 1 Hsp1)
    as (p2 & Hp2 & Hsp2 & Hwp2 & Hatp2).
  { cbn [tmap shape]. now rewrite Hsa, Hn1. }
  exists (Lesson5.mkPositionalEncoding p2).
  split.
  { unfold Lesson5.PositionalEncoding_init.
    change (unsqueeze1 (arange m)) with (Ok (mkT [m; 1] (tab m INR))).
    cbn [rbind]. rewrite Ha. cbn [rbind]. rewrite Hp1. cbn [rbind].
    rewrite Hp2. reflexivity. }
  cbn [Lesson5.pe]. split; [exact Hsp2|]. split; [exact Hwp2|].
  intros pos c Hpos Hc.
  rewrite Hatp2, Hatp1 by assumption. rewrite Hn0, Hn1.
  unfold pe_entry. rewrite even_mod2.
  pose proof (Nat.div_mod_eq c 2) as Hdm.
  pose proof (Nat.mod_upper_bound c 2 ltac:(lia)) as Hlt.
  pose proof (Nat.div_mod_eq (c - 1) 2) as Hdm1.
  pose proof (Nat.mod_upper_bound (c - 1) 2 ltac:(lia)) as Hlt1.
  change (0 <=? c) with true. rewrite Nat.sub_0_r.
  destruct (Nat.eqb_spec (c mod 2) 0) as [Hev|Hod].
  - assert (Hf : (1 <=? c) && ((c - 1) mod 2 =? 0) = false).
    { destruct (Nat.leb_spec 1 c); [|reflexivity].
      destruct (Nat.eqb_spec ((c - 1) mod 2) 0); [lia | reflexivity]. }
    rewrite Hf. cbn [andb].
    rewrite at_tmap_wf, Hat; auto.
    + replace (2 * (c / 2)) with c by lia. reflexivity.
    + apply Nat.Div0.div_lt_upper_bound. lia.
    + rewrite Hsa, numel2. apply offset_lt; [assumption|].
      apply Nat.Div0.div_lt_upper_bound. lia.
  - assert (Ht : (1 <=? c) && ((c - 1) mod 2 =? 0) = true).
    { destruct (Nat.leb_spec 1 c); [|lia].
      destruct (Nat.eqb_spec ((c - 1) mod 2) 0); [reflexivity | lia]. }
    rewrite Ht.
    rewrite at_tmap_wf, Hat; auto.
    + replace (2 * ((c - 1) / 2)) with (c - 1) by lia. reflexivity.
    + apply Nat.Div0.div_lt_upper_bound. lia.
    + rewrite Hsa, numel2. apply offset_lt; [assumption|].
      apply Nat.Div0.div_lt_upper_bound. lia.
Qed.

Lemma PE_init_one (m : nat) :
  exists self,
    Lesson5.PositionalEncoding_init 1 m = Ok self /\
    shape (Lesson5.pe self) = [m; 1] /\ wf (Lesson5.pe self) /\
    forall pos c, pos < m -> c < 1 ->
      at_ (Lesson5.pe self) (pos * 1 + c) = pe_entry 1 pos c.
Proof.
  destruct (PE_angles 1 m) as (a & Ha & Hsa & Hwa & Hat).
  change ((1 + 1) / 2) with 1 in Hsa, Hat.
  destruct (@setitem_cols2_spec (zeros [m; 1]) (tmap sin a) m 1 0 eq_refl)
    as (p1 & Hp1 & Hsp1 & _ & Hatp1); [exact Hsa|].
  destruct (@setitem_cols2_none p1 (tmap cos a) m 1 1 Hsp1 Hsa eq_refl)
    as (p2 & Hp2 & Hsp2 & Hwp2 & Hatp2).
  exists (Lesson5.mkPositionalEncoding p2).
  split.
  { unfold Lesson5.PositionalEncoding_init.
    change (unsqueeze1 (arange m)) with (Ok (mkT [m; 1] (tab m INR))).
    cbn [rbind]. rewrite Ha. cbn [rbind]. rewrite Hp1. cbn [rbind].
    rewrite Hp2. reflexivity. }
  cbn [Lesson5.pe]. split; [exact Hsp2|]. split; [exact Hwp2|].
  intros pos c Hpos Hc. assert (c = 0) by lia. subst c.
  rewrite Hatp2, Hatp1 by assumption.
  change (ncols2 1 0) with 1. cbn [Nat.leb Nat.sub andb].
  change (0 mod 2 =? 0) with true. cbv iota.
  change (0 / 2) with 0.
  rewrite at_tmap_wf, Hat; auto.
  rewrite Hsa, numel2. lia.
Qed.

Lemma PE_init_odd (n m : nat) :
  Lesson5.PositionalEncoding_init (2 * n + 3) m = Raise RuntimeError.
Proof.
  destruct (PE_angles (2 * n + 3) m) as (a & Ha & Hsa & Hwa & Hat).
  assert (HK : (2 * n + 3 + 1) / 2 = n + 2).
  { replace (2 * n + 3 + 1) with (2 * (n + 2)) by lia. apply half_double. }
  rewrite HK in Hsa.
  assert (Hn0 : ncols2 (2 * n + 3) 0 = n + 2).
  { unfold ncols2. now rewrite Nat.sub_0_r. }
  assert (Hn1 : ncols2 (2 * n + 3) 1 = n + 1).
  { unfold ncols2. replace (2 * n + 3 - 1 + 1) with (2 * (n + 1) + 1) by lia.
    apply half_succ_double. }
  destruct (@setitem_cols2_spec (zeros [m; 2 * n + 3]) (tmap sin a) m
              (2 * n + 3) 0 eq_refl) as (p1 & Hp1 & Hsp1 & _ & _).
  { cbn [tmap shape]. now rewrite Hsa, Hn0. }
  unfold Lesson5.PositionalEncoding_init.
  change (unsqueeze1 (arange m)) with (Ok (mkT [m; 1] (tab m INR))).
  cbn [rbind]. rewrite Ha. cbn [rbind]. rewrite Hp1. cbn [rbind].
  unfold setitem_cols2. rewrite Hsp1, Hn1. cbn [tmap shape]. rewrite Hsa.
  unfold broadcast_shapes. cbn [rev app broadcast_rev].
  rewrite Nat.eqb_refl.
  destruct (Nat.eqb_spec (n + 2) (n + 1)); [lia|].
  destruct (Nat.eqb_spec (n + 2) 1); [lia|].
  destruct (Nat.eqb_spec (n + 1) 1); [|reflexivity].
  cbn [option_map rev app shape_eqb]. rewrite Nat.eqb_refl.
  destruct (Nat.eqb_spec (n + 2) (n + 1)); [lia|]. reflexivity.
Qed.

Lemma nat_parity_cases (e : nat) :
  (exists n, e = 2 * n) \/ e = 1 \/ (exists n, e = 2 * n + 3).
Proof.
  pose proof (Nat.div_mod_eq e 2) as Hdm.
  pose proof (Nat.mod_upper_bound e 2 ltac:(lia)) as Hlt.
  destruct (e mod 2) as [|[|k]] eqn:Hm; try lia.
  - left. exists (e / 2). lia.
  - destruct (e / 2) as [|q] eqn:Hq.
    + right. left. lia.
    + right. right. exists q. lia.
Qed.

(** What the table holds whenever the constructor returns. *)
Lemma PE_init_inv (e m : nat) (self : Lesson5.PositionalEncoding) :
  Lesson5.PositionalEncoding_init e m = Ok self ->
  shape (Lesson5.pe self) = [m; e] /\ wf (Lesson5.pe self) /\
  forall pos c, pos < m -> c < e ->
    at_ (Lesson5.pe self) (pos * e + c) = pe_entry e pos c.
Proof.
  intros Hinit.
  destruct (nat_parity_cases e) as [[n ->] | [-> | [n ->]]].
  - destruct (PE_init_even n m) as (s & Hs & H1 & H2 & H3).
    rewrite Hs in Hinit. injection Hinit as <-. auto.
  - destruct (PE_init_one m) as (s & Hs & H1 & H2 & H3).
    rewrite Hs in Hinit. injection Hinit as <-. auto.
  - rewrite PE_init_odd in Hinit. discriminate.
Qed.

(* ================================================================== *)
(** * Properties of lesson 4's attention *)

Lemma example_attention4_ok : Lesson4_MHA_ok example_attention4.
Proof.
  unfold Lesson4_MHA_ok, Linear_ok, wf. cbn.
  repeat split; lia.
Qed.

Lemma example_attention5_ok :
  nn_MHA_ok (Lesson5.mha_attention example_attention5).
Proof.
  unfold nn_MHA_ok, Linear_ok, wf. cbn.
  repeat split; lia.
Qed.

(** C1.  For an input [x] of shape (batch, seq_length, embed_dim),
    [MultiHeadAttention.forward] returns a pair (result, weights); the
    result has the shape of [x]; the weights are, index by index, the
    softmax over the keys of the per-head scores [Q . Kt] scaled by
    [head_dim ^ (-0.5)], and the result is the output projection of the
    value sums of the heads laid side by side in head order, where Q, K
    and V are the three linear projections of [x] split into [num_heads]
    heads of [head_dim] features. *)
Theorem C1_forward_refines_the_seven_steps
  (self : Lesson4.MultiHeadAttention) (x : tensor) (B S : nat) :
  Lesson4_MHA_ok self ->
  shape x = [B; S; Lesson4.embed_dim self] ->
  exists res w,
    Lesson4.MultiHeadAttention_forward self x = Ok (res, w) /\
    shape res = shape x /\
    (forall b h i j,
        b < B -> h < Lesson4.num_heads self -> i < S -> j < S ->
        get w [b; h; i; j] = AttentionSpec.weights self x b h i j) /\
    (forall b i e,
        b < B -> i < S -> e < Lesson4.embed_dim self ->
        get res [b; i; e] = AttentionSpec.result self x b i e).
Proof.
  intros Hok Hx.
  destruct (@Lesson4_forward_char self x B S Hok Hx)
    as (res & w & Hf & Hsr & _ & Hsw & _ & Hw & Hr).
  exists res, w. split; [exact Hf|]. split; [congruence|]. split.
  - intros b h i j Hb Hh Hi Hj.
    rewrite get4 with (A := B) (B := Lesson4.num_heads self) (C := S) (D := S)
      by assumption.
    now apply Hw.
  - intros b i e Hb Hi He.
    rewrite get3 with (A := B) (B := S) (C := Lesson4.embed_dim self)
      by assumption.
    now apply Hr.
Qed.

Lemma C1_witness :
  exists res w,
    Lesson4.MultiHeadAttention_forward example_attention4 (zeros [1; 3; 2])
    = Ok (res, w) /\
    shape res = shape (zeros [1; 3; 2]) /\
    (forall b h i j,
        b < 1 -> h < 2 -> i < 3 -> j < 3 ->
        get w [b; h; i; j]
        = AttentionSpec.weights example_attention4 (zeros [1; 3; 2]) b h i j) /\
    (forall b i e,
        b < 1 -> i < 3 -> e < 2 ->
        get res [b; i; e]
        = AttentionSpec.result example_attention4 (zeros [1; 3; 2]) b i e).
Proof.
  apply (@C1_forward_refines_the_seven_steps
           example_attention4 (zeros [1; 3; 2]) 1 3).
  - exact example_attention4_ok.
  - reflexivity.
Defined.

(* ================================================================== *)
(** * Shapes of block outputs *)

(** C3.  A transformer block built by the constructor of either lesson
    maps every input of shape (B, S, E), [E] being its embedding size, to
    an output of the same shape, in training as well as in evaluation
    mode.  The block has no bound on the sequence length, so this holds
    for every [S]. *)
Theorem C3_block_output_has_input_shape
  (e h f : nat) (p : R) (w0 w : World) (x : tensor) (B S : nat) :
  0 < h -> 0 < e -> e mod h = 0 -> (0 <= p <= 1)%R ->
  shape x = [B; S; e] -> wf x ->
  (exists blk w1,
      Lesson4.TransformerBlock_init e h f p w0 = Ok (blk, w1) /\
      exists y a w',
        Lesson4.TransformerBlock_forward blk x w = Ok ((y, a), w') /\
        shape y = shape x /\ wf y) /\
  (exists blk w1,
      Lesson5.TransformerBlock_init e h f p w0 = Ok (blk, w1) /\
      exists y a w',
        Lesson5.TransformerBlock_forward blk x w = Ok ((y, a), w') /\
        shape y = shape x /\ wf y).
Proof.
  intros Hh He Hm Hp Hx Hwf. split.
  - destruct (@Lesson4_block_init_ok e h f p w0 Hh He Hm Hp)
      as (blk & w1 & Hinit & _ & Hsub).
    exists blk, w1. split; [exact Hinit|].
    destruct (Hsub B S) as (Ha & Hf & Hn1 & Hn2 & Hd).
    destruct (@Lesson4_block_forward_shape blk [B; S; e] Ha Hf Hn1 Hn2 Hd
                x w Hx Hwf) as (y & a & w' & Hfw & Hsy & Hwy).
    exists y, a, w'. repeat split; auto; congruence.
  - destruct (@Lesson5_block_init_ok e h f p w0 Hh He Hm Hp)
      as (blk & w1 & Hinit & _ & Hsub).
    exists blk, w1. split; [exact Hinit|].
    destruct (Hsub B S) as (Ha & Hf & Hn1 & Hn2 & Hd).
    destruct (@Lesson5_block_forward_shape blk [B; S; e] Ha Hf Hn1 Hn2 Hd
                x w Hx Hwf) as (y & a & w' & Hfw & Hsy & Hwy).
    exists y, a, w'. repeat split; auto; congruence.
Qed.

Lemma wf_zeros (s : list nat) : wf (zeros s).
Proof. unfold wf, zeros. cbn [data shape]. apply repeat_length. Qed.

Lemma C3_witness :
  (exists blk w1,
      Lesson4.TransformerBlock_init 64 4 256 (1 / 10) example_world
      = Ok (blk, w1) /\
      exists y a w',
        Lesson4.TransformerBlock_forward blk (zeros [1; 6; 64]) example_world
        = Ok ((y, a), w') /\
        shape y = shape (zeros [1; 6; 64]) /\ wf y) /\
  (exists blk w1,
      Lesson5.TransformerBlock_init 64 4 256 (1 / 10) example_world
      = Ok (blk, w1) /\
      exists y a w',
        Lesson5.TransformerBlock_forward blk (zeros [1; 6; 64]) example_world
        = Ok ((y, a), w') /\
        shape y = shape (zeros [1; 6; 64]) /\ wf y).
Proof.
  apply (@C3_block_output_has_input_shape
           64 4 256 (1 / 10) example_world example_world
           (zeros [1; 6; 64]) 1 6).
  - lia.
  - lia.
  - reflexivity.
  - lra.
  - reflexivity.
  - apply wf_zeros.
Defined.

(* ================================================================== *)
(** * Construction of the attention layers *)

(** C5.  For all valid (positive) [embed_dim] and [num_heads],
    constructing [MultiHeadAttention] (lesson 4 and lesson 5) succeeds and
    keeps both numbers as given when [embed_dim % num_heads == 0], and
    raises an [AssertionError], whatever the state of the generator, when
    [embed_dim % num_heads != 0]. *)
Theorem C5_construction_succeeds_iff_divisible
  (embed_dim num_heads : nat) (w : World) :
  (0 < embed_dim -> 0 < num_heads -> embed_dim mod num_heads = 0 ->
   (exists self w',
       Lesson4.MultiHeadAttention_init embed_dim num_heads w = Ok (self, w') /\
       Lesson4.embed_dim self = embed_dim /\
       Lesson4.num_heads self = num_heads) /\
   (exists self w',
       Lesson5.MultiHeadAttention_init embed_dim num_heads w = Ok (self, w') /\
       nn.embed_dim (Lesson5.mha_attention self) = embed_dim /\
       nn.num_heads (Lesson5.mha_attention self) = num_heads)) /\
  (0 < embed_dim -> 0 < num_heads -> embed_dim mod num_heads <> 0 ->
   Lesson4.MultiHeadAttention_init embed_dim num_heads w
   = Raise AssertionError /\
   Lesson5.MultiHeadAttention_init embed_dim num_heads w
   = Raise AssertionError).
Proof.
  split.
  - intros He Hh Hm. split.
    + destruct (@Lesson4_init_ok embed_dim num_heads w Hh He Hm)
        as (self & w' & Hi & _ & H1 & H2 & _).
      exists self, w'. auto.
    + destruct (@Lesson5_MHA_init_ok embed_dim num_heads w Hh He Hm)
        as (self & w' & Hi & _ & H1 & H2 & _).
      exists self, w'. auto.
  - intros He Hh Hm. split.
    + now apply Lesson4_init_indivisible.
    + unfold Lesson5.MultiHeadAttention_init, bind.
      now rewrite nn_init_indivisible.
Qed.

Lemma C5_witness :
  ((exists self w',
       Lesson4.MultiHeadAttention_init 64 4 example_world = Ok (self, w') /\
       Lesson4.embed_dim self = 64 /\ Lesson4.num_heads self = 4) /\
   (exists self w',
       Lesson5.MultiHeadAttention_init 64 4 example_world = Ok (self, w') /\
       nn.embed_dim (Lesson5.mha_attention self) = 64 /\
       nn.num_heads (Lesson5.mha_attention self) = 4)) /\
  (Lesson4.MultiHeadAttention_init 65 4 example_world = Raise AssertionError /\
   Lesson5.MultiHeadAttention_init 65 4 example_world = Raise AssertionError).
Proof.
  split.
  - apply (proj1 (@C5_construction_succeeds_iff_divisible
                    64 4 example_world)).
    + lia.
    + lia.
    + reflexivity.
  - apply (proj2 (@C5_construction_succeeds_iff_divisible
                    65 4 example_world)).
    + lia.
    + lia.
    + discriminate.
Defined.

(** X14.  A size of 0 is rejected by both constructors, also when the
    divisibility test passes ([0 % num_heads == 0]): with [embed_dim] or
    [num_heads] equal to 0, lesson 4 raises a [ZeroDivisionError] (the
    floor division by [num_heads], or [0 ** -0.5] for the scale) and
    lesson 5 a [ValueError] (the check of the built-in layer). *)
Theorem X14_zero_sizes_are_rejected
  (embed_dim num_heads : nat) (w : World) :
  embed_dim = 0 \/ num_heads = 0 ->
  Lesson4.MultiHeadAttention_init embed_dim num_heads w
  = Raise ZeroDivisionError /\
  Lesson5.MultiHeadAttention_init embed_dim num_heads w
  = Raise ValueError.
Proof.
  intros Hz. split.
  - destruct (Nat.eq_dec num_heads 0) as [->|Hh].
    + apply Lesson4_init_zero_heads.
    + destruct Hz as [-> | ->]; [|lia].
      apply Lesson4_init_zero_dim. lia.
  - unfold Lesson5.MultiHeadAttention_init, bind.
    now rewrite nn_init_zero.
Qed.

Lemma X14_witness :
  Lesson4.MultiHeadAttention_init 0 4 example_world
  = Raise ZeroDivisionError /\
  Lesson5.MultiHeadAttention_init 0 4 example_world = Raise ValueError.
Proof.
  apply (@X14_zero_sizes_are_rejected 0 4 example_world).
  left. reflexivity.
Defined.

(* ================================================================== *)
(** * The positional table, entry by entry *)




(* ================================================================== *)
(** * The language model: construction and rejected inputs *)

Lemma make_blocks_ok (n e h f : nat) (p : R) (w : World) :
  0 < h -> 0 < e -> e mod h = 0 -> (0 <= p <= 1)%R ->
  exists bs w',
    Lesson5.make_blocks n e h f p w = Ok (bs, w') /\
    training w' = training w.
Proof.
  intros Hh He Hm Hp. revert w.
  induction n as [|n IH]; intros w.
  - exists [], w. split; reflexivity.
  - cbn [Lesson5.make_blocks]. unfold bind.
    destruct (@Lesson5_block_init_ok e h f p w Hh He Hm Hp)
      as (b & w1 & Hb & Ht1 & _).
    rewrite Hb.
    destruct (IH w1) as (bs & w2 & Hbs & Ht2). rewrite Hbs.
    exists (b :: bs), w2. split; [reflexivity | congruence].
Qed.

Lemma Embedding_init_ok (v e : nat) (w : World) :
  exists emb w',
    Embedding_init v e w = Ok (emb, w') /\
    shape (emb_weight emb) = [v; e] /\ wf (emb_weight emb) /\
    training w' = training w.
Proof.
  unfold Embedding_init, bind, ret.
  destruct (draw_ok [v; e] w) as (t & w1 & Ht & Hs & Hw & Htr). rewrite Ht.
  eexists. eexists. split; [reflexivity|]. cbn [emb_weight]. auto.
Qed.

Lemma LanguageModel_init_ok (v e h n f m : nat) (p : R) (w : World) :
  0 < h -> 0 < e -> e mod h = 0 -> Nat.even e = true -> (0 <= p <= 1)%R ->
  exists self w',
    Lesson5.LanguageModel_init v e h n f m p w = Ok (self, w').
Proof.
  intros Hh He Hm Hev Hp. unfold Lesson5.LanguageModel_init, bind.
  destruct (Embedding_init_ok v e w) as (emb & w1 & Hemb & _). rewrite Hemb.
  assert (Hpe : exists pe, Lesson5.PositionalEncoding_init e m = Ok pe).
  { destruct (nat_parity_cases e) as [[k ->] | [-> | [k ->]]].
    - destruct (PE_init_even k m) as (s & Hs & _). now exists s.
    - discriminate.
    - rewrite Nat.add_comm in Hev.
      replace (3 + 2 * k) with (1 + 2 * (k + 1)) in Hev by lia.
      rewrite Nat.even_add_mul_2 in Hev. discriminate. }
  destruct Hpe as (pe & Hpe). unfold lift at 1. rewrite Hpe.
  destruct (@make_blocks_ok n e h f p w1 Hh He Hm Hp) as (bs & w2 & Hbs & _).
  rewrite Hbs.
  destruct (Linear_init_ok e v w2) as (o & w3 & Ho & _). rewrite Ho.
  eexists. eexists. reflexivity.
Qed.

(** What the constructor fixes about the parts of a model. *)
Lemma LanguageModel_init_inv
  (v e h n f m : nat) (p : R) (w w' : World) (self : Lesson5.LanguageModel) :
  Lesson5.LanguageModel_init v e h n f m p w = Ok (self, w') ->
  shape (emb_weight (Lesson5.embedding self)) = [v; e] /\
  shape (Lesson5.pe (Lesson5.positional_encoding self)) = [m; e].
Proof.
  unfold Lesson5.LanguageModel_init, bind. intros Hinit.
  destruct (Embedding_init_ok v e w) as (emb & w1 & Hemb & Hse & _).
  rewrite Hemb in Hinit.
  unfold lift at 1 in Hinit.
  destruct (Lesson5.PositionalEncoding_init e m) as [pe|] eqn:Hpe;
    [|discriminate].
  destruct (Lesson5.make_blocks n e h f p w1) as [[bs w2]|]; [|discriminate].
  destruct (Linear_init_ok e v w2) as (o & w3 & Ho & _).
  rewrite Ho in Hinit. unfold ret in Hinit. injection Hinit as <- _.
  cbn [Lesson5.embedding Lesson5.positional_encoding].
  split; [exact Hse|]. now destruct (PE_init_inv _ _ Hpe).
Qed.

Lemma Embedding_forward_cases (emb : Embedding) (ids : itensor) (v e : nat) :
  shape (emb_weight emb) = [v; e] ->
  Embedding_forward emb ids = Raise IndexError \/
  exists x, Embedding_forward emb ids = Ok x /\ shape x = ishape ids ++ [e].
Proof.
  intros Hs. unfold Embedding_forward. rewrite Hs.
  destruct (forallb _ (idata ids)); [right | left; reflexivity].
  eexists. split; reflexivity.
Qed.

Lemma Embedding_forward_out_of_range
  (emb : Embedding) (ids : itensor) (v e : nat) (t : Z) :
  shape (emb_weight emb) = [v; e] ->
  In t (idata ids) -> (t < 0 \/ Z.of_nat v <= t)%Z ->
  Embedding_forward emb ids = Raise IndexError.
Proof.
  intros Hs Hin Ht. unfold Embedding_forward. rewrite Hs.
  destruct (forallb _ (idata ids)) eqn:Hall; [|reflexivity].
  exfalso. rewrite forallb_forall in Hall. specialize (Hall t Hin).
  apply andb_prop in Hall. destruct Hall as [H0 H1].
  apply Z.leb_le in H0. apply Z.ltb_lt in H1. lia.
Qed.

Lemma PositionalEncoding_forward_too_long
  (self : Lesson5.PositionalEncoding) (x : tensor) (m e B S E : nat) :
  shape (Lesson5.pe self) = [m; e] ->
  shape x = [B; S; E] ->
  2 <= m -> m < S ->
  Lesson5.PositionalEncoding_forward self x = Raise RuntimeError.
Proof.
  intros Hpe Hx Hm HS. unfold Lesson5.PositionalEncoding_forward.
  unfold size_at. rewrite Hx.
  change (norm_dim (length [B; S; E]) 1) with (Ok 1). cbn [rbind nth].
  unfold slice_rows. rewrite Hpe. cbn [rbind].
  unfold add. rewrite Hx. cbn [shape].
  unfold broadcast_shapes. cbn [rev app broadcast_rev].
  rewrite Nat.min_r by lia.
  destruct (Nat.eqb_spec S m); [lia|].
  destruct (Nat.eqb_spec S 1); [lia|].
  destruct (Nat.eqb_spec m 1); [lia|].
  reflexivity.
Qed.

(** C6 (amended).  For a model built with [max_seq_length >= 2], every
    input whose sequence length exceeds [max_seq_length] is rejected: the
    positional encoding raises a [RuntimeError], because the input does
    not broadcast against the rows of the table, and the model's forward
    pass raises that error or, when a token id is out of range, the
    [IndexError] of the embedding before it.  Nothing is truncated. *)
Theorem C6_overlong_sequence_is_rejected
  (vocab_size embed_dim num_heads num_layers ff_hidden_dim max_seq_length : nat)
  (dropout : R) (w0 w1 w : World) (self : Lesson5.LanguageModel)
  (ids : itensor) (B S : nat) :
  Lesson5.LanguageModel_init vocab_size embed_dim num_heads num_layers
    ff_hidden_dim max_seq_length dropout w0 = Ok (self, w1) ->
  2 <= max_seq_length ->
  max_seq_length < S ->
  ishape ids = [B; S] ->
  (forall x E, shape x = [B; S; E] ->
     Lesson5.PositionalEncoding_forward (Lesson5.positional_encoding self) x
     = Raise RuntimeError) /\
  (Lesson5.LanguageModel_forward self ids w = Raise RuntimeError \/
   Lesson5.LanguageModel_forward self ids w = Raise IndexError).
Proof.
  intros Hinit Hm HS Hids.
  destruct (LanguageModel_init_inv _ _ _ _ _ _ _ _ Hinit) as (Hemb & Hpe).
  split.
  - intros x E Hx.
    now apply (@PositionalEncoding_forward_too_long _ x max_seq_length
                 embed_dim B S E).
  - unfold Lesson5.LanguageModel_forward, bind.
    destruct (@Embedding_forward_cases _ ids _ _ Hemb) as [Hr | (x & Hx & Hsx)].
    + right. unfold lift at 1. now rewrite Hr.
    + left. unfold lift at 1. rewrite Hx.
      rewrite Hids in Hsx. cbn [app] in Hsx.
      unfold lift at 1.
      now rewrite (@PositionalEncoding_forward_too_long _ x max_seq_length
                     embed_dim B S embed_dim Hpe Hsx Hm HS).
Qed.

Lemma C6_witness :
  exists self w1,
    Lesson5.LanguageModel_init 1000 64 4 2 256 50 (1 / 10) example_world
    = Ok (self, w1) /\
    (forall x E, shape x = [2; 60; E] ->
       Lesson5.PositionalEncoding_forward (Lesson5.positional_encoding self) x
       = Raise RuntimeError) /\
    (Lesson5.LanguageModel_forward self (mkIT [2; 60] (repeat 0%Z 120))
       example_world = Raise RuntimeError \/
     Lesson5.LanguageModel_forward self (mkIT [2; 60] (repeat 0%Z 120))
       example_world = Raise IndexError).
Proof.
  destruct (@LanguageModel_init_ok 1000 64 4 2 256 50 (1 / 10) example_world)
    as (self & w1 & Hinit); try lia; try reflexivity; try lra.
  exists self, w1. split; [exact Hinit|].
  apply (@C6_overlong_sequence_is_rejected
           1000 64 4 2 256 50 (1 / 10) example_world w1 example_world self
           (mkIT [2; 60] (repeat 0%Z 120)) 2 60 Hinit).
  - lia.
  - lia.
  - reflexivity.
Defined.

(** C6, as stated, fails when the table has a single row: the row is
    broadcast over every position of a longer input and no error is
    raised. *)
Lemma C6_counterexample :
  exists self,
    Lesson5.PositionalEncoding_init 2 1 = Ok self /\
    exists y,
      Lesson5.PositionalEncoding_forward self (zeros [1; 3; 2]) = Ok y /\
      shape y = [1; 3; 2].
Proof.
  destruct (PE_init_even 1 1) as (self & Hinit & Hs & _).
  exists self. split; [exact Hinit|].
  unfold Lesson5.PositionalEncoding_forward, size_at.
  change (norm_dim (length (shape (zeros [1; 3; 2]))) 1) with (Ok 1).
  cbn [rbind zeros shape nth]. unfold slice_rows. rewrite Hs. cbn [rbind].
  unfold add. cbn [shape].
  eexists. split; reflexivity.
Qed.

(** C7.  A token id outside [[0, vocab_size)] anywhere in the input makes
    the model's forward pass raise an [IndexError]: the id is neither
    wrapped around nor looked up. *)
Theorem C7_out_of_range_token_is_rejected
  (vocab_size embed_dim num_heads num_layers ff_hidden_dim max_seq_length : nat)
  (dropout : R) (w0 w1 w : World) (self : Lesson5.LanguageModel)
  (ids : itensor) (t : Z) :
  Lesson5.LanguageModel_init vocab_size embed_dim num_heads num_layers
    ff_hidden_dim max_seq_length dropout w0 = Ok (self, w1) ->
  In t (idata ids) ->
  (t < 0 \/ Z.of_nat vocab_size <= t)%Z ->
  Lesson5.LanguageModel_forward self ids w = Raise IndexError.
Proof.
  intros Hinit Hin Ht.
  destruct (LanguageModel_init_inv _ _ _ _ _ _ _ _ Hinit) as (Hemb & _).
  unfold Lesson5.LanguageModel_forward, bind, lift.
  now rewrite (@Embedding_forward_out_of_range _ ids _ _ t Hemb Hin Ht).
Qed.

Lemma C7_witness :
  exists self w1,
    Lesson5.LanguageModel_init 1000 64 4 2 256 50 (1 / 10) example_world
    = Ok (self, w1) /\
    Lesson5.LanguageModel_forward self (mkIT [1; 2] [5; 1000]%Z) example_world
    = Raise IndexError.
Proof.
  destruct (@LanguageModel_init_ok 1000 64 4 2 256 50 (1 / 10) example_world)
    as (self & w1 & Hinit); try lia; try reflexivity; try lra.
  exists self, w1. split; [exact Hinit|].
  apply (@C7_out_of_range_token_is_rejected
           1000 64 4 2 256 50 (1 / 10) example_world w1 example_world self
           (mkIT [1; 2] [5; 1000]%Z) 1000%Z Hinit).
  - cbn. auto.
  - right. reflexivity.
Defined.

(* ================================================================== *)
(** * Residual connections around identity sub-modules *)

Lemma identity_block_forward (a : tensor) (d : Dropout) (x : tensor) (w : World) :
  training w = false ->
  exists y,
    Lesson4.TransformerBlock_forward (identity_block a d) x w
    = Ok ((y, a), w) /\
    shape y = shape x /\
    forall k, k < numel (shape x) -> at_ y k = (4 * at_ x k)%R.
Proof.
  intros Ht.
  destruct (@add_same x x (shape x) eq_refl eq_refl)
    as (x1 & Hx1 & Hsx1 & _ & Hatx1).
  destruct (@add_same x1 x1 (shape x) Hsx1 Hsx1)
    as (x2 & Hx2 & Hsx2 & _ & Hatx2).
  exists x2. split; [|split; [exact Hsx2|]].
  - unfold Lesson4.TransformerBlock_forward, identity_block, bind, ret, lift.
    cbn [Lesson4.attention Lesson4.ffn Lesson4.norm1 Lesson4.norm2
         Lesson4.dropout].
    unfold Dropout_forward. rewrite Ht. cbv beta iota.
    rewrite Hx1. cbv beta iota. rewrite Ht. cbv beta iota.
    rewrite Hx2. reflexivity.
  - intros k Hk. rewrite Hatx2, Hatx1 by assumption. lra.
Qed.

(** C9 (amended).  With the attention and feed-forward sub-modules and
    both normalisation layers replaced by identity functions, and dropout
    in evaluation mode, the block returns [x + x + (x + x)]: every entry
    of the output is four times the entry of the input, since each of the
    two residual additions adds the sub-module's output, here its input,
    to that input. *)
Theorem C9_identity_sublayers_give_four_x
  (a : tensor) (d : Dropout) (x : tensor) (w : World) :
  training w = false ->
  exists y,
    Lesson4.TransformerBlock_forward (identity_block a d) x w
    = Ok ((y, a), w) /\
    shape y = shape x /\
    forall idx, in_bounds (shape x) idx -> get y idx = (4 * get x idx)%R.
Proof.
  intros Ht.
  destruct (@identity_block_forward a d x w Ht) as (y & Hy & Hs & Hat).
  exists y. split; [exact Hy|]. split; [exact Hs|].
  intros idx Hin. unfold get. rewrite Hs. apply Hat. now apply ravel_lt.
Qed.

Lemma C9_witness :
  exists y,
    Lesson4.TransformerBlock_forward
      (identity_block (zeros []) (mkDropout (1 / 10)))
      example_input eval_world
    = Ok ((y, zeros []), eval_world) /\
    shape y = shape example_input /\
    forall idx, in_bounds (shape example_input) idx ->
      get y idx = (4 * get example_input idx)%R.
Proof.
  apply (@C9_identity_sublayers_give_four_x
           (zeros []) (mkDropout (1 / 10)) example_input
           eval_world).
  reflexivity.
Defined.

(** C9, as stated, fails: on the input [[1]] the block with identity
    sub-modules returns [[4]]. *)
Lemma C9_counterexample :
  exists y,
    Lesson4.TransformerBlock_forward
      (identity_block (zeros []) (mkDropout (1 / 10)))
      unit_input eval_world
    = Ok ((y, zeros []), eval_world) /\
    get y [0; 0; 0] = 4%R /\
    y <> unit_input.
Proof.
  destruct (@identity_block_forward (zeros []) (mkDropout (1 / 10))
              unit_input eval_world eq_refl)
    as (y & Hy & Hs & Hat).
  assert (Hv : get y [0; 0; 0] = 4%R).
  { unfold get. rewrite Hs. cbn [shape unit_input].
    change (ravel [1; 1; 1] [0; 0; 0]) with 0.
    rewrite Hat by (unfold numel; cbn; lia).
    unfold at_. cbn [data nth unit_input]. lra. }
  exists y. split; [exact Hy|]. split; [exact Hv|].
  intros ->. unfold get, at_, unit_input in Hv. cbn in Hv. lra.
Qed.

(* ================================================================== *)
(** * The logits of lesson 5's model depend on later tokens *)

Ltac rcbv :=
  cbv -[Rplus Rmult Rminus Ropp Rinv Rdiv exp sqrt sin cos ln INR IZR
        Rmax Rpower Rlt_dec Req_dec_T ln_unit].

Ltac exp_args_to_zero :=
  repeat match goal with
         | |- context [exp ?a] =>
             lazymatch a with
             | 0%R => fail
             | _ => replace a with 0%R by ring
             end
         end.

Ltac entries tac := repeat (apply f_equal2; [tac|]); try reflexivity.

Lemma leak_init :
  exists w1,
    Lesson5.LanguageModel_init 2 2 1 1 1 2 0 leak_world
    = Ok (leak_model, w1).
Proof.
  unfold Lesson5.LanguageModel_init, Lesson5.make_blocks,
    Lesson5.TransformerBlock_init.
  rewrite (@Dropout_init_ok 0%R) by lra.
  destruct (PE_init_even 1 2) as (pe & Hpe & _).
  change (2 * 1) with 2 in Hpe.
  assert (Hleak : Lesson5.PositionalEncoding_init 2 2 = Ok leak_pe).
  { unfold leak_pe. now rewrite Hpe. }
  rewrite Hleak.
  eexists. reflexivity.
Qed.

Lemma leak_pe_entries :
  exists p0 p1 p2 p3 : R,
    leak_pe = Lesson5.mkPositionalEncoding (mkT [2; 2] [p0; p1; p2; p3]).
Proof.
  destruct (PE_init_even 1 2) as (pe & Hpe & Hs & Hw & _).
  change (2 * 1) with 2 in Hpe, Hs.
  unfold leak_pe. rewrite Hpe.
  destruct pe as [[s d]]. cbn [Lesson5.pe shape] in *. subst s.
  unfold wf in Hw. cbn in Hw.
  destruct d as [|p0 [|p1 [|p2 [|p3 [|p4 d]]]]]; try discriminate.
  now exists p0, p1, p2, p3.
Qed.

Lemma leak_embedding_forward (t : Z) :
  t = 0%Z \/ t = 1%Z ->
  Embedding_forward leak_embedding (mkIT [1; 2] [0%Z; t])
  = Ok (mkT [1; 2; 2] [0; 0; if (t =? 0)%Z then 0 else 4; 0]%R).
Proof. intros [-> | ->]; reflexivity. Qed.

Lemma leak_pe_forward (p0 p1 p2 p3 a0 a1 b0 b1 : R) :
  Lesson5.PositionalEncoding_forward
    (Lesson5.mkPositionalEncoding (mkT [2; 2] [p0; p1; p2; p3]))
    (mkT [1; 2; 2] [a0; a1; b0; b1])
  = Ok (mkT [1; 2; 2] [a0 + p0; a1 + p1; b0 + p2; b1 + p3]%R).
Proof. reflexivity. Qed.

Lemma leak_attention_forward (u0 u1 v0 v1 : R) :
  exists A,
    Lesson5.MultiHeadAttention_forward leak_attention
      (mkT [1; 2; 2] [u0; u1; v0; v1])
    = Ok (mkT [1; 2; 2]
              [(u0 + v0) / 2; (u1 + v1) / 2; (u0 + v0) / 2; (u1 + v1) / 2]%R,
          A).
Proof.
  eexists. rcbv. exp_args_to_zero. rewrite exp_0.
  match goal with
  | |- Ok (?a, ?b) = Ok (?c, ?d) => replace a with c; [reflexivity|]
  end.
  f_equal. entries ltac:(field).
Qed.

Lemma add_122 (a0 a1 a2 a3 b0 b1 b2 b3 : R) :
  add (mkT [1; 2; 2] [a0; a1; a2; a3]) (mkT [1; 2; 2] [b0; b1; b2; b3])
  = Ok (mkT [1; 2; 2] [a0 + b0; a1 + b1; a2 + b2; a3 + b3]%R).
Proof. reflexivity. Qed.

Lemma ln_entry (x m v d : R) :
  (x - m = d)%R -> (v = d * d)%R ->
  ((x - m) / sqrt (v + 1 / 100000) * 1 + 0)%R = ln_unit d.
Proof. intros -> ->. unfold ln_unit. lra. Qed.

Lemma LayerNorm_122 (a0 a1 b0 b1 : R) :
  LayerNorm_forward (LayerNorm_init 2) (mkT [1; 2; 2] [a0; a1; b0; b1])
  = Ok (mkT [1; 2; 2]
            [ln_unit ((a0 - a1) / 2); ln_unit ((a1 - a0) / 2);
             ln_unit ((b0 - b1) / 2); ln_unit ((b1 - b0) / 2)]).
Proof.
  rcbv. cbn [INR]. f_equal. f_equal.
  entries ltac:(apply ln_entry; field).
Qed.

Lemma leak_ffn_forward (a0 a1 b0 b1 : R) (w : World) :
  Lesson5.ffn leak_block (mkT [1; 2; 2] [a0; a1; b0; b1]) w
  = Ok (mkT [1; 2; 2] [0; 0; 0; 0]%R, w).
Proof.
  rcbv. f_equal. f_equal. f_equal. entries ltac:(ring).
Qed.

Lemma leak_output_forward (a0 a1 b0 b1 : R) :
  Linear_forward leak_output (mkT [1; 2; 2] [a0; a1; b0; b1])
  = Ok (mkT [1; 2; 2] [a0; a1; b0; b1]).
Proof.
  rcbv. f_equal. f_equal. entries ltac:(ring).
Qed.

Lemma ln_unit_odd (d : R) : ln_unit (- d) = (- ln_unit d)%R.
Proof.
  unfold ln_unit. replace (- d * - d)%R with (d * d)%R by ring.
  unfold Rdiv. ring.
Qed.

Lemma ln_unit_inj (a b : R) : ln_unit a = ln_unit b -> a = b.
Proof.
  unfold ln_unit. intros H.
  assert (Hpa : (0 < a * a + 1 / 100000)%R) by nra.
  assert (Hpb : (0 < b * b + 1 / 100000)%R) by nra.
  pose proof (sqrt_lt_R0 _ Hpa) as Hsa.
  pose proof (sqrt_lt_R0 _ Hpb) as Hsb.
  pose proof (sqrt_sqrt (a * a + 1 / 100000) ltac:(lra)) as Hqa.
  pose proof (sqrt_sqrt (b * b + 1 / 100000) ltac:(lra)) as Hqb.
  set (sa := sqrt (a * a + 1 / 100000)) in *.
  set (sb := sqrt (b * b + 1 / 100000)) in *.
  assert (H1 : (a * sb = b * sa)%R).
  { apply (f_equal (fun t => (t * sa * sb)%R)) in H.
    field_simplify in H; lra. }
  assert (H2 : (a * a * (sb * sb) = b * b * (sa * sa))%R).
  { replace (a * a * (sb * sb))%R with ((a * sb) * (a * sb))%R by ring.
    rewrite H1. ring. }
  rewrite Hqa, Hqb in H2.
  assert (H3 : (a * a = b * b)%R) by nra.
  assert (H4 : sa = sb).
  { assert (sa * sa = sb * sb)%R by (rewrite Hqa, Hqb, H3; reflexivity).
    nra. }
  rewrite H4 in H1.
  apply (Rmult_eq_reg_r sb); lra.
Qed.

Lemma twice_normalised_eq (a b : R) :
  twice_normalised a b = ln_unit (ln_unit ((a - b) / 2)).
Proof.
  unfold twice_normalised. f_equal.
  replace ((b - a) / 2)%R with (- ((a - b) / 2))%R by lra.
  rewrite ln_unit_odd. lra.
Qed.

Lemma leak_block_forward (u0 u1 v0 v1 : R) (w : World) :
  training w = false ->
  exists y1 y2 y3 A,
    Lesson5.TransformerBlock_forward leak_block
      (mkT [1; 2; 2] [u0; u1; v0; v1]) w
    = Ok ((mkT [1; 2; 2]
               [twice_normalised (u0 + (u0 + v0) / 2) (u1 + (u1 + v1) / 2);
                y1; y2; y3], A), w).
Proof.
  intros Ht.
  destruct (leak_attention_forward u0 u1 v0 v1) as (A & HA).
  assert (Hdrop : forall x, Lesson5.dropout leak_block x w = Ok (x, w)).
  { intros x. unfold leak_block. cbn [Lesson5.dropout].
    unfold Dropout_forward. now rewrite Ht. }
  unfold Lesson5.TransformerBlock_forward, bind.
  assert (Hatt : Lesson5.attention leak_block (mkT [1; 2; 2] [u0; u1; v0; v1]) w
                 = Ok ((mkT [1; 2; 2]
                          [(u0 + v0) / 2; (u1 + v1) / 2;
                           (u0 + v0) / 2; (u1 + v1) / 2]%R, A), w)).
  { unfold leak_block. cbn [Lesson5.attention]. unfold lift. now rewrite HA. }
  rewrite Hatt, Hdrop. unfold lift at 1. rewrite add_122.
  assert (Hn1 : forall a0 a1 b0 b1,
             Lesson5.norm1 leak_block (mkT [1; 2; 2] [a0; a1; b0; b1]) w
             = Ok (mkT [1; 2; 2]
                       [ln_unit ((a0 - a1) / 2); ln_unit ((a1 - a0) / 2);
                        ln_unit ((b0 - b1) / 2); ln_unit ((b1 - b0) / 2)], w)).
  { intros. unfold leak_block. cbn [Lesson5.norm1]. unfold lift.
    now rewrite LayerNorm_122. }
  assert (Hn2 : forall a0 a1 b0 b1,
             Lesson5.norm2 leak_block (mkT [1; 2; 2] [a0; a1; b0; b1]) w
             = Ok (mkT [1; 2; 2]
                       [ln_unit ((a0 - a1) / 2); ln_unit ((a1 - a0) / 2);
                        ln_unit ((b0 - b1) / 2); ln_unit ((b1 - b0) / 2)], w)).
  { intros. unfold leak_block. cbn [Lesson5.norm2]. unfold lift.
    now rewrite LayerNorm_122. }
  rewrite Hn1, leak_ffn_forward, Hdrop. unfold lift. rewrite add_122, Hn2.
  unfold ret, twice_normalised. do 4 eexists. reflexivity.
Qed.

Lemma leak_forward (t : Z) (w : World) :
  t = 0%Z \/ t = 1%Z ->
  training w = false ->
  exists p0 p1 p2 p3 y1 y2 y3 : R,
    Lesson5.LanguageModel_forward leak_model (mkIT [1; 2] [0%Z; t]) w
    = Ok (mkT [1; 2; 2]
              [twice_normalised
                 (0 + p0 + (0 + p0 + ((if (t =? 0)%Z then 0 else 4) + p2)) / 2)
                 (0 + p1 + (0 + p1 + (0 + p3)) / 2);
               y1; y2; y3]%R, w) /\
    leak_pe = Lesson5.mkPositionalEncoding (mkT [2; 2] [p0; p1; p2; p3]).
Proof.
  intros Htok Ht.
  destruct leak_pe_entries as (p0 & p1 & p2 & p3 & Hpe).
  exists p0, p1, p2, p3.
  unfold Lesson5.LanguageModel_forward, bind, leak_model.
  cbn [Lesson5.embedding Lesson5.positional_encoding
       Lesson5.transformer_blocks Lesson5.output_layer].
  rewrite (leak_embedding_forward Htok). unfold lift at 1.
  rewrite Hpe, leak_pe_forward. unfold lift at 1.
  cbn [Lesson5.run_blocks]. unfold bind.
  destruct (@leak_block_forward
              (0 + p0) (0 + p1)
              ((if (t =? 0)%Z then 0 else 4) + p2) (0 + p3) w Ht)
    as (y1 & y2 & y3 & A & Hblk).
  rewrite Hblk. unfold ret, lift. rewrite leak_output_forward.
  exists y1, y2, y3. split; reflexivity.
Qed.

(** C10.  No causal mask is applied: there is a model of lesson 5, built
    by its constructor, and there are two inputs that agree at position 0
    and differ only at the later position 1, for which the logits at
    position 0, computed in evaluation mode, differ. *)
Theorem C10_logits_depend_on_later_tokens :
  exists (w0 w1 : World) (self : Lesson5.LanguageModel),
    Lesson5.LanguageModel_init 2 2 1 1 1 2 0 w0 = Ok (self, w1) /\
    exists (ids ids' : itensor) (logits logits' : tensor) (w w' w'' : World)
           (i j v : nat),
      training w = false /\
      ishape ids = [1; 2] /\ ishape ids' = [1; 2] /\
      i < j /\ j < 2 /\ v < 2 /\
      (forall k, k <= i -> nth k (idata ids) 0%Z = nth k (idata ids') 0%Z) /\
      nth j (idata ids) 0%Z <> nth j (idata ids') 0%Z /\
      Lesson5.LanguageModel_forward self ids w = Ok (logits, w') /\
      Lesson5.LanguageModel_forward self ids' w = Ok (logits', w'') /\
      get logits [0; i; v] <> get logits' [0; i; v].
Proof.
  destruct leak_init as (w1 & Hinit).
  exists leak_world, w1, leak_model. split; [exact Hinit|].
  destruct (@leak_forward 0%Z leak_world (or_introl eq_refl) eq_refl)
    as (p0 & p1 & p2 & p3 & y1 & y2 & y3 & Hf & Hpe).
  destruct (@leak_forward 1%Z leak_world (or_intror eq_refl) eq_refl)
    as (q0 & q1 & q2 & q3 & z1 & z2 & z3 & Hf' & Hpe').
  rewrite Hpe in Hpe'. injection Hpe' as <- <- <- <-.
  cbn [Z.eqb] in Hf, Hf'.
  eexists leak_ids, leak_ids', _, _, leak_world, _, _, 0, 1, 0.
  split; [reflexivity|]. split; [reflexivity|]. split; [reflexivity|].
  split; [lia|]. split; [lia|]. split; [lia|].
  split.
  { intros k Hk. assert (k = 0) by lia. subst k. reflexivity. }
  split; [discriminate|].
  split; [exact Hf|]. split; [exact Hf'|].
  unfold get, at_. cbn [shape data].
  change (ravel [1; 2; 2] [0; 0; 0]) with 0. cbn [nth].
  rewrite !twice_normalised_eq.
  intros Heq. apply ln_unit_inj in Heq. apply ln_unit_inj in Heq. lra.
Qed.

(* ================================================================== *)
(** * Which configurations the constructors accept *)

Lemma Dropout_init_bad (p : R) :
  (p < 0 \/ 1 < p)%R -> Dropout_init p = Raise ValueError.
Proof.
  intros Hp. unfold Dropout_init.
  destruct (Rlt_dec p 0); [reflexivity|].
  destruct (Rlt_dec 1 p); [reflexivity | lra].
Qed.

Lemma Lesson5_block_init_bad (e h f : nat) (p : R) (w : World) :
  ~ (0 < e /\ 0 < h /\ e mod h = 0 /\ (0 <= p <= 1)%R) ->
  exists err, Lesson5.TransformerBlock_init e h f p w = Raise err.
Proof.
  intros Hbad. unfold Lesson5.TransformerBlock_init, bind.
  destruct (Nat.eq_dec e 0) as [He | He].
  { unfold Lesson5.MultiHeadAttention_init, bind.
    rewrite nn_init_zero by auto. now eexists. }
  destruct (Nat.eq_dec h 0) as [Hh | Hh].
  { unfold Lesson5.MultiHeadAttention_init, bind.
    rewrite nn_init_zero by auto. now eexists. }
  destruct (Nat.eq_dec (e mod h) 0) as [Hm | Hm].
  2:{ unfold Lesson5.MultiHeadAttention_init, bind.
      rewrite nn_init_indivisible by lia. now eexists. }
  destruct (@Lesson5_MHA_init_ok e h w) as (mha & w1 & Hmha & _); try lia.
  rewrite Hmha.
  destruct (Linear_init_ok e f w1) as (l1 & w2 & Hl1 & _). rewrite Hl1.
  destruct (Linear_init_ok f e w2) as (l2 & w3 & Hl2 & _). rewrite Hl2.
  rewrite Dropout_init_bad; [now eexists|].
  destruct (Rlt_dec p 0); [now left|].
  destruct (Rlt_dec 1 p); [now right|].
  exfalso. apply Hbad. repeat split; try lia; lra.
Qed.

Lemma PE_init_accepts (e m : nat) :
  Nat.even e = true \/ e = 1 ->
  exists self,
    Lesson5.PositionalEncoding_init e m = Ok self /\
    shape (Lesson5.pe self) = [m; e].
Proof.
  intros Hc.
  destruct (nat_parity_cases e) as [[k ->] | [-> | [k ->]]].
  - destruct (PE_init_even k m) as (s & Hs & Hsh & _). now exists s.
  - destruct (PE_init_one m) as (s & Hs & Hsh & _). now exists s.
  - exfalso. destruct Hc as [Hev | H1]; [|lia].
    replace (2 * k + 3) with (1 + 2 * (k + 1)) in Hev by lia.
    rewrite Nat.even_add_mul_2 in Hev. discriminate.
Qed.

Lemma PE_init_rejects (e m : nat) :
  Nat.even e = false -> e <> 1 ->
  Lesson5.PositionalEncoding_init e m = Raise RuntimeError.
Proof.
  intros Hodd H1.
  destruct (nat_parity_cases e) as [[k ->] | [-> | [k ->]]].
  - rewrite Nat.even_mul in Hodd. discriminate.
  - contradiction.
  - apply PE_init_odd.
Qed.

(** X1.  The constructor of [PositionalEncoding] returns a table of shape
    (max_seq_length, embed_dim) when [embed_dim] is even or 1, and raises
    a [RuntimeError] for every other [embed_dim]: for an odd width of 3
    or more the cosine block has one column more than the odd columns it
    is assigned to. *)
Theorem X1_positional_encoding_needs_even_width
  (embed_dim max_seq_length : nat) :
  (Nat.even embed_dim = true \/ embed_dim = 1 ->
   exists self,
     Lesson5.PositionalEncoding_init embed_dim max_seq_length = Ok self /\
     shape (Lesson5.pe self) = [max_seq_length; embed_dim]) /\
  (Nat.even embed_dim = false -> embed_dim <> 1 ->
   Lesson5.PositionalEncoding_init embed_dim max_seq_length
   = Raise RuntimeError).
Proof.
  split.
  - apply PE_init_accepts.
  - apply PE_init_rejects.
Qed.

Lemma X1_witness :
  (exists self,
     Lesson5.PositionalEncoding_init 64 50 = Ok self /\
     shape (Lesson5.pe self) = [50; 64]) /\
  Lesson5.PositionalEncoding_init 65 50 = Raise RuntimeError.
Proof.
  split.
  - apply (proj1 (X1_positional_encoding_needs_even_width 64 50)).
    left. reflexivity.
  - apply (proj2 (X1_positional_encoding_needs_even_width 65 50)).
    + reflexivity.
    + discriminate.
Defined.

(** X2.  [LanguageModel(...)] can be constructed exactly when [embed_dim]
    is even or 1 and, unless [num_layers] is 0, [embed_dim] and
    [num_heads] are positive, [num_heads] divides [embed_dim] and the
    dropout probability lies in [[0, 1]].  Neither [vocab_size], nor
    [ff_hidden_dim], nor [max_seq_length] is constrained. *)
Theorem X2_language_model_constructible_iff
  (vocab_size embed_dim num_heads num_layers ff_hidden_dim max_seq_length : nat)
  (dropout : R) (w : World) :
  (exists self w',
      Lesson5.LanguageModel_init vocab_size embed_dim num_heads num_layers
        ff_hidden_dim max_seq_length dropout w = Ok (self, w'))
  <->
  ((Nat.even embed_dim = true \/ embed_dim = 1) /\
   (num_layers = 0 \/
    (0 < embed_dim /\ 0 < num_heads /\ embed_dim mod num_heads = 0 /\
     (0 <= dropout <= 1)%R))).
Proof.
  unfold Lesson5.LanguageModel_init, bind.
  destruct (Embedding_init_ok vocab_size embed_dim w)
    as (emb & w1 & Hemb & _).
  rewrite Hemb. unfold lift at 1.
  split.
  - intros (self & w' & Hinit). split.
    + destruct (Nat.even embed_dim) eqn:Hev; [now left|].
      destruct (Nat.eq_dec embed_dim 1) as [|H1]; [now right|].
      rewrite (PE_init_rejects max_seq_length Hev H1) in Hinit. discriminate.
    + destruct (Lesson5.PositionalEncoding_init embed_dim max_seq_length);
        [|discriminate].
      destruct num_layers as [|n]; [now left|]. right.
      destruct (Nat.eq_dec embed_dim 0) as [He|He];
        [|destruct (Nat.eq_dec num_heads 0) as [Hh|Hh];
          [|destruct (Nat.eq_dec (embed_dim mod num_heads) 0) as [Hm|Hm];
            [|];
            [destruct (Rlt_dec dropout 0) as [Hp0|Hp0];
               [|destruct (Rlt_dec 1 dropout) as [Hp1|Hp1];
                 [|repeat split; try lia; lra]]|]]].
      all: exfalso;
        destruct (@Lesson5_block_init_bad embed_dim num_heads ff_hidden_dim
                    dropout w1) as (err & Herr);
        [ intros (H1 & H2 & H3 & H4); try lia; lra
        | cbn [Lesson5.make_blocks] in Hinit; unfold bind in Hinit;
          rewrite Herr in Hinit; discriminate ].
  - intros (Hpe & Hblk).
    destruct (@PE_init_accepts embed_dim max_seq_length Hpe) as (pe & Hp & _).
    rewrite Hp.
    assert (Hmb : exists bs w2,
               Lesson5.make_blocks num_layers embed_dim num_heads
                 ff_hidden_dim dropout w1 = Ok (bs, w2)).
    { destruct Hblk as [-> | (He & Hh & Hm & Hd)].
      - exists [], w1. reflexivity.
      - destruct (@make_blocks_ok num_layers embed_dim num_heads ff_hidden_dim
                    dropout w1 Hh He Hm Hd) as (bs & w2 & Hbs & _).
        now exists bs, w2. }
    destruct Hmb as (bs & w2 & Hbs). rewrite Hbs.
    destruct (Linear_init_ok embed_dim vocab_size w2) as (o & w3 & Ho & _).
    rewrite Ho. eexists. eexists. reflexivity.
Qed.

(* ================================================================== *)
(** * The positional encoding and the forward pass of the model *)

(** Adding a [S; E] tensor to a [B; S; E] tensor adds it to every batch
    element. *)
Lemma add_rows (a b : tensor) (B S E : nat) :
  shape a = [B; S; E] -> shape b = [S; E] ->
  exists c,
    add a b = Ok c /\ shape c = [B; S; E] /\ wf c /\
    forall n i j, n < B -> i < S -> j < E ->
      at_ c ((n * S + i) * E + j)
      = (at_ a ((n * S + i) * E + j) + at_ b (i * E + j))%R.
Proof.
  intros Ha Hb. unfold add, broadcast_shapes. rewrite Ha, Hb.
  cbn [rev app broadcast_rev]. rewrite !Nat.eqb_refl. cbn [option_map rev app].
  eexists. split; [reflexivity|]. split; [reflexivity|].
  split; [apply wf_tab|].
  intros n i j Hn Hi Hj.
  rewrite at_tab by (rewrite numel3; now apply offset3_lt).
  cbv zeta. rewrite <- (ravel3 B S E n i j).
  rewrite unravel_ravel by now apply in_bounds3.
  rewrite bidx_same by now apply in_bounds3.
  unfold get at 1. rewrite Ha, ravel3. f_equal.
  unfold bidx, get. rewrite Hb.
  cbn [length Nat.sub skipn combine map fst snd]. rewrite ravel2.
  destruct (Nat.eqb_spec S 1); destruct (Nat.eqb_spec E 1);
    f_equal; nia.
Qed.

Lemma slice_rows_spec (t : tensor) (m e n : nat) :
  shape t = [m; e] -> n <= m ->
  exists s,
    slice_rows t n = Ok s /\ shape s = [n; e] /\
    forall i j, i < n -> j < e -> at_ s (i * e + j) = at_ t (i * e + j).
Proof.
  intros Hs Hn. unfold slice_rows. rewrite Hs, Nat.min_l by assumption.
  eexists. split; [reflexivity|]. split; [reflexivity|].
  intros i j Hi Hj. unfold at_. cbn [data].
  rewrite nth_firstn.
  destruct (Nat.ltb_spec (i * e + j) (n * e)); [reflexivity|].
  exfalso. pose proof (@offset_lt i j n e Hi Hj). lia.
Qed.

Lemma PositionalEncoding_forward_spec
  (self : Lesson5.PositionalEncoding) (x : tensor) (m e B S : nat) :
  shape (Lesson5.pe self) = [m; e] ->
  shape x = [B; S; e] -> S <= m ->
  exists y,
    Lesson5.PositionalEncoding_forward self x = Ok y /\
    shape y = [B; S; e] /\ wf y /\
    forall n i j, n < B -> i < S -> j < e ->
      at_ y ((n * S + i) * e + j)
      = (at_ x ((n * S + i) * e + j) + at_ (Lesson5.pe self) (i * e + j))%R.
Proof.
  intros Hpe Hx HS.
  destruct (@slice_rows_spec (Lesson5.pe self) m e S Hpe HS)
    as (sl & Hsl & Hssl & Hatsl).
  destruct (@add_rows x sl B S e Hx Hssl) as (y & Hy & Hsy & Hwy & Haty).
  exists y. split; [|split; [exact Hsy|split; [exact Hwy|]]].
  - unfold Lesson5.PositionalEncoding_forward, size_at. rewrite Hx.
    change (norm_dim (length [B; S; e]) 1) with (Ok 1). cbn [rbind nth].
    rewrite Hsl. cbn [rbind]. now rewrite Hy.
  - intros n i j Hn Hi Hj. rewrite Haty, Hatsl by assumption. reflexivity.
Qed.

Lemma pe_entry_bound (e pos c : nat) : (Rabs (pe_entry e pos c) <= 1)%R.
Proof.
  unfold pe_entry. apply Rabs_le.
  destruct (Nat.even c); [apply SIN_bound | apply COS_bound].
Qed.

(** X3.  For a table built by the constructor and an input of shape
    (B, S, embed_dim) with [S <= max_seq_length],
    [PositionalEncoding.forward] returns a tensor of the same shape whose
    entry at (b, i, c) is the input's entry plus [pe[i, c]]: the same row
    of the table for every batch element, and a change of at most 1 in
    absolute value. *)
Theorem X3_positional_encoding_adds_its_rows
  (embed_dim max_seq_length : nat) (self : Lesson5.PositionalEncoding)
  (x : tensor) (B S : nat) :
  Lesson5.PositionalEncoding_init embed_dim max_seq_length = Ok self ->
  shape x = [B; S; embed_dim] ->
  S <= max_seq_length ->
  exists y,
    Lesson5.PositionalEncoding_forward self x = Ok y /\
    shape y = shape x /\
    forall b i c, b < B -> i < S -> c < embed_dim ->
      get y [b; i; c] = (get x [b; i; c] + get (Lesson5.pe self) [i; c])%R /\
      (Rabs (get y [b; i; c] - get x [b; i; c]) <= 1)%R.
Proof.
  intros Hinit Hx HS.
  destruct (PE_init_inv _ _ Hinit) as (Hpe & _ & Hent).
  destruct (@PositionalEncoding_forward_spec self x max_seq_length embed_dim
              B S Hpe Hx HS) as (y & Hy & Hsy & _ & Haty).
  exists y. split; [exact Hy|]. split; [congruence|].
  intros b i c Hb Hi Hc.
  rewrite get3 with (A := B) (B := S) (C := embed_dim) by assumption.
  rewrite get3 with (A := B) (B := S) (C := embed_dim) by assumption.
  rewrite get2 with (A := max_seq_length) (B := embed_dim) by assumption.
  rewrite Haty by assumption. split; [reflexivity|].
  rewrite Hent by lia.
  match goal with
  | |- (Rabs (?a + ?p - ?a) <= 1)%R => replace (a + p - a)%R with p by ring
  end.
  apply pe_entry_bound.
Qed.

Lemma X3_witness :
  exists self,
    Lesson5.PositionalEncoding_init 64 50 = Ok self /\
    exists y,
      Lesson5.PositionalEncoding_forward self example_hidden = Ok y /\
      shape y = shape example_hidden /\
      forall b i c, b < 2 -> i < 10 -> c < 64 ->
        get y [b; i; c]
        = (get example_hidden [b; i; c]
           + get (Lesson5.pe self) [i; c])%R /\
        (Rabs (get y [b; i; c] - get example_hidden [b; i; c]) <= 1)%R.
Proof.
  destruct (PE_init_even 32 50) as (self & Hinit & _).
  exists self. split; [exact Hinit|].
  apply (@X3_positional_encoding_adds_its_rows 64 50 self
           example_hidden 2 10 Hinit).
  - reflexivity.
  - lia.
Defined.

Lemma Lesson5_block_init_inv
  (e h f : nat) (p : R) (w w' : World) (blk : Lesson5.TransformerBlock) :
  Lesson5.TransformerBlock_init e h f p w = Ok (blk, w') ->
  (0 < e /\ 0 < h /\ e mod h = 0 /\ (0 <= p <= 1)%R) /\
  Lesson5_block_ok e blk.
Proof.
  intros Hinit.
  assert (Hc : 0 < e /\ 0 < h /\ e mod h = 0 /\ (0 <= p <= 1)%R).
  { destruct (Nat.eq_dec e 0) as [He|He];
      [|destruct (Nat.eq_dec h 0) as [Hh|Hh];
        [|destruct (Nat.eq_dec (e mod h) 0) as [Hm|Hm];
          [destruct (Rlt_dec p 0) as [Hp0|Hp0];
             [|destruct (Rlt_dec 1 p) as [Hp1|Hp1];
               [|repeat split; try lia; lra]]|]]].
    all: exfalso;
      destruct (@Lesson5_block_init_bad e h f p w) as (err & Herr);
      [ intros (H1 & H2 & H3 & H4); try lia; lra
      | rewrite Herr in Hinit; discriminate ]. }
  split; [exact Hc|].
  destruct Hc as (He & Hh & Hm & Hp).
  destruct (@Lesson5_block_init_ok e h f p w Hh He Hm Hp)
    as (blk' & w'' & Hinit' & _ & Hsub).
  rewrite Hinit' in Hinit. injection Hinit as <- _. exact Hsub.
Qed.

Lemma make_blocks_inv
  (n e h f : nat) (p : R) (w w' : World) (bs : list Lesson5.TransformerBlock) :
  Lesson5.make_blocks n e h f p w = Ok (bs, w') ->
  Forall (Lesson5_block_ok e) bs /\ length bs = n.
Proof.
  revert w w' bs. induction n as [|n IH]; intros w w' bs Hmk.
  - cbn in Hmk. unfold ret in Hmk. injection Hmk as <- _. split; constructor.
  - cbn [Lesson5.make_blocks] in Hmk. unfold bind in Hmk.
    destruct (Lesson5.TransformerBlock_init e h f p w) as [[b w1]|] eqn:Hb;
      [|discriminate].
    destruct (Lesson5.make_blocks n e h f p w1) as [[bs' w2]|] eqn:Hbs;
      [|discriminate].
    unfold ret in Hmk. injection Hmk as <- _.
    destruct (IH _ _ _ Hbs) as [Hall Hlen].
    split; [|cbn; now rewrite Hlen].
    constructor; [|exact Hall].
    now destruct (Lesson5_block_init_inv _ _ _ _ _ Hb).
Qed.

Lemma run_blocks_shape
  (bs : list Lesson5.TransformerBlock) (e B S : nat) :
  Forall (Lesson5_block_ok e) bs ->
  forall x w, shape x = [B; S; e] -> wf x ->
    exists y w',
      Lesson5.run_blocks bs x w = Ok (y, w') /\
      shape y = [B; S; e] /\ wf y.
Proof.
  intros Hall. induction Hall as [|blk bs Hblk Hall IH]; intros x w Hx Hwf.
  - exists x, w. repeat split; auto.
  - cbn [Lesson5.run_blocks]. unfold bind.
    destruct (Hblk B S) as (Ha & Hf & Hn1 & Hn2 & Hd).
    destruct (@Lesson5_block_forward_shape blk [B; S; e] Ha Hf Hn1 Hn2 Hd
                x w Hx Hwf) as (y & a & w1 & Hfw & Hsy & Hwy).
    rewrite Hfw. now apply IH.
Qed.

Lemma LanguageModel_init_parts
  (v e h n f m : nat) (p : R) (w w' : World) (self : Lesson5.LanguageModel) :
  Lesson5.LanguageModel_init v e h n f m p w = Ok (self, w') ->
  shape (emb_weight (Lesson5.embedding self)) = [v; e] /\
  Lesson5.PositionalEncoding_init e m = Ok (Lesson5.positional_encoding self) /\
  Forall (Lesson5_block_ok e) (Lesson5.transformer_blocks self) /\
  length (Lesson5.transformer_blocks self) = n /\
  Linear_ok (Lesson5.output_layer self) e v.
Proof.
  unfold Lesson5.LanguageModel_init, bind. intros Hinit.
  destruct (Embedding_init_ok v e w) as (emb & w1 & Hemb & Hse & _).
  rewrite Hemb in Hinit. unfold lift at 1 in Hinit.
  destruct (Lesson5.PositionalEncoding_init e m) as [pe|] eqn:Hpe;
    [|discriminate].
  destruct (Lesson5.make_blocks n e h f p w1) as [[bs w2]|] eqn:Hbs;
    [|discriminate].
  destruct (Linear_init_ok e v w2) as (o & w3 & Ho & Hoo & _).
  rewrite Ho in Hinit. unfold ret in Hinit. injection Hinit as <- _.
  cbn [Lesson5.embedding Lesson5.positional_encoding
       Lesson5.transformer_blocks Lesson5.output_layer].
  destruct (make_blocks_inv _ _ _ _ _ _ Hbs) as [Hall Hlen].
  repeat split; auto; apply Hoo.
Qed.

Lemma Embedding_forward_in_range
  (emb : Embedding) (ids : itensor) (v e : nat) :
  shape (emb_weight emb) = [v; e] ->
  Forall (fun t => (0 <= t < Z.of_nat v)%Z) (idata ids) ->
  exists x,
    Embedding_forward emb ids = Ok x /\
    shape x = ishape ids ++ [e] /\ wf x.
Proof.
  intros Hs Hall. unfold Embedding_forward. rewrite Hs.
  assert (Hb : forallb (fun i => (0 <=? i)%Z && (i <? Z.of_nat v)%Z)
                       (idata ids) = true).
  { apply forallb_forall. intros t Ht.
    rewrite Forall_forall in Hall. specialize (Hall t Ht).
    apply andb_true_intro. split; [apply Z.leb_le | apply Z.ltb_lt]; lia. }
  rewrite Hb. eexists. split; [reflexivity|]. split; [reflexivity|].
  unfold wf. cbn [data shape]. rewrite length_tab, numel_app.
  unfold numel at 3. simpl. lia.
Qed.

(** X4.  For a model built by the constructor, token ids of shape (B, S)
    that all lie in [[0, vocab_size)], and [S <= max_seq_length], the
    forward pass returns logits of shape (B, S, vocab_size), in training
    mode as in evaluation mode and whatever the generator yields. *)
Theorem X4_logits_shape
  (vocab_size embed_dim num_heads num_layers ff_hidden_dim max_seq_length : nat)
  (dropout : R) (w0 w1 w : World) (self : Lesson5.LanguageModel)
  (ids : itensor) (B S : nat) :
  Lesson5.LanguageModel_init vocab_size embed_dim num_heads num_layers
    ff_hidden_dim max_seq_length dropout w0 = Ok (self, w1) ->
  ishape ids = [B; S] ->
  S <= max_seq_length ->
  Forall (fun t => (0 <= t < Z.of_nat vocab_size)%Z) (idata ids) ->
  exists logits w',
    Lesson5.LanguageModel_forward self ids w = Ok (logits, w') /\
    shape logits = [B; S; vocab_size] /\ wf logits.
Proof.
  intros Hinit Hids HS Hrange.
  destruct (LanguageModel_init_parts _ _ _ _ _ _ _ _ Hinit)
    as (Hemb & Hpe & Hblocks & _ & (HWo & _)).
  destruct (PE_init_inv _ _ Hpe) as (Hspe & _).
  destruct (@Embedding_forward_in_range _ ids _ _ Hemb Hrange)
    as (x0 & Hx0 & Hsx0 & _).
  rewrite Hids in Hsx0. cbn [app] in Hsx0.
  destruct (@PositionalEncoding_forward_spec _ x0 max_seq_length embed_dim
              B S Hspe Hsx0 HS) as (x1 & Hx1 & Hsx1 & Hwx1 & _).
  destruct (@run_blocks_shape _ embed_dim B S Hblocks x1 w Hsx1 Hwx1)
    as (x2 & w' & Hx2 & Hsx2 & _).
  destruct (@linear_spec x2 _ (bias (Lesson5.output_layer self)) [B; S]
              embed_dim vocab_size HWo Hsx2) as (lg & Hlg & Hslg & Hwlg & _).
  exists lg, w'. split; [|split; [exact Hslg | exact Hwlg]].
  unfold Lesson5.LanguageModel_forward, bind.
  unfold lift at 1. rewrite Hx0. unfold lift at 1. rewrite Hx1.
  rewrite Hx2. unfold lift, ret, Linear_forward. now rewrite Hlg.
Qed.

Lemma X4_witness :
  exists self w1,
    Lesson5.LanguageModel_init 1000 64 4 2 256 50 (1 / 10) example_world
    = Ok (self, w1) /\
    exists logits w',
      Lesson5.LanguageModel_forward self example_ids example_world
      = Ok (logits, w') /\
      shape logits = [2; 10; 1000] /\ wf logits.
Proof.
  destruct (@LanguageModel_init_ok 1000 64 4 2 256 50 (1 / 10) example_world)
    as (self & w1 & Hinit); try lia; try reflexivity; try lra.
  exists self, w1. split; [exact Hinit|].
  apply (@X4_logits_shape 1000 64 4 2 256 50 (1 / 10) example_world w1
           example_world self example_ids 2 10 Hinit).
  - reflexivity.
  - lia.
  - unfold example_ids. cbn [idata]. apply Forall_forall.
    intros t Ht. apply repeat_spec in Ht. subst t. lia.
Defined.

(* ================================================================== *)
(** * Evaluation mode *)

Lemma pure_lift {A B : Type} (f : A -> result B) :
  pure_in_eval (fun x => lift (f x)).
Proof. exists f. reflexivity. Qed.

Lemma pure_ret {A B : Type} (g : A -> B) : pure_in_eval (fun x => ret (g x)).
Proof. exists (fun x => Ok (g x)). reflexivity. Qed.

Lemma pure_Dropout (d : Dropout) : pure_in_eval (Dropout_forward d).
Proof.
  exists (fun x => Ok x). intros x w Ht.
  unfold Dropout_forward. now rewrite Ht.
Qed.

Lemma pure_Sequential (ls : list nnModule) :
  Forall pure_in_eval ls -> pure_in_eval (Sequential ls).
Proof.
  intros Hall. induction Hall as [|l ls [f Hf] Hall [g Hg]].
  - exists (fun x => Ok x). reflexivity.
  - exists (fun x => rbind (f x) g). intros x w Ht.
    cbn [Sequential]. unfold bind. rewrite (Hf x w Ht). unfold lift at 1.
    destruct (f x) as [y|err]; cbn [rbind]; [now apply Hg | reflexivity].
Qed.

Lemma Lesson4_block_forward_pure (blk : Lesson4.TransformerBlock) :
  pure_in_eval (Lesson4.attention blk) ->
  pure_in_eval (Lesson4.ffn blk) ->
  pure_in_eval (Lesson4.norm1 blk) ->
  pure_in_eval (Lesson4.norm2 blk) ->
  pure_in_eval (Lesson4.dropout blk) ->
  pure_in_eval (Lesson4.TransformerBlock_forward blk).
Proof.
  intros [fa Ha] [ff Hf] [f1 H1] [f2 H2] [fd Hd].
  exists (fun x =>
            ('(a, aw) <- fa x ;; d <- fd a ;; s <- add x d ;;
             x1 <- f1 s ;; o <- ff x1 ;; d2 <- fd o ;; s2 <- add x1 d2 ;;
             x2 <- f2 s2 ;; Ok (x2, aw))%res).
  intros x w Ht. unfold Lesson4.TransformerBlock_forward, bind.
  rewrite (Ha x w Ht). unfold lift at 1.
  destruct (fa x) as [[a aw]|]; cbn [rbind]; [|reflexivity].
  rewrite (Hd a w Ht). unfold lift at 1.
  destruct (fd a) as [d|]; cbn [rbind]; [|reflexivity].
  unfold lift at 1. destruct (add x d) as [s|]; cbn [rbind]; [|reflexivity].
  rewrite (H1 s w Ht). unfold lift at 1.
  destruct (f1 s) as [x1|]; cbn [rbind]; [|reflexivity].
  rewrite (Hf x1 w Ht). unfold lift at 1.
  destruct (ff x1) as [o|]; cbn [rbind]; [|reflexivity].
  rewrite (Hd o w Ht). unfold lift at 1.
  destruct (fd o) as [d2|]; cbn [rbind]; [|reflexivity].
  unfold lift at 1. destruct (add x1 d2) as [s2|]; cbn [rbind]; [|reflexivity].
  rewrite (H2 s2 w Ht). unfold lift at 1.
  destruct (f2 s2) as [x2|]; cbn [rbind]; reflexivity.
Qed.

Lemma Lesson5_block_forward_pure (blk : Lesson5.TransformerBlock) :
  pure_in_eval (Lesson5.attention blk) ->
  pure_in_eval (Lesson5.ffn blk) ->
  pure_in_eval (Lesson5.norm1 blk) ->
  pure_in_eval (Lesson5.norm2 blk) ->
  pure_in_eval (Lesson5.dropout blk) ->
  pure_in_eval (Lesson5.TransformerBlock_forward blk).
Proof.
  intros [fa Ha] [ff Hf] [f1 H1] [f2 H2] [fd Hd].
  exists (fun x =>
            ('(a, aw) <- fa x ;; d <- fd a ;; s <- add x d ;;
             x1 <- f1 s ;; o <- ff x1 ;; d2 <- fd o ;; s2 <- add x1 d2 ;;
             x2 <- f2 s2 ;; Ok (x2, aw))%res).
  intros x w Ht. unfold Lesson5.TransformerBlock_forward, bind.
  rewrite (Ha x w Ht). unfold lift at 1.
  destruct (fa x) as [[a aw]|]; cbn [rbind]; [|reflexivity].
  rewrite (Hd a w Ht). unfold lift at 1.
  destruct (fd a) as [d|]; cbn [rbind]; [|reflexivity].
  unfold lift at 1. destruct (add x d) as [s|]; cbn [rbind]; [|reflexivity].
  rewrite (H1 s w Ht). unfold lift at 1.
  destruct (f1 s) as [x1|]; cbn [rbind]; [|reflexivity].
  rewrite (Hf x1 w Ht). unfold lift at 1.
  destruct (ff x1) as [o|]; cbn [rbind]; [|reflexivity].
  rewrite (Hd o w Ht). unfold lift at 1.
  destruct (fd o) as [d2|]; cbn [rbind]; [|reflexivity].
  unfold lift at 1. destruct (add x1 d2) as [s2|]; cbn [rbind]; [|reflexivity].
  rewrite (H2 s2 w Ht). unfold lift at 1.
  destruct (f2 s2) as [x2|]; cbn [rbind]; reflexivity.
Qed.

Lemma pure_ffn (l1 l2 : Linear) :
  pure_in_eval
    (Sequential [ (fun x => lift (Linear_forward l1 x));
                  (fun x => ret (ReLU_forward x));
                  (fun x => lift (Linear_forward l2 x)) ]).
Proof.
  apply pure_Sequential. repeat constructor.
  - apply pure_lift.
  - apply (pure_ret ReLU_forward).
  - apply pure_lift.
Qed.

Lemma Lesson4_block_init_pure
  (e h f : nat) (p : R) (w w' : World) (blk : Lesson4.TransformerBlock) :
  Lesson4.TransformerBlock_init e h f p w = Ok (blk, w') ->
  pure_in_eval (Lesson4.TransformerBlock_forward blk).
Proof.
  unfold Lesson4.TransformerBlock_init, bind. intros Hinit.
  destruct (Lesson4.MultiHeadAttention_init e h w) as [[mha w1]|];
    [|discriminate].
  destruct (Linear_init e f w1) as [[l1 w2]|]; [|discriminate].
  destruct (Linear_init f e w2) as [[l2 w3]|]; [|discriminate].
  unfold lift at 1 in Hinit.
  destruct (Dropout_init p) as [d|]; [|discriminate].
  unfold ret in Hinit. injection Hinit as <- _.
  apply Lesson4_block_forward_pure;
    cbn [Lesson4.attention Lesson4.ffn Lesson4.norm1 Lesson4.norm2
         Lesson4.dropout].
  - apply pure_lift.
  - apply pure_ffn.
  - apply pure_lift.
  - apply pure_lift.
  - apply pure_Dropout.
Qed.

Lemma Lesson5_block_init_pure
  (e h f : nat) (p : R) (w w' : World) (blk : Lesson5.TransformerBlock) :
  Lesson5.TransformerBlock_init e h f p w = Ok (blk, w') ->
  pure_in_eval (Lesson5.TransformerBlock_forward blk).
Proof.
  unfold Lesson5.TransformerBlock_init, bind. intros Hinit.
  destruct (Lesson5.MultiHeadAttention_init e h w) as [[mha w1]|];
    [|discriminate].
  destruct (Linear_init e f w1) as [[l1 w2]|]; [|discriminate].
  destruct (Linear_init f e w2) as [[l2 w3]|]; [|discriminate].
  unfold lift at 1 in Hinit.
  destruct (Dropout_init p) as [d|]; [|discriminate].
  unfold ret in Hinit. injection Hinit as <- _.
  apply Lesson5_block_forward_pure;
    cbn [Lesson5.attention Lesson5.ffn Lesson5.norm1 Lesson5.norm2
         Lesson5.dropout].
  - apply pure_lift.
  - apply pure_ffn.
  - apply pure_lift.
  - apply pure_lift.
  - apply pure_Dropout.
Qed.

Lemma make_blocks_pure
  (n e h f : nat) (p : R) (w w' : World) (bs : list Lesson5.TransformerBlock) :
  Lesson5.make_blocks n e h f p w = Ok (bs, w') ->
  Forall (fun blk => pure_in_eval (Lesson5.TransformerBlock_forward blk)) bs.
Proof.
  revert w w' bs. induction n as [|n IH]; intros w w' bs Hmk.
  - cbn in Hmk. unfold ret in Hmk. injection Hmk as <- _. constructor.
  - cbn [Lesson5.make_blocks] in Hmk. unfold bind in Hmk.
    destruct (Lesson5.TransformerBlock_init e h f p w) as [[b w1]|] eqn:Hb;
      [|discriminate].
    destruct (Lesson5.make_blocks n e h f p w1) as [[bs' w2]|] eqn:Hbs;
      [|discriminate].
    unfold ret in Hmk. injection Hmk as <- _.
    constructor; [now apply (Lesson5_block_init_pure _ _ _ _ _ Hb)|].
    now apply (IH _ _ _ Hbs).
Qed.

Lemma run_blocks_pure (bs : list Lesson5.TransformerBlock) :
  Forall (fun blk => pure_in_eval (Lesson5.TransformerBlock_forward blk)) bs ->
  pure_in_eval (Lesson5.run_blocks bs).
Proof.
  intros Hall. induction Hall as [|blk bs [f Hf] Hall [g Hg]].
  - exists (fun x => Ok x). reflexivity.
  - exists (fun x => rbind (f x) (fun r => g (fst r))). intros x w Ht.
    cbn [Lesson5.run_blocks]. unfold bind. rewrite (Hf x w Ht).
    unfold lift at 1.
    destruct (f x) as [[y a]|]; cbn [rbind fst]; [now apply Hg | reflexivity].
Qed.

Lemma LanguageModel_forward_pure
  (v e h n f m : nat) (p : R) (w w' : World) (self : Lesson5.LanguageModel) :
  Lesson5.LanguageModel_init v e h n f m p w = Ok (self, w') ->
  pure_in_eval (Lesson5.LanguageModel_forward self).
Proof.
  unfold Lesson5.LanguageModel_init, bind. intros Hinit.
  destruct (Embedding_init v e w) as [[emb w1]|]; [|discriminate].
  unfold lift at 1 in Hinit.
  destruct (Lesson5.PositionalEncoding_init e m) as [pe|]; [|discriminate].
  destruct (Lesson5.make_blocks n e h f p w1) as [[bs w2]|] eqn:Hbs;
    [|discriminate].
  destruct (Linear_init e v w2) as [[o w3]|]; [|discriminate].
  unfold ret in Hinit. injection Hinit as <- _.
  destruct (run_blocks_pure (make_blocks_pure _ _ _ _ _ _ Hbs)) as [g Hg].
  exists (fun ids =>
            (x <- Embedding_forward emb ids ;;
             x <- Lesson5.PositionalEncoding_forward pe x ;;
             x <- g x ;;
             Linear_forward o x)%res).
  intros ids w0 Ht. unfold Lesson5.LanguageModel_forward, bind.
  cbn [Lesson5.embedding Lesson5.positional_encoding
       Lesson5.transformer_blocks Lesson5.output_layer].
  unfold lift at 1.
  destruct (Embedding_forward emb ids) as [x0|]; cbn [rbind]; [|reflexivity].
  unfold lift at 1.
  destruct (Lesson5.PositionalEncoding_forward pe x0) as [x1|]; cbn [rbind];
    [|reflexivity].
  rewrite (Hg x1 w0 Ht). unfold lift at 1.
  destruct (g x1) as [x2|]; cbn [rbind]; [|reflexivity].
  unfold lift, ret. destruct (Linear_forward o x2); reflexivity.
Qed.

Lemma pure_in_eval_two_worlds {A B : Type} (m : A -> M B) (x : A)
  (w w' : World) :
  pure_in_eval m -> training w = false -> training w' = false ->
  (exists y, m x w = Ok (y, w) /\ m x w' = Ok (y, w')) \/
  (exists err, m x w = Raise err /\ m x w' = Raise err).
Proof.
  intros [f Hf] Ht Ht'. rewrite (Hf x w Ht), (Hf x w' Ht'). unfold lift.
  destruct (f x) as [y|err]; [left; now exists y | right; now exists err].
Qed.

(** X5.  In evaluation mode the forward pass of a model built by the
    constructor is a function of the token ids alone: run in two worlds
    with different generators it returns the same logits, or raises the
    same error, and it leaves each world as it found it (no random number
    is drawn). *)
Theorem X5_model_is_deterministic_in_eval_mode
  (vocab_size embed_dim num_heads num_layers ff_hidden_dim max_seq_length : nat)
  (dropout : R) (w0 w1 w w' : World) (self : Lesson5.LanguageModel)
  (ids : itensor) :
  Lesson5.LanguageModel_init vocab_size embed_dim num_heads num_layers
    ff_hidden_dim max_seq_length dropout w0 = Ok (self, w1) ->
  training w = false -> training w' = false ->
  (exists logits,
      Lesson5.LanguageModel_forward self ids w = Ok (logits, w) /\
      Lesson5.LanguageModel_forward self ids w' = Ok (logits, w')) \/
  (exists err,
      Lesson5.LanguageModel_forward self ids w = Raise err /\
      Lesson5.LanguageModel_forward self ids w' = Raise err).
Proof.
  intros Hinit Ht Ht'.
  apply pure_in_eval_two_worlds; try assumption.
  exact (LanguageModel_forward_pure _ _ _ _ _ _ _ _ Hinit).
Qed.

(** X6.  In evaluation mode the forward pass of a transformer block of
    lesson 4 built by the constructor is a function of its input alone:
    dropout is the identity, so run in two worlds with different generators
    the block returns the same output and attention weights, or raises the
    same error, and it leaves each world as it found it (no random number
    is drawn). *)
Theorem X6_block_is_deterministic_in_eval_mode
  (embed_dim num_heads ff_hidden_dim : nat) (dropout : R)
  (w0 w1 w w' : World) (blk : Lesson4.TransformerBlock) (x : tensor) :
  Lesson4.TransformerBlock_init embed_dim num_heads ff_hidden_dim dropout w0
  = Ok (blk, w1) ->
  training w = false -> training w' = false ->
  (exists out,
      Lesson4.TransformerBlock_forward blk x w = Ok (out, w) /\
      Lesson4.TransformerBlock_forward blk x w' = Ok (out, w')) \/
  (exists err,
      Lesson4.TransformerBlock_forward blk x w = Raise err /\
      Lesson4.TransformerBlock_forward blk x w' = Raise err).
Proof.
  intros Hinit Ht Ht'.
  apply pure_in_eval_two_worlds; try assumption.
  exact (Lesson4_block_init_pure _ _ _ _ _ Hinit).
Qed.

Lemma X5_witness :
  exists self w1,
    Lesson5.LanguageModel_init 1000 64 4 2 256 50 (1 / 10) example_world
    = Ok (self, w1) /\
    ((exists logits,
         Lesson5.LanguageModel_forward self example_ids eval_world
         = Ok (logits, eval_world) /\
         Lesson5.LanguageModel_forward self example_ids eval_world'
         = Ok (logits, eval_world')) \/
     (exists err,
         Lesson5.LanguageModel_forward self example_ids eval_world
         = Raise err /\
         Lesson5.LanguageModel_forward self example_ids eval_world'
         = Raise err)).
Proof.
  destruct (@LanguageModel_init_ok 1000 64 4 2 256 50 (1 / 10) example_world)
    as (self & w1 & Hinit); try lia; try reflexivity; try lra.
  exists self, w1. split; [exact Hinit|].
  apply (@X5_model_is_deterministic_in_eval_mode
           1000 64 4 2 256 50 (1 / 10) example_world w1
           eval_world eval_world' self example_ids Hinit).
  - reflexivity.
  - reflexivity.
Defined.

Lemma X6_witness :
  exists blk w1,
    Lesson4.TransformerBlock_init 64 4 256 (1 / 10) example_world
    = Ok (blk, w1) /\
    ((exists out,
         Lesson4.TransformerBlock_forward blk example_tokens6 eval_world
         = Ok (out, eval_world) /\
         Lesson4.TransformerBlock_forward blk example_tokens6 eval_world'
         = Ok (out, eval_world')) \/
     (exists err,
         Lesson4.TransformerBlock_forward blk example_tokens6 eval_world
         = Raise err /\
         Lesson4.TransformerBlock_forward blk example_tokens6 eval_world'
         = Raise err)).
Proof.
  destruct (@Lesson4_block_init_ok 64 4 256 (1 / 10) example_world)
    as (blk & w1 & Hinit & _); try lia; try reflexivity; try lra.
  exists blk, w1. split; [exact Hinit|].
  apply (@X6_block_is_deterministic_in_eval_mode
           64 4 256 (1 / 10) example_world w1 eval_world eval_world'
           blk example_tokens6 Hinit).
  - reflexivity.
  - reflexivity.
Defined.

(* ================================================================== *)
(** * Splitting into heads and merging back *)

Lemma offset4_decompose (A B C D k : nat) :
  k < A * B * C * D ->
  exists a b c d,
    a < A /\ b < B /\ c < C /\ d < D /\
    k = ((a * B + b) * C + c) * D + d.
Proof.
  intros Hk. rewrite <- numel4 in Hk.
  pose proof (unravel_in_bounds _ Hk) as Hin.
  pose proof (ravel_unravel _ Hk) as Hrav.
  remember (unravel [A; B; C; D] k) as idx eqn:Hidx.
  unfold in_bounds in Hin.
  destruct idx as [|a [|b [|c [|d [|z idx]]]]];
    try (cbn in Hidx; discriminate).
  rewrite ravel4 in Hrav.
  apply Forall2_cons_iff in Hin. destruct Hin as [Ha Hin].
  apply Forall2_cons_iff in Hin. destruct Hin as [Hb Hin].
  apply Forall2_cons_iff in Hin. destruct Hin as [Hc Hin].
  apply Forall2_cons_iff in Hin. destruct Hin as [Hd _].
  exists a, b, c, d. auto.
Qed.

(** X7.  Step 6 of lesson 4's forward undoes step 2: splitting a tensor of
    shape (B, S, E) into [num_heads] heads ([view] then [transpose(1, 2)])
    and merging the heads back ([transpose(1, 2)], [contiguous], [view])
    returns the tensor it started from, whenever
    [num_heads * head_dim = E]. *)
Theorem X7_merging_heads_undoes_splitting
  (t : tensor) (B S H D E : nat) :
  wf t -> shape t = [B; S; E] -> H * D = E ->
  (t1 <- view t [B; S; H; D] ;;
   t2 <- transpose t1 1 2 ;;
   t3 <- transpose t2 1 2 ;;
   view (contiguous t3) [B; S; E])%res = Ok t.
Proof.
  intros Hwf Hs HE.
  destruct (@transpose12_4d (mkT [B; S; H; D] (data t)) B S H D eq_refl)
    as (t2 & Ht2 & Hs2 & _ & Hat2).
  destruct (@transpose12_4d t2 B H S D Hs2) as (t3 & Ht3 & Hs3 & Hw3 & Hat3).
  rewrite view_ok by (rewrite Hs, numel4, numel3, <- HE; ring).
  cbn [rbind]. rewrite Ht2. cbn [rbind]. rewrite Ht3. cbn [rbind].
  unfold contiguous.
  rewrite view_ok by (rewrite Hs3, numel4, numel3, <- HE; ring).
  f_equal. destruct t as [s d]. cbn [shape data] in *. subst s. f_equal.
  unfold wf in Hwf, Hw3. cbn [shape data] in Hwf.
  rewrite Hs3, numel4 in Hw3. rewrite numel3, <- HE in Hwf.
  apply nth_ext with (d := 0%R) (d' := 0%R).
  - rewrite Hw3, Hwf. ring.
  - intros k Hk. rewrite Hw3 in Hk.
    destruct (offset4_decompose _ _ _ _ Hk)
      as (b & s & h & dd & Hb & Hs' & Hh & Hdd & ->).
    specialize (Hat3 b s h dd Hb Hs' Hh Hdd).
    specialize (Hat2 b h s dd Hb Hh Hs' Hdd).
    unfold at_ in Hat3, Hat2. cbn [data] in Hat2.
    now rewrite Hat3, Hat2.
Qed.

Lemma X7_witness :
  (t1 <- view example_tokens6 [1; 6; 4; 16] ;;
   t2 <- transpose t1 1 2 ;;
   t3 <- transpose t2 1 2 ;;
   view (contiguous t3) [1; 6; 64])%res = Ok example_tokens6.
Proof.
  apply (@X7_merging_heads_undoes_splitting example_tokens6 1 6 4 16 64).
  - apply wf_zeros.
  - reflexivity.
  - reflexivity.
Defined.

(* ================================================================== *)
(** * Inputs that the attention layers reject *)

Lemma Lesson4_forward_wrong_rank
  (self : Lesson4.MultiHeadAttention) (x : tensor) :
  length (shape x) <> 3 ->
  Lesson4.MultiHeadAttention_forward self x = Raise ValueError.
Proof.
  intros Hr. unfold Lesson4.MultiHeadAttention_forward, size3.
  destruct (shape x) as [|a [|b [|c [|d l]]]]; cbn in Hr; try reflexivity.
  lia.
Qed.

Lemma Lesson4_forward_wrong_width
  (self : Lesson4.MultiHeadAttention) (x : tensor) (B S E : nat) :
  Lesson4_MHA_ok self ->
  shape x = [B; S; E] -> E <> Lesson4.embed_dim self ->
  Lesson4.MultiHeadAttention_forward self x = Raise RuntimeError.
Proof.
  intros (_ & _ & _ & (HWq & _) & _) Hx HE.
  unfold Lesson4.MultiHeadAttention_forward, size3. rewrite Hx.
  cbn [rbind]. unfold Linear_forward at 1, linear. rewrite HWq, Hx.
  cbn [rev app]. destruct (Nat.eqb_spec E (Lesson4.embed_dim self)); [lia|].
  reflexivity.
Qed.

Lemma Lesson5_forward_wrong_width
  (self : Lesson5.MultiHeadAttention) (x : tensor) (B S E : nat) :
  shape x = [B; S; E] ->
  E <> nn.embed_dim (Lesson5.mha_attention self) ->
  Lesson5.MultiHeadAttention_forward self x = Raise AssertionError.
Proof.
  intros Hx HE.
  destruct (@transpose01_3d x B S E Hx) as (xt & Hxt & Hsxt & _ & _).
  unfold Lesson5.MultiHeadAttention_forward. rewrite Hxt. cbn [rbind].
  unfold nn.MultiheadAttention_forward. rewrite Hsxt.
  unfold nn.forward_batched, size3. rewrite Hsxt. cbn [rbind].
  destruct (Nat.eqb_spec E (nn.embed_dim (Lesson5.mha_attention self)));
    [lia|].
  reflexivity.
Qed.

(** X8.  Lesson 4's [MultiHeadAttention.forward] raises a [ValueError] for
    an input that does not have exactly three dimensions (the unpacking of
    [x.size()]) and a [RuntimeError] for a three-dimensional input whose
    last dimension is not [embed_dim] (the query projection); lesson 5's
    raises an [AssertionError] in the latter case (the check of the
    built-in layer). *)
Theorem X8_attention_rejects_malformed_input
  (self4 : Lesson4.MultiHeadAttention) (self5 : Lesson5.MultiHeadAttention)
  (x : tensor) :
  Lesson4_MHA_ok self4 ->
  (length (shape x) <> 3 ->
   Lesson4.MultiHeadAttention_forward self4 x = Raise ValueError) /\
  (forall B S E, shape x = [B; S; E] ->
     (E <> Lesson4.embed_dim self4 ->
      Lesson4.MultiHeadAttention_forward self4 x = Raise RuntimeError) /\
     (E <> nn.embed_dim (Lesson5.mha_attention self5) ->
      Lesson5.MultiHeadAttention_forward self5 x = Raise AssertionError)).
Proof.
  intros Hok. split.
  - apply Lesson4_forward_wrong_rank.
  - intros B S E Hx. split; intros HE.
    + now apply (@Lesson4_forward_wrong_width self4 x B S E).
    + now apply (@Lesson5_forward_wrong_width self5 x B S E).
Qed.

Lemma X8_witness :
  Lesson4.MultiHeadAttention_forward example_attention4 (zeros [6; 2])
  = Raise ValueError /\
  Lesson4.MultiHeadAttention_forward example_attention4 example_tokens6
  = Raise RuntimeError /\
  Lesson5.MultiHeadAttention_forward example_attention5 example_tokens6
  = Raise AssertionError.
Proof.
  split; [|split].
  - apply (proj1 (@X8_attention_rejects_malformed_input
                    example_attention4 example_attention5 (zeros [6; 2])
                    example_attention4_ok)).
    cbn. lia.
  - apply (proj2 (@X8_attention_rejects_malformed_input
                    example_attention4 example_attention5 example_tokens6
                    example_attention4_ok) 1 6 64 eq_refl).
    cbn. lia.
  - apply (proj2 (@X8_attention_rejects_malformed_input
                    example_attention4 example_attention5 example_tokens6
                    example_attention4_ok) 1 6 64 eq_refl).
    cbn. lia.
Defined.

(* ================================================================== *)
(** * More on sums *)




(* ================================================================== *)
(** * Batch elements do not mix *)

Section BatchIndependence.

Variable self : Lesson4.MultiHeadAttention.
Variables x x' : tensor.
Variables B B' S E : nat.
Variables b b' : nat.

Hypothesis Hx : shape x = [B; S; E].
Hypothesis Hx' : shape x' = [B'; S; E].
Hypothesis Hsame :
  forall i k, i < S -> k < E -> get x [b; i; k] = get x' [b'; i; k].

Lemma proj_same_sequence (l : Linear) (i f : nat) :
  i < S -> AttentionSpec.proj x l b i f = AttentionSpec.proj x' l b' i f.
Proof.
  intros Hi. unfold AttentionSpec.proj. rewrite Hx, Hx'. cbn [nth].
  f_equal. apply sumR_ext. intros k Hk. now rewrite Hsame.
Qed.

Lemma scores_same_sequence (h i j : nat) :
  i < S -> j < S ->
  AttentionSpec.scores self x b h i j = AttentionSpec.scores self x' b' h i j.
Proof.
  intros Hi Hj. unfold AttentionSpec.scores. f_equal.
  apply sumR_ext. intros d _.
  now rewrite !proj_same_sequence.
Qed.

Lemma weights_same_sequence (h i j : nat) :
  i < S -> j < S ->
  AttentionSpec.weights self x b h i j
  = AttentionSpec.weights self x' b' h i j.
Proof.
  intros Hi Hj. unfold AttentionSpec.weights. rewrite Hx, Hx'. cbn [nth].
  rewrite scores_same_sequence by assumption. f_equal.
  apply sumR_ext. intros j' Hj'. now rewrite scores_same_sequence.
Qed.

Lemma result_same_sequence (i e : nat) :
  i < S ->
  AttentionSpec.result self x b i e = AttentionSpec.result self x' b' i e.
Proof.
  intros Hi. unfold AttentionSpec.result. rewrite Hx, Hx'. cbn [nth].
  f_equal. apply sumR_ext. intros f _. f_equal.
  unfold AttentionSpec.merged, AttentionSpec.head_out.
  rewrite Hx, Hx'. cbn [nth].
  apply sumR_ext. intros j Hj.
  rewrite weights_same_sequence by assumption.
  now rewrite proj_same_sequence.
Qed.

End BatchIndependence.

(** X10.  Lesson 4's attention never mixes the sequences of a batch: if
    sequence [b] of one batch and sequence [b'] of another batch hold the
    same vectors, the results and the attention weights returned for
    them are equal, whatever the other sequences of the two batches are
    and however many there are. *)
Theorem X10_attention_does_not_mix_batch_elements
  (self : Lesson4.MultiHeadAttention) (x x' : tensor)
  (B B' S b b' : nat) :
  Lesson4_MHA_ok self ->
  shape x = [B; S; Lesson4.embed_dim self] ->
  shape x' = [B'; S; Lesson4.embed_dim self] ->
  b < B -> b' < B' ->
  (forall i k, i < S -> k < Lesson4.embed_dim self ->
     get x [b; i; k] = get x' [b'; i; k]) ->
  exists res w res' w',
    Lesson4.MultiHeadAttention_forward self x = Ok (res, w) /\
    Lesson4.MultiHeadAttention_forward self x' = Ok (res', w') /\
    (forall i e, i < S -> e < Lesson4.embed_dim self ->
       get res [b; i; e] = get res' [b'; i; e]) /\
    (forall h i j, h < Lesson4.num_heads self -> i < S -> j < S ->
       get w [b; h; i; j] = get w' [b'; h; i; j]).
Proof.
  intros Hok Hx Hx' Hb Hb' Hsame.
  destruct (@Lesson4_forward_char self x B S Hok Hx)
    as (res & w & Hf & Hsr & _ & Hsw & _ & Hw & Hr).
  destruct (@Lesson4_forward_char self x' B' S Hok Hx')
    as (res' & w' & Hf' & Hsr' & _ & Hsw' & _ & Hw' & Hr').
  exists res, w, res', w'. split; [exact Hf|]. split; [exact Hf'|]. split.
  - intros i e Hi He.
    rewrite get3 with (A := B) (B := S) (C := Lesson4.embed_dim self)
      by assumption.
    rewrite get3 with (A := B') (B := S) (C := Lesson4.embed_dim self)
      by assumption.
    rewrite Hr, Hr' by assumption.
    now apply (@result_same_sequence self x x' B B' S
                 (Lesson4.embed_dim self) b b').
  - intros h i j Hh Hi Hj.
    rewrite get4 with (A := B) (B := Lesson4.num_heads self) (C := S) (D := S)
      by assumption.
    rewrite get4 with (A := B') (B := Lesson4.num_heads self) (C := S) (D := S)
      by assumption.
    rewrite Hw, Hw' by assumption.
    now apply (@weights_same_sequence self x x' B B' S
                 (Lesson4.embed_dim self) b b').
Qed.

Lemma get_zeros (s idx : list nat) : get (zeros s) idx = 0%R.
Proof. unfold get, at_, zeros. cbn [data]. apply nth_repeat. Qed.

Lemma X10_witness :
  exists res w res' w',
    Lesson4.MultiHeadAttention_forward example_attention4 example_batch1
    = Ok (res, w) /\
    Lesson4.MultiHeadAttention_forward example_attention4 example_batch2
    = Ok (res', w') /\
    (forall i e, i < 3 -> e < 2 -> get res [0; i; e] = get res' [1; i; e]) /\
    (forall h i j, h < 2 -> i < 3 -> j < 3 ->
       get w [0; h; i; j] = get w' [1; h; i; j]).
Proof.
  apply (@X10_attention_does_not_mix_batch_elements
           example_attention4 example_batch1 example_batch2 1 2 3 0 1).
  - exact example_attention4_ok.
  - reflexivity.
  - reflexivity.
  - lia.
  - lia.
  - intros i k _ _. unfold example_batch1, example_batch2.
    now rewrite !get_zeros.
Defined.

(* ================================================================== *)
(** * The mean over the heads *)

Lemma mean_dim1_spec (t : tensor) (n h l s : nat) :
  shape t = [n; h; l; s] ->
  exists y,
    mean_dim1 t = Ok y /\ shape y = [n; l; s] /\ wf y /\
    forall b i j, b < n -> i < l -> j < s ->
      at_ y ((b * l + i) * s + j)
      = (sumR h (fun k => at_ t (((b * h + k) * l + i) * s + j)) / INR h)%R.
Proof.
  intros Hs. unfold mean_dim1. rewrite Hs.
  eexists. split; [reflexivity|]. split; [reflexivity|]. split.
  - unfold wf. cbn [data shape]. now rewrite length_tab, numel3.
  - intros b i j Hb Hi Hj.
    rewrite at_tab by now apply offset3_lt.
    assert (Hr : i * s + j < l * s) by now apply offset_lt.
    replace ((b * l + i) * s + j) with (b * (l * s) + (i * s + j)) by ring.
    destruct (div_mod_offset b Hr) as [Hd Hm]. cbv zeta. rewrite Hd, Hm.
    f_equal. apply sumR_ext. intros k _. f_equal. ring.
Qed.

(* ================================================================== *)
(** * Lesson 5's attention returns the average of the heads' weights *)

Lemma head_offset (l n h d N H D E : nat) :
  H * D = E ->
  (l * (N * H) + (n * H + h)) * D + d = (l * N + n) * E + (h * D + d).
Proof. intros <-. ring. Qed.

Lemma Lesson5_forward_char
  (self : Lesson5.MultiHeadAttention) (x : tensor) (B S : nat) :
  nn_MHA_ok (Lesson5.mha_attention self) ->
  shape x = [B; S; nn.embed_dim (Lesson5.mha_attention self)] ->
  exists o w,
    Lesson5.MultiHeadAttention_forward self x = Ok (o, w) /\
    shape w = [B; S; S] /\ wf w /\
    forall b i j, b < B -> i < S -> j < S ->
      at_ w ((b * S + i) * S + j)
      = AveragedSpec.averaged_weights (Lesson5.mha_attention self) x b i j.
Proof.
  destruct self as [[E H D Win bin op]].
  unfold nn_MHA_ok.
  cbn [Lesson5.mha_attention nn.embed_dim nn.num_heads nn.head_dim
       nn.in_proj_weight nn.in_proj_bias nn.out_proj].
  intros (HH & HD & HE & HWin & Hbin & (HWo & Hbo & _ & _)) Hx.
  set (L := S). set (N := B).
  destruct (@transpose01_3d x B S E Hx) as (xt & Hxt & Hsxt & _ & Hatxt).
  destruct (@linear_spec xt Win bin [L; N] E (3 * E) HWin Hsxt)
    as (P & HP & HsP & _ & HatP).
  destruct (@narrow_last_shape P [L; N] (3 * E) 0 E HsP ltac:(lia))
    as (q0 & Hq0 & Hsq0 & _ & Hatq0).
  destruct (@narrow_last_shape P [L; N] (3 * E) E E HsP ltac:(lia))
    as (k0 & Hk0 & Hsk0 & _ & Hatk0).
  destruct (@narrow_last_shape P [L; N] (3 * E) (2 * E) E HsP ltac:(lia))
    as (v0 & Hv0 & Hsv0 & _ & _).
  cbn [app] in Hsq0, Hsk0, Hsv0.
  assert (Hn : numel [L; N * H; D] = numel [L; N; E])
    by (rewrite !numel3, <- HE; ring).
  destruct (@transpose01_3d (mkT [L; N * H; D] (data q0)) L (N * H) D eq_refl)
    as (q & Hq & Hsq & _ & Hatq).
  destruct (@transpose01_3d (mkT [L; N * H; D] (data k0)) L (N * H) D eq_refl)
    as (k & Hk & Hsk & _ & Hatk).
  destruct (@transpose01_3d (mkT [L; N * H; D] (data v0)) L (N * H) D eq_refl)
    as (v & Hv & Hsv & _ & _).
  destruct (@transpose_last2_3d k (N * H) L D Hsk)
    as (kt & Hkt & Hskt & _ & Hatkt).
  assert (Hsqs : shape (mul_scalar q (sqrt (1 / INR D))) = [N * H] ++ [L; D])
    by exact Hsq.
  destruct (@matmul_spec _ kt [N * H] L D L Hsqs Hskt)
    as (w0 & Hw0 & Hsw0 & _ & Hatw0).
  assert (Hsw0' : shape w0 = [N * H; L] ++ [L]) by exact Hsw0.
  destruct (@softmax_spec w0 [N * H; L] L Hsw0') as (Hsw1 & Hww1 & Hatw1).
  set (w1 := softmax w0) in *.
  rewrite Hsw0 in Hsw1.
  destruct (@matmul_spec w1 v [N * H] L L D Hsw1 Hsv)
    as (o0 & Ho0 & Hso0 & _ & _).
  cbn [app] in Hso0.
  destruct (@transpose01_3d o0 (N * H) L D Hso0) as (o1 & Ho1 & Hso1 & _ & _).
  destruct (@linear_spec (mkT [L * N; E] (data o1)) (weight op) (bias op)
              [L * N] E E HWo eq_refl) as (o2 & Ho2 & Hso2 & Hwo2 & _).
  cbn [app] in Hso2.
  destruct (@mean_dim1_spec (mkT [N; H; L; L] (data w1)) N H L L eq_refl)
    as (w2 & Hw2 & Hsw2 & Hww2 & Hatw2).
  destruct (@transpose01_3d (mkT [L; N; E] (data o2)) L N E eq_refl)
    as (ot & Hot & _).
  subst L N.
  exists ot, w2.
  split; [|split; [exact Hsw2 | split; [exact Hww2|]]].
  - unfold Lesson5.MultiHeadAttention_forward. rewrite Hxt. cbn [rbind].
    unfold nn.MultiheadAttention_forward. rewrite Hsxt.
    unfold nn.forward_batched, size3. rewrite Hsxt.
    cbn [rbind Lesson5.mha_attention nn.embed_dim nn.num_heads nn.head_dim
         nn.in_proj_weight nn.in_proj_bias nn.out_proj].
    rewrite Nat.eqb_refl. cbn [assert rbind].
    rewrite HP. cbn [rbind]. rewrite Hq0. cbn [rbind].
    rewrite Hk0. cbn [rbind]. rewrite Hv0. cbn [rbind].
    rewrite view_ok by (rewrite Hsq0; exact Hn). cbn [rbind].
    rewrite Hq. cbn [rbind].
    rewrite view_ok by (rewrite Hsk0; exact Hn). cbn [rbind].
    rewrite Hk. cbn [rbind].
    rewrite view_ok by (rewrite Hsv0; exact Hn). cbn [rbind].
    rewrite Hv. cbn [rbind].
    rewrite Hkt. cbn [rbind]. rewrite Hw0. cbn [rbind].
    cbv zeta. fold w1. rewrite Ho0. cbn [rbind].
    rewrite Ho1. cbn [rbind]. unfold contiguous.
    rewrite view_ok by (rewrite Hso1, numel2, numel3, <- HE; ring).
    cbn [rbind]. rewrite Ho2. cbn [rbind].
    rewrite view_ok by (rewrite Hso2, numel2, numel3; ring).
    cbn [rbind].
    rewrite view_ok by (rewrite Hsw1; cbn [app]; rewrite numel3, numel4; ring).
    cbn [rbind]. rewrite Hw2. cbn [rbind]. rewrite Hot. reflexivity.
  - intros b i j Hb Hi Hj.
    rewrite Hatw2 by assumption.
    unfold AveragedSpec.averaged_weights, AveragedSpec.head_weights.
    cbn [nn.num_heads nn.head_dim nn.embed_dim nn.in_proj_weight
         nn.in_proj_bias].
    rewrite Hx. cbn [nth].
    f_equal. apply sumR_ext. intros h Hh.
    assert (Hm : b * H + h < B * H) by now apply offset_lt.
    assert (Hr : (b * H + h) * S + i < numel [B * H; S]).
    { rewrite numel2. now apply offset_lt. }
    change (at_ (mkT [B; H; S; S] (data w1)) (((b * H + h) * S + i) * S + j))
      with (at_ w1 (((b * H + h) * S + i) * S + j)).
    rewrite (Hatw1 _ j Hr Hj).
    (* every score of the row is the specification's score *)
    assert (Hscore : forall j', j' < S ->
              at_ w0 (((b * H + h) * S + i) * S + j')
              = AveragedSpec.head_scores
                  (nn.mkMultiheadAttention E H D Win bin op) x b h i j').
    { intros j' Hj'.
      rewrite Hatw0; [| unfold numel; simpl; lia | assumption | assumption].
      unfold AveragedSpec.head_scores.
      cbn [nn.num_heads nn.head_dim nn.embed_dim nn.in_proj_weight
           nn.in_proj_bias].
      apply sumR_ext. intros d Hd.
      rewrite at_mul_scalar, Hatkt by assumption.
      rewrite Hatq, Hatk by assumption.
      change (at_ (mkT [S; B * H; D] (data q0)) ?k) with (at_ q0 k).
      change (at_ (mkT [S; B * H; D] (data k0)) ?k) with (at_ k0 k).
      rewrite !(@head_offset _ b h d B H D E HE).
      assert (Hf : h * D + d < E) by (rewrite <- HE; now apply offset_lt).
      assert (Hri : i * B + b < numel [S; B])
        by (rewrite numel2; now apply offset_lt).
      assert (Hrj : j' * B + b < numel [S; B])
        by (rewrite numel2; now apply offset_lt).
      rewrite (Hatq0 _ _ Hri Hf), (Hatk0 _ _ Hrj Hf).
      rewrite <- !Nat.add_assoc.
      rewrite !HatP by (assumption || lia).
      unfold AveragedSpec.in_proj.
      cbn [nn.num_heads nn.head_dim nn.embed_dim nn.in_proj_weight
           nn.in_proj_bias].
      rewrite !(@get1 bin (3 * E)) by assumption.
      replace (0 * E + (h * D + d)) with (0 + (h * D + d)) by lia.
      replace (1 * E + (h * D + d)) with (E + (h * D + d)) by lia.
      f_equal; [f_equal|].
      - f_equal. apply sumR_ext. intros t Ht.
        rewrite (@get3 x B S E) by assumption.
        rewrite (@get2 Win (3 * E) E) by assumption.
        rewrite Hatxt by assumption. reflexivity.
      - f_equal. apply sumR_ext. intros t Ht.
        rewrite (@get3 x B S E) by assumption.
        rewrite (@get2 Win (3 * E) E) by assumption.
        rewrite Hatxt by assumption. reflexivity. }
    rewrite (Hscore j Hj).
    f_equal. apply sumR_ext. intros j' Hj'. now rewrite (Hscore j' Hj').
Qed.

(** C8 (amended).  Lesson 4's [MultiHeadAttention.forward] returns weights
    of shape (batch, num_heads, seq_length, seq_length), one full softmax
    matrix per head; lesson 5's [MultiHeadAttention.forward], which wraps
    the built-in layer called with its defaults, returns weights of shape
    (batch, seq_length, seq_length): entry by entry, the average over the
    heads of the per-head softmax matrices. *)
Theorem C8_weights_shape_per_lesson
  (self4 : Lesson4.MultiHeadAttention) (self5 : Lesson5.MultiHeadAttention)
  (x4 x5 : tensor) (B S : nat) :
  Lesson4_MHA_ok self4 ->
  nn_MHA_ok (Lesson5.mha_attention self5) ->
  shape x4 = [B; S; Lesson4.embed_dim self4] ->
  shape x5 = [B; S; nn.embed_dim (Lesson5.mha_attention self5)] ->
  (exists res w,
      Lesson4.MultiHeadAttention_forward self4 x4 = Ok (res, w) /\
      shape w = [B; Lesson4.num_heads self4; S; S] /\ wf w /\
      forall b h i j,
        b < B -> h < Lesson4.num_heads self4 -> i < S -> j < S ->
        get w [b; h; i; j] = AttentionSpec.weights self4 x4 b h i j) /\
  (exists res w,
      Lesson5.MultiHeadAttention_forward self5 x5 = Ok (res, w) /\
      shape w = [B; S; S] /\ wf w /\
      forall b i j,
        b < B -> i < S -> j < S ->
        get w [b; i; j]
        = AveragedSpec.averaged_weights (Lesson5.mha_attention self5) x5
            b i j).
Proof.
  intros Hok4 Hok5 Hx4 Hx5. split.
  - destruct (@Lesson4_forward_char self4 x4 B S Hok4 Hx4)
      as (res & w & Hf & _ & _ & Hsw & Hww & Hw & _).
    exists res, w. split; [exact Hf|]. split; [exact Hsw|].
    split; [exact Hww|].
    intros b h i j Hb Hh Hi Hj.
    rewrite get4 with (A := B) (B := Lesson4.num_heads self4) (C := S) (D := S)
      by assumption.
    now apply Hw.
  - destruct (@Lesson5_forward_char self5 x5 B S Hok5 Hx5)
      as (res & w & Hf & Hsw & Hww & Hw).
    exists res, w. split; [exact Hf|]. split; [exact Hsw|].
    split; [exact Hww|].
    intros b i j Hb Hi Hj.
    rewrite get3 with (A := B) (B := S) (C := S) by assumption.
    now apply Hw.
Qed.

Lemma C8_witness :
  (exists res w,
      Lesson4.MultiHeadAttention_forward example_attention4 example_batch1
      = Ok (res, w) /\
      shape w = [1; 2; 3; 3] /\ wf w /\
      forall b h i j,
        b < 1 -> h < 2 -> i < 3 -> j < 3 ->
        get w [b; h; i; j]
        = AttentionSpec.weights example_attention4 example_batch1 b h i j) /\
  (exists res w,
      Lesson5.MultiHeadAttention_forward example_attention5 example_batch1
      = Ok (res, w) /\
      shape w = [1; 3; 3] /\ wf w /\
      forall b i j,
        b < 1 -> i < 3 -> j < 3 ->
        get w [b; i; j]
        = AveragedSpec.averaged_weights
            (Lesson5.mha_attention example_attention5) example_batch1 b i j).
Proof.
  apply (@C8_weights_shape_per_lesson
           example_attention4 example_attention5
           example_batch1 example_batch1 1 3).
  - exact example_attention4_ok.
  - exact example_attention5_ok.
  - reflexivity.
  - reflexivity.
Defined.

(** C8, as stated, fails on lesson 5: with two heads and a sequence of
    three tokens the weights it returns have shape (1, 3, 3), not
    (1, 2, 3, 3). *)
Lemma C8_counterexample :
  exists res w,
    Lesson5.MultiHeadAttention_forward example_attention5 example_batch1
    = Ok (res, w) /\
    shape w = [1; 3; 3] /\
    shape w <> [1; nn.num_heads (Lesson5.mha_attention example_attention5);
                3; 3].
Proof.
  destruct (@Lesson5_MHA_forward_shape example_attention5 example_batch1
              1 3 example_attention5_ok eq_refl)
    as (res & w & Hf & _ & _ & Hsw & _).
  exists res, w. split; [exact Hf|]. split; [exact Hsw|].
  rewrite Hsw. discriminate.
Qed.

(* ================================================================== *)
(** * Binary32 numbers: rounding, rows of a softmax *)

Ltac f32_lra :=
  unfold F32.overflow_threshold, F32.underflow_threshold in *; lra.

Lemma thresholds_pos :
  (0 < F32.underflow_threshold < 1)%R /\ (1 < F32.overflow_threshold)%R.
Proof. f32_lra. Qed.

(** A non-negative real that is 0 or above the underflow threshold, and
    below the overflow threshold, is kept as it is. *)
Lemma round_keeps (r : R) :
  (r = 0 \/ F32.underflow_threshold < r)%R ->
  (r < F32.overflow_threshold)%R ->
  F32.round r = F32.Fin r.
Proof.
  intros Hr Hlt. pose proof thresholds_pos as [Hu HT].
  unfold F32.round.
  destruct (Rle_dec F32.overflow_threshold r) as [H1|H1]; [lra|].
  destruct (Rle_dec r (- F32.overflow_threshold)) as [H2|H2].
  { destruct Hr as [-> | Hr]; lra. }
  destruct (Rle_dec (Rabs r) F32.underflow_threshold) as [H3|H3].
  - destruct Hr as [-> | Hr]; [reflexivity|].
    rewrite Rabs_right in H3 by lra. lra.
  - reflexivity.
Qed.




Lemma In_tab {A} (n : nat) (f : nat -> A) (v : A) :
  In v (tab n f) <-> exists k, k < n /\ v = f k.
Proof.
  unfold tab. rewrite in_map_iff. split.
  - intros (k & Hk & Hin). apply in_seq in Hin. exists k. split; [lia|auto].
  - intros (k & Hk & ->). exists k. split; [reflexivity|].
    apply in_seq. lia.
Qed.










Lemma F32_at_tab (s : list nat) (n : nat) (f : nat -> F32.f32) (k : nat) :
  k < n -> F32.at_ (F32.mkFT s (tab n f)) k = f k.
Proof. intros Hk. unfold F32.at_. cbn [F32.fdata]. now apply nth_tab. Qed.


(* ================================================================== *)
(** * Lesson 4's attention on binary32 numbers: what it returns *)

Lemma F32_view_ok (t : F32.ftensor) (s : list nat) :
  numel s = numel (F32.fshape t) ->
  F32.view t s = Ok (F32.mkFT s (F32.fdata t)).
Proof. intros H. unfold F32.view. now rewrite H, Nat.eqb_refl. Qed.

Lemma F32_linear_shape (x W b : F32.ftensor) (pre : list nat) (i o : nat) :
  F32.fshape W = [o; i] ->
  F32.fshape x = pre ++ [i] ->
  exists y, F32.linear x W b = Ok y /\ F32.fshape y = pre ++ [o].
Proof.
  intros HW Hx. unfold F32.linear. rewrite HW, Hx, rev_app_distr. simpl rev.
  cbn [app]. rewrite Nat.eqb_refl, rev_involutive.
  eexists. split; reflexivity.
Qed.

Lemma F32_Linear_forward_shape
  (l : Linear) (x : F32.ftensor) (pre : list nat) (i o : nat) :
  Linear_ok l i o ->
  F32.fshape x = pre ++ [i] ->
  exists y, F32.Linear_forward l x = Ok y /\ F32.fshape y = pre ++ [o].
Proof.
  intros (HW & _) Hx. unfold F32.Linear_forward.
  apply (@F32_linear_shape x (F32.of_real (weight l)) (F32.of_real (bias l))
           pre i o); [exact HW | exact Hx].
Qed.

Lemma F32_transpose12_4d (t : F32.ftensor) (A B C D : nat) :
  F32.fshape t = [A; B; C; D] ->
  exists t', F32.transpose t 1 2 = Ok t' /\ F32.fshape t' = [A; C; B; D].
Proof.
  intros Hs. unfold F32.transpose. rewrite Hs.
  change (norm_dim (length [A; B; C; D]) 1) with (@Ok nat 1).
  change (norm_dim (length [A; B; C; D]) 2) with (@Ok nat 2).
  cbn [rbind]. eexists. split; reflexivity.
Qed.

Lemma F32_transpose_last2_4d (t : F32.ftensor) (A B C D : nat) :
  F32.fshape t = [A; B; C; D] ->
  exists t', F32.transpose t (-2) (-1) = Ok t' /\
             F32.fshape t' = [A; B; D; C].
Proof.
  intros Hs. unfold F32.transpose. rewrite Hs.
  change (norm_dim (length [A; B; C; D]) (-2)) with (@Ok nat 2).
  change (norm_dim (length [A; B; C; D]) (-1)) with (@Ok nat 3).
  cbn [rbind]. eexists. split; reflexivity.
Qed.

Lemma F32_matmul_shape (a b : F32.ftensor) (batch : list nat) (n k m : nat) :
  F32.fshape a = batch ++ [n; k] ->
  F32.fshape b = batch ++ [k; m] ->
  exists c, F32.matmul a b = Ok c /\ F32.fshape c = batch ++ [n; m].
Proof.
  intros Ha Hb. unfold F32.matmul. rewrite Ha, Hb, !rev_app_distr.
  simpl rev. cbn [app].
  rewrite Nat.eqb_refl, shape_eqb_refl, rev_involutive. cbn [andb].
  eexists. split; reflexivity.
Qed.

Lemma F32_softmax_shape (t : F32.ftensor) :
  F32.fshape (F32.softmax t) = F32.fshape t.
Proof. reflexivity. Qed.

Lemma F32_split_heads (l : Linear) (x : F32.ftensor) (B S H D E : nat) :
  H * D = E -> Linear_ok l E E -> F32.fshape x = [B; S; E] ->
  exists P P2,
    F32.Linear_forward l x = Ok P /\
    F32.view P [B; S; H; D] = Ok (F32.mkFT [B; S; H; D] (F32.fdata P)) /\
    F32.transpose (F32.mkFT [B; S; H; D] (F32.fdata P)) 1 2 = Ok P2 /\
    F32.fshape P2 = [B; H; S; D].
Proof.
  intros HE Hl Hx.
  destruct (@F32_Linear_forward_shape l x [B; S] E E Hl Hx)
    as (P & HP & HsP).
  cbn [app] in HsP.
  destruct (@F32_transpose12_4d (F32.mkFT [B; S; H; D] (F32.fdata P))
              B S H D eq_refl) as (P2 & HP2 & HsP2).
  exists P, P2. split; [exact HP|]. split; [|split; assumption].
  apply F32_view_ok. rewrite HsP, numel3, numel4, <- HE. ring.
Qed.

(** On every input of shape (B, S, embed_dim) the forward pass returns,
    and the weights it returns are the softmax of [attention_scores]. *)
Lemma F32_forward_weights
  (self : Lesson4.MultiHeadAttention) (x : F32.ftensor) (B S : nat) :
  Lesson4_MHA_ok self ->
  F32.fshape x = [B; S; Lesson4.embed_dim self] ->
  exists sc res,
    F32.attention_scores self x = Ok sc /\
    F32.fshape sc = [B; Lesson4.num_heads self; S; S] /\
    F32.MultiHeadAttention_forward self x = Ok (res, F32.softmax sc) /\
    F32.fshape res = [B; S; Lesson4.embed_dim self].
Proof.
  destruct self as [E H D q k v o sc].
  unfold Lesson4_MHA_ok. cbn [Lesson4.embed_dim Lesson4.num_heads
    Lesson4.head_dim Lesson4.query Lesson4.key Lesson4.value Lesson4.out
    Lesson4.scale].
  intros (HH & HD & HE & Hq & Hk & Hv & Ho & Hsc) Hx.
  destruct (@F32_split_heads q x B S H D E HE Hq Hx)
    as (Q0 & Q & HQ0 & HQ1 & HQ & HsQ).
  destruct (@F32_split_heads k x B S H D E HE Hk Hx)
    as (K0 & K & HK0 & HK1 & HK & HsK).
  destruct (@F32_split_heads v x B S H D E HE Hv Hx)
    as (V0 & V & HV0 & HV1 & HV & HsV).
  destruct (@F32_transpose_last2_4d K B H S D HsK) as (Kt & HKt & HsKt).
  destruct (@F32_matmul_shape Q Kt [B; H] S D S HsQ HsKt)
    as (QK & HQK & HsQK).
  cbn [app] in HsQK.
  set (scores := F32.mul_scalar QK sc).
  assert (Hss : F32.fshape scores = [B; H; S; S]) by exact HsQK.
  set (W := F32.softmax scores).
  assert (HsW : F32.fshape W = [B; H] ++ [S; S]) by exact Hss.
  destruct (@F32_matmul_shape W V [B; H] S S D HsW HsV)
    as (O & HO & HsO).
  cbn [app] in HsO.
  destruct (@F32_transpose12_4d O B H S D HsO) as (O2 & HO2 & HsO2).
  destruct (@F32_Linear_forward_shape o
              (F32.mkFT [B; S; E] (F32.fdata O2)) [B; S] E E Ho eq_refl)
    as (res & Hres & Hsres).
  cbn [app] in Hsres.
  exists scores, res.
  split; [|split; [exact Hss | split; [|exact Hsres]]].
  - unfold F32.attention_scores, F32.size3. rewrite Hx.
    cbn [rbind Lesson4.embed_dim Lesson4.num_heads Lesson4.head_dim
         Lesson4.query Lesson4.key Lesson4.scale].
    rewrite HQ0. cbn [rbind]. rewrite HK0. cbn [rbind].
    rewrite HQ1. cbn [rbind]. rewrite HQ. cbn [rbind].
    rewrite HK1. cbn [rbind]. rewrite HK. cbn [rbind].
    rewrite HKt. cbn [rbind]. rewrite HQK. reflexivity.
  - unfold F32.MultiHeadAttention_forward, F32.size3. rewrite Hx.
    cbn [rbind Lesson4.embed_dim Lesson4.num_heads Lesson4.head_dim
         Lesson4.query Lesson4.key Lesson4.value Lesson4.out Lesson4.scale].
    rewrite HQ0. cbn [rbind]. rewrite HK0. cbn [rbind].
    rewrite HV0. cbn [rbind].
    rewrite HQ1. cbn [rbind]. rewrite HQ. cbn [rbind].
    rewrite HK1. cbn [rbind]. rewrite HK. cbn [rbind].
    rewrite HV1. cbn [rbind]. rewrite HV. cbn [rbind].
    rewrite HKt. cbn [rbind]. rewrite HQK. cbn [rbind].
    cbv zeta. fold scores. fold W. rewrite HO. cbn [rbind].
    rewrite HO2. cbn [rbind]. unfold F32.contiguous.
    rewrite F32_view_ok by (rewrite HsO2, numel3, numel4, <- HE; ring).
    cbn [rbind]. rewrite Hres. reflexivity.
Qed.

Lemma F32_get4 (t : F32.ftensor) (A B C D a b c d : nat) :
  F32.fshape t = [A; B; C; D] ->
  F32.get t [a; b; c; d] = F32.at_ t (((a * B + b) * C + c) * D + d).
Proof. intros H. unfold F32.get. now rewrite H, ravel4. Qed.

(* ================================================================== *)
(** * Attention weights on binary32 numbers *)

Lemma round_over (r : R) :
  (F32.overflow_threshold <= r)%R -> F32.round r = F32.PInf.
Proof.
  intros H. unfold F32.round.
  destruct (Rle_dec F32.overflow_threshold r); [reflexivity | contradiction].
Qed.

Lemma inf_times_pos (positive : bool) (x : R) :
  (0 < x)%R ->
  F32.inf_times positive x = if positive then F32.PInf else F32.NInf.
Proof.
  intros H. unfold F32.inf_times.
  destruct (Req_dec_T x 0); [lra|].
  destruct (Rlt_dec 0 x); [reflexivity | lra].
Qed.

Lemma Rpower_base_one (y : R) : Rpower (INR 1) y = 1%R.
Proof.
  unfold Rpower. change (INR 1) with 1%R.
  now rewrite ln_1, Rmult_0_r, exp_0.
Qed.

(** Evaluation of a closed binary32 expression in a hypothesis: every
    rounding is decided by linear arithmetic. *)
Ltac f32_eval_in H :=
  repeat (cbn [F32.fadd F32.fmul F32.fsub F32.fneg F32.fexp F32.fdiv
               F32.fmax] in H;
          match type of H with
          | context [F32.round ?r] =>
              first
                [ rewrite (@round_keeps r) in H
                    by (first [left; lra | right; f32_lra | f32_lra])
                | rewrite (@round_over r) in H by f32_lra ]
          | context [F32.inf_times ?b ?x] =>
              rewrite (@inf_times_pos b x) in H by lra
          end).

Ltac f32_unfold_in H :=
  cbv -[F32.round F32.fadd F32.fmul F32.fsub F32.fneg F32.fexp F32.fdiv
        F32.fmax F32.inf_times
        Rplus Rmult Rminus Ropp Rinv Rdiv exp IZR INR Rpower] in H;
  rewrite ?Rpower_base_one in H.


Lemma identity_attention_ok : Lesson4_MHA_ok identity_attention.
Proof.
  unfold Lesson4_MHA_ok, Linear_ok, wf. cbn.
  repeat split; lia.
Qed.



(* ================================================================== *)
(** * A score that is not finite *)

Lemma fmax_list_pinf (l : list F32.f32) :
  In F32.PInf l ->
  fold_right F32.fmax F32.NInf l = F32.PInf \/
  fold_right F32.fmax F32.NInf l = F32.NaN.
Proof.
  induction l as [|a l IH]; [intros []|].
  intros [-> | Hin]; cbn [fold_right].
  - destruct (fold_right F32.fmax F32.NInf l); auto.
  - destruct (IH Hin) as [-> | ->]; destruct a; auto.
Qed.

Lemma fsum_list_nan_acc (l : list F32.f32) :
  fold_left F32.fadd l F32.NaN = F32.NaN.
Proof. induction l as [|a l IH]; [reflexivity | exact IH]. Qed.

Lemma fsum_list_nan (l : list F32.f32) (acc : F32.f32) :
  In F32.NaN l -> fold_left F32.fadd l acc = F32.NaN.
Proof.
  revert acc. induction l as [|a l IH]; intros acc; [intros []|].
  intros [-> | Hin]; cbn [fold_left].
  - replace (F32.fadd acc F32.NaN) with F32.NaN by (now destruct acc).
    apply fsum_list_nan_acc.
  - now apply IH.
Qed.

Lemma fdiv_nan (a : F32.f32) : F32.fdiv a F32.NaN = F32.NaN.
Proof. now destruct a. Qed.

(** A row of scores that holds an infinity [+inf] or a NaN becomes a row
    of NaN. *)
Lemma F32_softmax_row_nan (t : F32.ftensor) (pre : list nat) (n r j0 : nat) :
  F32.fshape t = pre ++ [n] -> r < numel pre -> j0 < n ->
  F32.at_ t (r * n + j0) = F32.PInf \/ F32.at_ t (r * n + j0) = F32.NaN ->
  forall j, j < n -> F32.at_ (F32.softmax t) (r * n + j) = F32.NaN.
Proof.
  intros Hs Hr Hj0 Hbad j Hj.
  unfold F32.softmax. rewrite Hs, rev_app_distr. simpl rev. cbn [app].
  rewrite F32_at_tab.
  2:{ rewrite numel_app. unfold numel at 2. simpl.
      rewrite Nat.mul_1_r. now apply offset_lt. }
  destruct (div_mod_offset r Hj) as [Hd _]. cbv zeta. rewrite Hd.
  set (row := fun j' => F32.at_ t (r * n + j')).
  set (m := F32.fmax_row n row).
  assert (Hexp : F32.fexp (F32.fsub (row j0) m) = F32.NaN).
  { unfold row. destruct Hbad as [Hb | Hb]; rewrite Hb.
    - assert (Hm : m = F32.PInf \/ m = F32.NaN).
      { apply fmax_list_pinf. apply In_tab. exists j0. split; [exact Hj0|].
        unfold row. now rewrite Hb. }
      destruct Hm as [-> | ->]; reflexivity.
    - now destruct m. }
  unfold F32.fsum. rewrite fsum_list_nan; [apply fdiv_nan|].
  apply In_tab. exists j0. split; [exact Hj0 | symmetry; exact Hexp].
Qed.

(** The scores of the overflowing example: the first one is [+inf], the
    others are finite. *)
Lemma overflow_scores :
  exists d,
    F32.attention_scores identity_attention overflow_input
    = Ok (F32.mkFT [1; 2; 2; 2] (F32.PInf :: map F32.Fin d)) /\
    length d = 7.
Proof.
  destruct (@F32_forward_weights identity_attention overflow_input 1 2
              identity_attention_ok eq_refl) as (sc & _ & Hsc & _).
  rewrite Hsc.
  f32_unfold_in Hsc. f32_eval_in Hsc.
  injection Hsc as <-.
  eexists [_; _; _; _; _; _; _]. split; reflexivity.
Qed.


(** X15.  On binary32 numbers, a score of lesson 4's attention that is an
    infinity [+inf] (an overflow) or a NaN turns the attention weights of
    its whole row, all key positions of that head and query position,
    into NaN. *)
Theorem X15_overflowed_score_poisons_its_row
  (self : Lesson4.MultiHeadAttention) (x : F32.ftensor) (B S : nat) :
  Lesson4_MHA_ok self ->
  F32.fshape x = [B; S; Lesson4.embed_dim self] ->
  exists sc res w,
    F32.attention_scores self x = Ok sc /\
    F32.MultiHeadAttention_forward self x = Ok (res, w) /\
    forall b h i j0,
      b < B -> h < Lesson4.num_heads self -> i < S -> j0 < S ->
      F32.get sc [b; h; i; j0] = F32.PInf \/
      F32.get sc [b; h; i; j0] = F32.NaN ->
      forall j, j < S -> F32.get w [b; h; i; j] = F32.NaN.
Proof.
  intros Hok Hx.
  destruct (@F32_forward_weights self x B S Hok Hx)
    as (sc & res & Hsc & Hss & Hf & _).
  exists sc, res, (F32.softmax sc).
  split; [exact Hsc|]. split; [exact Hf|].
  intros b h i j0 Hb Hh Hi Hj0 Hbad j Hj.
  set (H := Lesson4.num_heads self) in *.
  assert (Hs' : F32.fshape sc = [B; H; S] ++ [S]) by exact Hss.
  assert (Hr : (b * H + h) * S + i < numel [B; H; S]).
  { rewrite numel3. now apply offset3_lt. }
  rewrite (@F32_get4 sc B H S S) in Hbad by exact Hss.
  rewrite (@F32_get4 (F32.softmax sc) B H S S) by exact Hss.
  now apply (@F32_softmax_row_nan sc [B; H; S] S _ j0 Hs' Hr Hj0 Hbad).
Qed.

Lemma X15_witness :
  exists sc res w,
    F32.attention_scores identity_attention overflow_input = Ok sc /\
    F32.MultiHeadAttention_forward identity_attention overflow_input
    = Ok (res, w) /\
    F32.get sc [0; 0; 0; 0] = F32.PInf /\
    forall j, j < 2 -> F32.get w [0; 0; 0; j] = F32.NaN.
Proof.
  destruct (@X15_overflowed_score_poisons_its_row
              identity_attention overflow_input 1 2
              identity_attention_ok eq_refl)
    as (sc & res & w & Hsc & Hf & Hrow).
  assert (Hinf : F32.get sc [0; 0; 0; 0] = F32.PInf).
  { destruct overflow_scores as (d & Hd & _).
    rewrite Hsc in Hd. injection Hd as ->. reflexivity. }
  exists sc, res, w. split; [exact Hsc|]. split; [exact Hf|].
  split; [exact Hinf|].
  apply (Hrow 0 0 0 0); [lia | cbn; lia | lia | lia | now left].
Defined.
